(** * fable-xport: record normaliser, review merger, exporters, retrieval
    client and command line

    A shallow embedding of [src/exporters.py], of [src/fable_api.py] and of
    the questions and the file names of [src/cli.py], with the properties
    stated about them.

    Conventions of the embedding.
    - A decoded JSON value is a [pyval].  A Python [dict] keeps its insertion
      order, so it is an association list; its keys are strings, as they are
      for every mapping that comes out of a JSON document.
    - A Python [float] is an IEEE binary64 number, here a [spec_float].
    - A Python [str] is a [string]; one [ascii] stands for one character, so
      the embedding covers the characters below 256.
    - A Python exception is a value of [exn]; code that may raise returns a
      [result].
    - The review merger works on objects with identity (it copies and updates
      dictionaries), so it is embedded over an explicit store, see [Merger]. *)

From Stdlib Require Import ZArith Ascii String List Bool Lia.
From Stdlib Require Import Floats.SpecFloat.
From stdpp Require Import base option list strings pretty.

Import ListNotations.
Set Warnings "-register-all".
Local Open Scope string_scope.
Local Open Scope Z_scope.

(** ** Exceptions and results *)

Inductive exn : Type :=
| TypeError
| AttributeError
| ValueError (msg : string)
| OverflowError
| KeyError
| OSError (msg : string).

Inductive result (A : Type) : Type :=
| Ok (a : A)
| Raise (e : exn).
Arguments Ok {A} a.
Arguments Raise {A} e.

Definition rbind {A B : Type} (c : result A) (k : A -> result B) : result B :=
  match c with
  | Ok a => k a
  | Raise e => Raise e
  end.

Declare Scope result_scope.
Delimit Scope result_scope with result.
Notation "x <- c ;; k" := (rbind c (fun x => k))
  (at level 100, c at next level, right associativity) : result_scope.

(** [mapM f xs]: run [f] on the elements from left to right, stop at the first
    exception. *)
Fixpoint mapM {A B : Type} (f : A -> result B) (xs : list A) : result (list B) :=
  match xs with
  | [] => Ok []
  | x :: xs' =>
      match f x with
      | Ok y => match mapM f xs' with
                | Ok ys => Ok (y :: ys)
                | Raise e => Raise e
                end
      | Raise e => Raise e
      end
  end.

(** ** Values *)

Inductive pyval : Type :=
| VNone
| VBool (b : bool)
| VInt (n : Z)
| VFloat (f : spec_float)
| VStr (s : string)
| VList (xs : list pyval)
| VDict (kvs : list (string * pyval)).

Definition pydict : Type := list (string * pyval).

(** [bool(v)], the truth value Python gives [v] in [if v], [not v], [a or b]. *)
Definition truthy (v : pyval) : bool :=
  match v with
  | VNone => false
  | VBool b => b
  | VInt n => negb (n =? 0)
  | VFloat (S754_zero _) => false
  | VFloat _ => true
  | VStr s => negb (String.eqb s "")
  | VList xs => match xs with [] => false | _ => true end
  | VDict kvs => match kvs with [] => false | _ => true end
  end.

(** [a or b] when evaluating [b] cannot raise. *)
Definition py_or (a b : pyval) : pyval := if truthy a then a else b.

Definition is_dict (v : pyval) : bool :=
  match v with VDict _ => true | _ => false end.

Definition is_list (v : pyval) : bool :=
  match v with VList _ => true | _ => false end.

(** Lookup in a dictionary's entries. *)
Fixpoint assoc (k : string) (d : pydict) : option pyval :=
  match d with
  | [] => None
  | (k', v) :: d' => if String.eqb k k' then Some v else assoc k d'
  end.

(** [d.get(k, dflt)] and [d.get(k)] on a dictionary. *)
Definition get_default (d : pydict) (k : string) (dflt : pyval) : pyval :=
  match assoc k d with Some v => v | None => dflt end.

Definition get (d : pydict) (k : string) : pyval := get_default d k VNone.

(** [v.get(k)] on a value whose type is not known to be [dict]: only a
    dictionary has the method. *)
Definition attr_get (v : pyval) (k : string) : result pyval :=
  match v with
  | VDict d => Ok (get d k)
  | _ => Raise AttributeError
  end.

Definition keys (d : pydict) : list string := map fst d.

(** [for x in v]: the elements a value yields when iterated.  A dictionary
    yields its keys, a string its characters; numbers, booleans and [None] are
    not iterable. *)
Definition chars (s : string) : list pyval :=
  map (fun c => VStr (String c EmptyString)) (list_ascii_of_string s).

Definition py_iter (v : pyval) : result (list pyval) :=
  match v with
  | VList xs => Ok xs
  | VDict kvs => Ok (map (fun kv => VStr (fst kv)) kvs)
  | VStr s => Ok (chars s)
  | _ => Raise TypeError
  end.

(** ** Record normaliser: [normalize_book] *)

Module Normalizer.

(** The keys of the canonical record, in the order the source writes them. *)
Definition canonical_fields : list string :=
  [ "title"; "subtitle"; "authors"; "isbn"; "imprint"; "page_count";
    "published_date"; "description"; "cover_image"; "genres";
    "storygraph_genres"; "moods"; "content_warnings"; "status"; "rating";
    "review"; "review_summary_liked"; "review_summary_disliked";
    "review_summary_disagreed"; "contains_spoilers"; "did_not_finish";
    "review_created_at"; "added_at"; "started_reading_at";
    "finished_reading_at"; "current_page"; "total_pages"; "characters_rating";
    "plot_rating"; "writing_style_rating"; "setting_rating"; "attributes";
    "emoji_reaction"; "spicy_level" ].

(** The record returned for [None], a value that is not a mapping, or an empty
    mapping (exporters.py, lines 16-51). *)
Definition default_record : pydict :=
  [ ("title", VStr "");
    ("subtitle", VStr "");
    ("authors", VList []);
    ("isbn", VNone);
    ("imprint", VNone);
    ("page_count", VNone);
    ("published_date", VNone);
    ("description", VStr "");
    ("cover_image", VStr "");
    ("genres", VList []);
    ("storygraph_genres", VList []);
    ("moods", VList []);
    ("content_warnings", VList []);
    ("status", VNone);
    ("rating", VNone);
    ("review", VStr "");
    ("review_summary_liked", VStr "");
    ("review_summary_disliked", VStr "");
    ("review_summary_disagreed", VStr "");
    ("contains_spoilers", VNone);
    ("did_not_finish", VNone);
    ("review_created_at", VNone);
    ("added_at", VNone);
    ("started_reading_at", VStr "");
    ("finished_reading_at", VStr "");
    ("current_page", VNone);
    ("total_pages", VNone);
    ("characters_rating", VNone);
    ("plot_rating", VNone);
    ("writing_style_rating", VNone);
    ("setting_rating", VNone);
    ("attributes", VList []);
    ("emoji_reaction", VStr "");
    ("spicy_level", VNone) ].

(** [x.get("name")] for the elements [x] that are mappings with a true
    ["name"]: the body of the two list comprehensions (lines 64 and 94). *)
Definition name_of (x : pyval) : option pyval :=
  match x with
  | VDict d => if truthy (get d "name") then Some (get d "name") else None
  | _ => None
  end.

Definition names_of (xs : list pyval) : list pyval := omap name_of xs.

(** Line 54: the nested mapping under ["book"] when there is one, the record
    itself otherwise. *)
Definition book_data_of (book : pydict) : pydict :=
  match get book "book" with
  | VDict nested => nested
  | _ => book
  end.

(** Lines 57-59. *)
Definition authors_of (book_data book : pydict) : pyval :=
  let authors :=
    py_or (py_or (get book_data "authors") (get book "authors")) (VList []) in
  if is_list authors then authors else VList [].

(** Lines 62-64. *)
Definition genres_of (book_data : pydict) : result pyval :=
  if truthy (get book_data "genres") then
    match py_iter (get_default book_data "genres" (VList [])) with
    | Ok gs => Ok (VList (names_of gs))
    | Raise e => Raise e
    end
  else Ok (VList []).

(** Lines 67-70: one entry of the [storygraph_tags] sub-mapping. *)
Definition storygraph_tags_of (book_data : pydict) : pyval :=
  py_or (get book_data "storygraph_tags") (VDict []).

Definition tag_group (storygraph_tags : pyval) (k : string) : pyval :=
  match storygraph_tags with
  | VDict d => get_default d k (VList [])
  | _ => VList []
  end.

(** Lines 73-76: one entry of the [review_summary] sub-mapping. *)
Definition review_summary_of (book_data : pydict) : pyval :=
  py_or (get book_data "review_summary") (VDict []).

Definition summary_part (review_summary : pyval) (k : string) : pyval :=
  match review_summary with
  | VDict d => get d k
  | _ => VStr ""
  end.

(** Lines 79-80. *)
Definition reading_progress_of (book_data : pydict) : pyval :=
  py_or (get book_data "reading_progress") (VDict []).

Definition read_status_of (reading_progress : pyval) : pyval :=
  match reading_progress with
  | VDict d => get d "status"
  | _ => VStr ""
  end.

(** Lines 91-94. *)
Definition attribute_names_of (book : pydict) : pyval :=
  let attributes := py_or (get_default book "attributes" (VList [])) (VList []) in
  match attributes with
  | VList xs => VList (names_of xs)
  | _ => VList []
  end.

(** Line 132: [book.get("emoji_reaction") or (book.get("emoji") or {}).get("content") or ""]. *)
Definition emoji_reaction_of (book : pydict) : result pyval :=
  if truthy (get book "emoji_reaction") then Ok (get book "emoji_reaction")
  else
    match attr_get (py_or (get book "emoji") (VDict [])) "content" with
    | Ok c => Ok (py_or c (VStr ""))
    | Raise e => Raise e
    end.

Local Open Scope result_scope.

(** Lines 54-134: the record built from a non-empty mapping [outer]. *)
Definition normalize_mapping (outer : pydict) : result pyval :=
      let book_data := book_data_of outer in
      let authors := authors_of book_data outer in
      genres <- genres_of book_data ;;
      let storygraph_tags := storygraph_tags_of book_data in
      let moods := tag_group storygraph_tags "moods" in
      let content_warnings := tag_group storygraph_tags "content_warnings" in
      let storygraph_genres := tag_group storygraph_tags "genres" in
      let review_summary := review_summary_of book_data in
      let liked := summary_part review_summary "liked" in
      let disliked := summary_part review_summary "disliked" in
      let disagreed := summary_part review_summary "disagreed" in
      let reading_progress := reading_progress_of book_data in
      let read_status := read_status_of reading_progress in
      current_page <- attr_get reading_progress "current_page" ;;
      total_pages <- attr_get reading_progress "page_count" ;;
      let characters_rating := get outer "characters_rating" in
      let plot_rating := get outer "plot_rating" in
      let writing_style_rating := get outer "writing_style_rating" in
      let setting_rating := get outer "setting_rating" in
      let attribute_names := attribute_names_of outer in
      let cover_image := py_or (get book_data "cover_image") (VStr "") in
      emoji_reaction <- emoji_reaction_of outer ;;
      Ok (VDict
        [ ("title", py_or (get book_data "title") (get outer "title"));
          ("subtitle", py_or (get book_data "subtitle") (VStr ""));
          ("authors", authors);
          ("isbn", py_or (get book_data "isbn") (get outer "isbn"));
          ("imprint",
            py_or (py_or (get book_data "publisher") (get book_data "imprint"))
                  (get outer "publisher"));
          ("page_count",
            py_or (py_or (get book_data "page_count") (get book_data "pages"))
                  (get outer "page_count"));
          ("published_date",
            py_or (py_or (get book_data "published_date")
                         (get book_data "publish_date"))
                  (get outer "published_date"));
          ("description", py_or (get book_data "description") (VStr ""));
          ("cover_image", cover_image);
          ("genres", genres);
          ("storygraph_genres", storygraph_genres);
          ("moods", moods);
          ("content_warnings", content_warnings);
          ("status", py_or read_status (get outer "status"));
          ("rating", get outer "rating");
          ("review", py_or (get outer "review") (VStr ""));
          ("review_summary_liked", liked);
          ("review_summary_disliked", disliked);
          ("review_summary_disagreed", disagreed);
          ("contains_spoilers", get outer "contains_spoilers");
          ("did_not_finish", get outer "did_not_finish");
          ("review_created_at",
            py_or (get outer "review_created_at") (get outer "created_at"));
          ("added_at", get outer "added_at");
          ("started_reading_at",
            py_or (get book_data "started_reading_at") (VStr ""));
          ("finished_reading_at",
            py_or (get book_data "finished_reading_at") (VStr ""));
          ("current_page", current_page);
          ("total_pages", total_pages);
          ("characters_rating", characters_rating);
          ("plot_rating", plot_rating);
          ("writing_style_rating", writing_style_rating);
          ("setting_rating", setting_rating);
          ("attributes", attribute_names);
          ("emoji_reaction", emoji_reaction);
          ("spicy_level", get outer "spicy_level") ]).

Definition normalize_book (book : pyval) : result pyval :=
  if negb (truthy book) || negb (is_dict book) then Ok (VDict default_record)
  else
    match book with
    | VDict outer => normalize_mapping outer
    | _ => Ok (VDict default_record)
    end.

(** [read_from_outer field]: with a nested mapping under ["book"], the value
    of [field] in the normalised record is decided by the rest of the outer
    record alone, whatever the nested mapping holds. *)
Definition read_from_outer (field : string) : Prop :=
  forall (rest nested nested' r r' : pydict),
    normalize_book (VDict (("book", VDict nested) :: rest)) = Ok (VDict r) ->
    normalize_book (VDict (("book", VDict nested') :: rest)) = Ok (VDict r') ->
    get r field = get r' field.

(** The shapes [normalize_book] goes through without raising: genres that
    can be iterated, a [reading_progress] and an [emoji] that are mappings
    (or have no true value). *)
Definition iterable (v : pyval) : bool :=
  match v with
  | VList _ | VDict _ | VStr _ => true
  | _ => false
  end.

Definition well_shaped (outer : pydict) : bool :=
  let book_data := book_data_of outer in
  (negb (truthy (get book_data "genres")) || iterable (get book_data "genres"))
  && is_dict (reading_progress_of book_data)
  && (truthy (get outer "emoji_reaction")
      || is_dict (py_or (get outer "emoji") (VDict []))).

(** The fields of a review, which the merger lays over the outer record. *)
Definition review_fields : list string :=
  [ "rating"; "review"; "contains_spoilers"; "did_not_finish";
    "characters_rating"; "plot_rating"; "writing_style_rating";
    "setting_rating"; "attributes"; "review_created_at"; "added_at" ].

(** A record with a nested mapping, a rating and a reading date of its own. *)
Definition nested_example : pydict :=
  [ ("book", VDict [ ("title", VStr "Dune") ]);
    ("rating", VInt 5);
    ("started_reading_at", VStr "2024-01-05") ].

End Normalizer.

(** ** String helpers *)

Definition nl : string := String (Ascii.ascii_of_nat 10) EmptyString.

(** [s.replace(c, by)] for a one-character pattern [c]. *)
Fixpoint replace_char (c : Ascii.ascii) (by_ : string) (s : string) : string :=
  match s with
  | EmptyString => EmptyString
  | String a s' =>
      if Ascii.eqb a c then by_ ++ replace_char c by_ s'
      else String a (replace_char c by_ s')
  end.

(** The strings of a list whose items are all [str]; [None] when one is not. *)
Fixpoint strs_of (xs : list pyval) : option (list string) :=
  match xs with
  | [] => Some []
  | VStr s :: xs' =>
      match strs_of xs' with Some ss => Some (s :: ss) | None => None end
  | _ :: _ => None
  end.

(** [sep.join(v)]: [v] must be iterable and yield only strings. *)
Definition py_join (sep : string) (v : pyval) : result string :=
  match py_iter v with
  | Ok items =>
      match strs_of items with
      | Some ss => Ok (String.concat sep ss)
      | None => Raise TypeError
      end
  | Raise e => Raise e
  end.

(** ** Numbers *)

(** The integer a [bool] or an [int] stands for in a comparison. *)
Definition int_of (v : pyval) : option Z :=
  match v with
  | VBool b => Some (if b then 1 else 0)
  | VInt n => Some n
  | _ => None
  end.

(** [f == n] for a float and an integer: Python compares the exact values. *)
Definition float_eq_int (f : spec_float) (n : Z) : bool :=
  match f with
  | S754_zero _ => n =? 0
  | S754_finite s m e =>
      let v := if s then Z.neg m else Z.pos m in
      if 0 <=? e then n =? v * 2 ^ e else n * 2 ^ (- e) =? v
  | _ => false
  end.

(** [float(n)] for an integer: the nearest binary64 number, ties to even; an
    integer beyond the range raises [OverflowError]. *)
Definition float_of_int (n : Z) : result spec_float :=
  match binary_normalize 53 1024 n 0 false with
  | S754_infinity _ => Raise OverflowError
  | f => Ok f
  end.

(** ** Dictionary keys of any hashable type

    [by_status] in [export_to_markdown] is keyed by whatever the status of a
    book is.  Lists and dictionaries are not hashable; the other values are
    compared as Python compares keys.  (Two NaN floats are the same key only
    when they are the same object; the embedding has no identity for floats
    and keeps them apart.) *)

Definition hashable (v : pyval) : bool :=
  match v with
  | VList _ | VDict _ => false
  | _ => true
  end.

Definition key_eq (a b : pyval) : bool :=
  match a, b with
  | VNone, VNone => true
  | VStr s, VStr t => String.eqb s t
  | VFloat f, VFloat g => SFeqb f g
  | VFloat f, (VBool _ | VInt _) =>
      match int_of b with Some n => float_eq_int f n | None => false end
  | (VBool _ | VInt _), VFloat g =>
      match int_of a with Some n => float_eq_int g n | None => false end
  | (VBool _ | VInt _), (VBool _ | VInt _) =>
      match int_of a, int_of b with
      | Some m, Some n => m =? n
      | _, _ => false
      end
  | _, _ => false
  end.

Section Groups.
Context {A : Type}.

(** [k in d] and [d[k]] for a dictionary keyed by hashable values. *)
Fixpoint group_lookup (k : pyval) (d : list (pyval * A)) : option A :=
  match d with
  | [] => None
  | (k', x) :: d' => if key_eq k k' then Some x else group_lookup k d'
  end.

(** [d[k] = f(d[k])] for a key that is present. *)
Fixpoint group_alter (f : A -> A) (k : pyval) (d : list (pyval * A))
  : list (pyval * A) :=
  match d with
  | [] => []
  | (k', x) :: d' =>
      if key_eq k k' then (k', f x) :: d' else (k', x) :: group_alter f k d'
  end.
End Groups.

(** ** Exporters: [export_to_csv], [export_to_json], [export_to_markdown] *)

Module Exporters.
Import Normalizer.

(** [format_authors_list] (lines 142-159). *)
Definition author_name (author : pyval) : pyval :=
  match author with
  | VDict d => get_default d "name" (VStr "")
  | VStr _ => author
  | _ => VStr ""
  end.

Definition format_authors_list (authors : pyval) : result string :=
  if negb (truthy authors) || negb (is_list authors) then Ok ""
  else
    match authors with
    | VList xs => py_join ", " (VList (List.filter truthy (map author_name xs)))
    | _ => Ok ""
    end.

(** [extract_isbn] (lines 162-174).  A true value that is not a string has no
    [replace] method. *)
Definition extract_isbn (isbn : pyval) : result (string * string) :=
  if negb (truthy isbn) then Ok ("", "")
  else
    match isbn with
    | VStr s =>
        let normalized := replace_char "-"%char "" s in
        if Nat.eqb (String.length normalized) 10 then Ok (normalized, "")
        else if Nat.eqb (String.length normalized) 13 then Ok ("", normalized)
        else Ok (normalized, "")
    | _ => Raise AttributeError
    end.

(** The 28 columns of the tabular export, in order (lines 203-232). *)
Definition fieldnames : list string :=
  [ "Title"; "Subtitle"; "Author(s)"; "ISBN-10"; "ISBN-13"; "Publisher";
    "Pages"; "Published Date"; "Genres"; "Moods"; "Content Warnings";
    "Status"; "Rating"; "Characters Rating"; "Plot Rating";
    "Writing Style Rating"; "Setting Rating"; "Review";
    "Review Summary - Liked"; "Review Summary - Disliked";
    "Review Summary - Disagreed"; "Attributes/Tags"; "Emoji Reaction";
    "Contains Spoilers"; "Did Not Finish"; "Started Reading";
    "Finished Reading"; "Date Added" ].

(** ["Yes" if v else "No"]. *)
Definition yes_no (v : pyval) : pyval :=
  VStr (if truthy v then "Yes" else "No").

Definition status_order : list string := [ "finished"; "reading"; "unread" ].

Definition status_labels : list (string * string) :=
  [ ("finished", "Finished");
    ("reading", "Currently Reading");
    ("unread", "Want to Read") ].

Fixpoint label_of (k : string) (labels : list (string * string)) : option string :=
  match labels with
  | [] => None
  | (k', l) :: labels' => if String.eqb k k' then Some l else label_of k labels'
  end.

(** U+2192, the arrow between the two reading dates. *)
Definition arrow : string :=
  String (Ascii.ascii_of_nat 226)
    (String (Ascii.ascii_of_nat 134) (String (Ascii.ascii_of_nat 146) "")).

Section WithRuntime.

(** What the exporters take from the Python runtime, its libraries and the
    operating system. *)

(** [repr] of a float, a list or a dictionary. *)
Variable py_repr : pyval -> string.
(** [datetime.fromisoformat(s).strftime("%Y-%m-%d")]; [None] when the string
    is not an ISO-8601 timestamp ([ValueError]). *)
Variable iso_date : string -> option string.
(** [str.title]. *)
Variable str_title : string -> string.
(** [float(s)] for a string; [None] when it is not a number. *)
Variable float_of_str : string -> option spec_float.
(** [datetime.now().strftime('%Y-%m-%d %H:%M:%S')]. *)
Variable now : string.
(** [json.dump(v, indent=2, ensure_ascii=False, default=str)]. *)
Variable json_dumps : pyval -> string.
(** One record as the [csv] writer formats it. *)
Variable csv_line : list string -> string.
(** [Path.parent]. *)
Variable path_parent : string -> string.
(** The file system: [mkdir(parents=True, exist_ok=True)], [open(p, "w")]
    and a write to the file opened at a path. *)
Variable FS : Type.
Variable fs_mkdir : string -> FS -> result unit * FS.
Variable fs_open : string -> FS -> result unit * FS.
Variable fs_write : string -> string -> FS -> result unit * FS.

(** Code with effects on the file system. *)
Definition io (A : Type) : Type := FS -> result A * FS.

Definition io_ret {A : Type} (a : A) : io A := fun fs => (Ok a, fs).
Definition io_raise {A : Type} (e : exn) : io A := fun fs => (Raise e, fs).
Definition io_bind {A B : Type} (c : io A) (k : A -> io B) : io B :=
  fun fs =>
    match c fs with
    | (Ok a, fs') => k a fs'
    | (Raise e, fs') => (Raise e, fs')
    end.
Definition io_lift {A : Type} (r : result A) : io A := fun fs => (r, fs).

(** [str(v)], as an f-string and the [csv] writer format a value. *)
Definition py_str (v : pyval) : string :=
  match v with
  | VNone => "None"
  | VBool true => "True"
  | VBool false => "False"
  | VInt n => pretty n
  | VStr s => s
  | _ => py_repr v
  end.

(** [format_date] (lines 177-186).  A true value that is not a string has no
    [replace]; the [AttributeError] is caught. *)
Definition format_date (date_str : pyval) : string :=
  if negb (truthy date_str) then ""
  else
    match date_str with
    | VStr s =>
        match iso_date (replace_char "Z"%char "+00:00" s) with
        | Some d => d
        | None => ""
        end
    | _ => ""
    end.

(** [float(v)]. *)
Definition py_float (v : pyval) : result spec_float :=
  match v with
  | VBool b => float_of_int (if b then 1 else 0)
  | VInt n => float_of_int n
  | VFloat f => Ok f
  | VStr s =>
      match float_of_str s with
      | Some f => Ok f
      | None => Raise (ValueError "could not convert string to float")
      end
  | _ => Raise TypeError
  end.

(** [float(v) if v else None] (lines 329-334). *)
Definition float_or_null (v : pyval) : result pyval :=
  if truthy v then
    match py_float v with
    | Ok f => Ok (VFloat f)
    | Raise e => Raise e
    end
  else Ok VNone.

(** The date of the last column: [review_created_at or added_at or
    created_at] of the normalised record. *)
Definition date_added (book : pydict) : string :=
  format_date
    (py_or (py_or (get book "review_created_at") (get book "added_at"))
           (get book "created_at")).

Local Open Scope result_scope.

(** *** Tabular export *)

(** Lines 243-280: the row of one book that is not [None]. *)
Definition csv_row (raw : pyval) : result pydict :=
  nb <- normalize_book raw ;;
  match nb with
  | VDict book =>
      isbn <- extract_isbn (get book "isbn") ;;
      let authors := get_default book "authors" (VList []) in
      authors_s <- format_authors_list authors ;;
      genres <- py_join "; " (get_default book "genres" (VList [])) ;;
      moods <- py_join "; " (get_default book "moods" (VList [])) ;;
      content_warnings <-
        py_join "; " (get_default book "content_warnings" (VList [])) ;;
      attributes <- py_join "; " (get_default book "attributes" (VList [])) ;;
      Ok [ ("Title", get_default book "title" (VStr ""));
           ("Subtitle", get_default book "subtitle" (VStr ""));
           ("Author(s)", VStr authors_s);
           ("ISBN-10", VStr (fst isbn));
           ("ISBN-13", VStr (snd isbn));
           ("Publisher", get_default book "imprint" (VStr ""));
           ("Pages", get_default book "page_count" (VStr ""));
           ("Published Date", VStr (format_date (get book "published_date")));
           ("Genres", VStr genres);
           ("Moods", VStr moods);
           ("Content Warnings", VStr content_warnings);
           ("Status", get_default book "status" (VStr ""));
           ("Rating", get_default book "rating" (VStr ""));
           ("Characters Rating", get_default book "characters_rating" (VStr ""));
           ("Plot Rating", get_default book "plot_rating" (VStr ""));
           ("Writing Style Rating",
             get_default book "writing_style_rating" (VStr ""));
           ("Setting Rating", get_default book "setting_rating" (VStr ""));
           ("Review", get_default book "review" (VStr ""));
           ("Review Summary - Liked",
             get_default book "review_summary_liked" (VStr ""));
           ("Review Summary - Disliked",
             get_default book "review_summary_disliked" (VStr ""));
           ("Review Summary - Disagreed",
             get_default book "review_summary_disagreed" (VStr ""));
           ("Attributes/Tags", VStr attributes);
           ("Emoji Reaction", get_default book "emoji_reaction" (VStr ""));
           ("Contains Spoilers", yes_no (get book "contains_spoilers"));
           ("Did Not Finish", yes_no (get book "did_not_finish"));
           ("Started Reading",
             VStr (format_date (get book "started_reading_at")));
           ("Finished Reading",
             VStr (format_date (get book "finished_reading_at")));
           ("Date Added", VStr (date_added book)) ]
  | _ => Raise AttributeError
  end.

(** The text the [csv] writer puts in a cell: nothing for [None], [str(v)]
    otherwise. *)
Definition csv_cell (v : pyval) : string :=
  match v with
  | VNone => ""
  | _ => py_str v
  end.

(** [DictWriter.writerow]: the cells in the order of [fieldnames]. *)
Definition csv_cells (row : pydict) : list string :=
  map (fun k => csv_cell (get_default row k (VStr ""))) fieldnames.

(** The cell of column [k] in the file. *)
Definition csv_rendered (row : pydict) (k : string) : string :=
  csv_cell (get_default row k (VStr "")).

(** Lines 240-282: the loop; a [None] entry is skipped. *)
Fixpoint write_rows (output_path : string) (books : list pyval) : io unit :=
  match books with
  | [] => io_ret tt
  | book :: rest =>
      match book with
      | VNone => write_rows output_path rest
      | _ =>
          io_bind (io_lift (csv_row book)) (fun row =>
          io_bind (fs_write output_path (csv_line (csv_cells row))) (fun _ =>
          write_rows output_path rest))
      end
  end.

Definition export_to_csv (books : list pyval) (output_path : string)
  : io string :=
  if negb (truthy (VList books)) then io_raise (ValueError "No books to export")
  else
    io_bind (fs_mkdir (path_parent output_path)) (fun _ =>
    io_bind (fs_open output_path) (fun _ =>
    io_bind (fs_write output_path (csv_line fieldnames)) (fun _ =>
    io_bind (write_rows output_path books) (fun _ =>
    io_ret output_path)))).

(** *** Structured export *)

(** Lines 310-356: the object of one book that is not [None]. *)
Definition clean_book (raw : pyval) : result pyval :=
  nb <- normalize_book raw ;;
  match nb with
  | VDict book =>
      isbn <- extract_isbn (get book "isbn") ;;
      let authors := get_default book "authors" (VList []) in
      authors_s <- format_authors_list authors ;;
      rating <- float_or_null (get book "rating") ;;
      characters <- float_or_null (get book "characters_rating") ;;
      plot <- float_or_null (get book "plot_rating") ;;
      writing_style <- float_or_null (get book "writing_style_rating") ;;
      setting <- float_or_null (get book "setting_rating") ;;
      Ok (VDict
        [ ("title", get book "title");
          ("subtitle", get book "subtitle");
          ("authors", VStr authors_s);
          ("isbn10", VStr (fst isbn));
          ("isbn13", VStr (snd isbn));
          ("publisher", get book "imprint");
          ("pages", get book "page_count");
          ("published_date", VStr (format_date (get book "published_date")));
          ("description", get book "description");
          ("cover_image", get book "cover_image");
          ("genres", get book "genres");
          ("moods", get book "moods");
          ("content_warnings", get book "content_warnings");
          ("status", get book "status");
          ("rating", rating);
          ("detailed_ratings",
            VDict [ ("characters", characters);
                    ("plot", plot);
                    ("writing_style", writing_style);
                    ("setting", setting) ]);
          ("review", get book "review");
          ("review_summary",
            VDict [ ("liked", get book "review_summary_liked");
                    ("disliked", get book "review_summary_disliked");
                    ("disagreed", get book "review_summary_disagreed") ]);
          ("contains_spoilers", get book "contains_spoilers");
          ("did_not_finish", get book "did_not_finish");
          ("attributes", get book "attributes");
          ("emoji_reaction", get book "emoji_reaction");
          ("spicy_level", get book "spicy_level");
          ("started_reading",
            VStr (format_date (get book "started_reading_at")));
          ("finished_reading",
            VStr (format_date (get book "finished_reading_at")));
          ("current_page", get book "current_page");
          ("total_pages", get book "total_pages");
          ("date_added", VStr (date_added book)) ])
  | _ => Raise AttributeError
  end.

(** Lines 306-357: the loop; a [None] entry is skipped. *)
Fixpoint clean_books (books : list pyval) : result (list pyval) :=
  match books with
  | [] => Ok []
  | book :: rest =>
      match book with
      | VNone => clean_books rest
      | _ =>
          cb <- clean_book book ;;
          cbs <- clean_books rest ;;
          Ok (cb :: cbs)
      end
  end.

Definition export_to_json (books : list pyval) (output_path : string)
  : io string :=
  if negb (truthy (VList books)) then io_raise (ValueError "No books to export")
  else
    io_bind (fs_mkdir (path_parent output_path)) (fun _ =>
    io_bind (io_lift (clean_books books)) (fun cbs =>
    io_bind (fs_open output_path) (fun _ =>
    io_bind (fs_write output_path (json_dumps (VList cbs))) (fun _ =>
    io_ret output_path)))).

(** *** Narrative export *)

(** Lines 391-399: the groups, in the order the statuses first occur.  A
    [None] entry is skipped; a status that is a list or a dictionary cannot
    be a key. *)
Fixpoint group_by_status (books : list pyval)
    (by_status : list (pyval * list pydict))
  : result (list (pyval * list pydict)) :=
  match books with
  | [] => Ok by_status
  | book :: rest =>
      match book with
      | VNone => group_by_status rest by_status
      | _ =>
          nb <- normalize_book book ;;
          match nb with
          | VDict b =>
              let status := get_default b "status" (VStr "unknown") in
              if hashable status then
                let by_status' :=
                  match group_lookup status by_status with
                  | None => (by_status ++ [(status, [])])%list
                  | Some _ => by_status
                  end in
                group_by_status rest
                  (group_alter (fun g => (g ++ [b])%list) status by_status')
              else Raise TypeError
          | _ => Raise AttributeError
          end
      end
  end.

(** Lines 445-455. *)
Definition detailed_lines (b : pydict) : list string :=
  let char_rating := get b "characters_rating" in
  let plot_rating := get b "plot_rating" in
  let writing_rating := get b "writing_style_rating" in
  let setting_rating := get b "setting_rating" in
  if truthy char_rating || truthy plot_rating || truthy writing_rating
     || truthy setting_rating
  then
    ([ "**Detailed Ratings:**" +:+ nl ]
     ++ (if truthy char_rating
         then [ "- Characters: " +:+ py_str char_rating +:+ "/5" +:+ nl ]
         else [])
     ++ (if truthy plot_rating
         then [ "- Plot: " +:+ py_str plot_rating +:+ "/5" +:+ nl ]
         else [])
     ++ (if truthy writing_rating
         then [ "- Writing Style: " +:+ py_str writing_rating +:+ "/5" +:+ nl ]
         else [])
     ++ (if truthy setting_rating
         then [ "- Setting: " +:+ py_str setting_rating +:+ "/5" +:+ nl ]
         else []))%list
  else [].

(** Lines 457-464: a labelled, comma-separated line for a list that is not
    empty. *)
Definition joined_line (label : string) (v : pyval) : result (list string) :=
  if truthy v then
    s <- py_join ", " v ;;
    Ok [ label +:+ s +:+ nl ]
  else Ok [].

(** Lines 466-475. *)
Definition date_lines (started finished : string) : list string :=
  if negb (String.eqb started "") || negb (String.eqb finished "") then
    ([ "**Read Dates:** " ]
     ++ (if negb (String.eqb started "") then [ "Started " +:+ started ] else [])
     ++ (if negb (String.eqb finished "") then
           if negb (String.eqb started "")
           then [ " " +:+ arrow +:+ " Finished " +:+ finished ]
           else [ "Finished " +:+ finished ]
         else [])
     ++ [ nl ])%list
  else [].

(** Lines 414-480: the lines of one book. *)
Definition render_book (b : pydict) : result (list string) :=
  let title := get_default b "title" (VStr "Unknown") in
  let subtitle := get_default b "subtitle" (VStr "") in
  authors <- format_authors_list (get_default b "authors" (VList [])) ;;
  let rating := get b "rating" in
  let review := get b "review" in
  let genres := get_default b "genres" (VList []) in
  let moods := get_default b "moods" (VList []) in
  let attributes := get_default b "attributes" (VList []) in
  let started := format_date (get b "started_reading_at") in
  let finished := format_date (get b "finished_reading_at") in
  let emoji := get_default b "emoji_reaction" (VStr "") in
  genres_line <- joined_line "**Genres:** " genres ;;
  moods_line <- joined_line "**Moods:** " moods ;;
  tags_line <- joined_line "**Tags:** " attributes ;;
  Ok ([ "### " +:+ py_str title +:+ nl ]
      ++ (if truthy subtitle
          then [ "*" +:+ py_str subtitle +:+ "*" +:+ nl +:+ nl ]
          else [])
      ++ (if negb (String.eqb authors "")
          then [ "**Author(s):** " +:+ authors +:+ nl ]
          else [])
      ++ (if truthy rating
          then
            let emoji_str := if truthy emoji then " " +:+ py_str emoji else "" in
            [ "**Rating:** " +:+ py_str rating +:+ "/5" +:+ emoji_str +:+ nl ]
          else [])
      ++ detailed_lines b
      ++ genres_line
      ++ moods_line
      ++ tags_line
      ++ date_lines started finished
      ++ (if truthy review
          then [ nl +:+ "**Review:**" +:+ nl +:+ nl +:+ py_str review +:+ nl ]
          else [])
      ++ [ nl +:+ "---" +:+ nl ])%list.

(** The heading of the section of [status] with [n] books (lines 410-411). *)
Definition section_heading (status : string) (n : nat) : string :=
  let status_title :=
    match label_of status status_labels with
    | Some l => l
    | None => str_title status
    end in
  nl +:+ "## " +:+ status_title +:+ " (" +:+ pretty n +:+ ")" +:+ nl.

(** Lines 409-480: the section of one status of [status_order], nothing when
    no book has it. *)
Definition render_section (by_status : list (pyval * list pydict))
    (status : string) : result (list string) :=
  match group_lookup (VStr status) by_status with
  | Some group =>
      bodies <- mapM render_book group ;;
      Ok (section_heading status (length group) :: concat bodies)
  | None => Ok []
  end.

Definition header_lines (books : list pyval) : list string :=
  [ "# My Fable Book Library" +:+ nl;
    "Exported on: " +:+ now +:+ nl;
    "Total books: " +:+ pretty (length books) +:+ nl;
    nl +:+ "---" +:+ nl ].

(** Lines 383-480: the lines written to the file. *)
Definition markdown_lines (books : list pyval) : result (list string) :=
  by_status <- group_by_status books [] ;;
  sections <- mapM (render_section by_status) status_order ;;
  Ok (header_lines books ++ concat sections)%list.

Definition export_to_markdown (books : list pyval) (output_path : string)
  : io string :=
  if negb (truthy (VList books)) then io_raise (ValueError "No books to export")
  else
    io_bind (fs_mkdir (path_parent output_path)) (fun _ =>
    io_bind (io_lift (markdown_lines books)) (fun lines =>
    io_bind (fs_open output_path) (fun _ =>
    io_bind (fs_write output_path (String.concat "" lines)) (fun _ =>
    io_ret output_path)))).

End WithRuntime.

(** *** The columns and the fields they show *)

(** The columns that show one field as it is, as an ISBN or as a date. *)
Definition scalar_columns : list (string * string) :=
  [ ("Title", "title");
    ("Subtitle", "subtitle");
    ("ISBN-10", "isbn");
    ("ISBN-13", "isbn");
    ("Publisher", "imprint");
    ("Pages", "page_count");
    ("Published Date", "published_date");
    ("Status", "status");
    ("Rating", "rating");
    ("Characters Rating", "characters_rating");
    ("Plot Rating", "plot_rating");
    ("Writing Style Rating", "writing_style_rating");
    ("Setting Rating", "setting_rating");
    ("Review", "review");
    ("Review Summary - Liked", "review_summary_liked");
    ("Review Summary - Disliked", "review_summary_disliked");
    ("Review Summary - Disagreed", "review_summary_disagreed");
    ("Emoji Reaction", "emoji_reaction");
    ("Started Reading", "started_reading_at");
    ("Finished Reading", "finished_reading_at") ].

(** The columns that join a list. *)
Definition list_columns : list (string * string) :=
  [ ("Author(s)", "authors");
    ("Genres", "genres");
    ("Moods", "moods");
    ("Content Warnings", "content_warnings");
    ("Attributes/Tags", "attributes") ].

Definition boolean_columns : list (string * string) :=
  [ ("Contains Spoilers", "contains_spoilers");
    ("Did Not Finish", "did_not_finish") ].

(** The statement of the spec that every field without a value gives an
    empty cell. *)
Definition missing_renders_empty : Prop :=
  forall (py_repr : pyval -> string) (iso_date : string -> option string)
         (raw : pyval) (nb row : pydict) (col field : string),
    normalize_book raw = Ok (VDict nb) ->
    csv_row iso_date raw = Ok row ->
    In (col, field) (scalar_columns ++ boolean_columns)%list ->
    get nb field = VNone ->
    csv_rendered py_repr row col = "".

(** The statement of the spec that a list-valued field is joined with
    ["; "]: the cell of a list of strings is the strings with ["; "] between
    them. *)
Definition lists_joined_with_semicolon : Prop :=
  forall (py_repr : pyval -> string) (iso_date : string -> option string)
         (raw : pyval) (nb row : pydict) (col field : string)
         (items : list string),
    normalize_book raw = Ok (VDict nb) ->
    csv_row iso_date raw = Ok row ->
    In (col, field) list_columns ->
    get nb field = VList (map VStr items) ->
    csv_rendered py_repr row col = String.concat "; " items.

(** [author] is an author called [name]: the name itself, or a mapping that
    has it under ["name"]; a name is not empty. *)
Definition named (name : string) (author : pyval) : Prop :=
  name <> "" /\
  (author = VStr name \/
   exists d, author = VDict d /\ get d "name" = VStr name).

(** [out] is what [float(v) if v else None] gives for [v]. *)
Definition null_or_float (float_of_str : string -> option spec_float)
    (v out : pyval) : Prop :=
  if truthy v then exists f, py_float float_of_str v = Ok f /\ out = VFloat f
  else out = VNone.

(** *** Sample books and stand-ins for the runtime, to run the examples *)

Definition sample_repr (v : pyval) : string := "<repr>".

(** The first ten characters of a string of at least ten, for a date. *)
Definition sample_iso_date (s : string) : option string :=
  if Nat.leb 10 (String.length s) then Some (substring 0 10 s) else None.

Definition sample_float_of_str (s : string) : option spec_float := None.

Definition abandoned_book : pyval :=
  VDict [ ("title", VStr "Dune"); ("status", VStr "abandoned") ].

Definition rated_book : pyval :=
  VDict [ ("title", VStr "Dune");
          ("rating", VInt 4);
          ("plot_rating", VInt 0);
          ("genres", VList [ VDict [ ("name", VStr "SF") ];
                             VDict [ ("name", VStr "Classic") ] ]);
          ("did_not_finish", VBool false) ].

Definition unrated_book : pyval :=
  VDict [ ("title", VStr "Dune"); ("rating", VInt 0) ].

(** A book of two authors, one given as a name and one as a mapping. *)
Definition authored_book : pyval :=
  VDict [ ("title", VStr "Good Omens");
          ("authors", VList [ VStr "Terry Pratchett";
                              VDict [ ("name", VStr "Neil Gaiman") ] ]);
          ("genres", VList [ VDict [ ("name", VStr "Fantasy") ];
                             VDict [ ("name", VStr "Humour") ] ]);
          ("contains_spoilers", VBool true) ].

Definition authored_book_normalized : pydict :=
  Eval vm_compute in
    match normalize_book authored_book with
    | Ok (VDict d) => d
    | _ => []
    end.

Definition authored_book_row : pydict :=
  Eval vm_compute in
    match csv_row sample_iso_date authored_book with
    | Ok row => row
    | Raise _ => []
    end.

(** A book of two authors given as names. *)
Definition two_author_book : pyval :=
  VDict [ ("title", VStr "Good Omens");
          ("authors", VList [ VStr "Terry Pratchett"; VStr "Neil Gaiman" ]) ].

(** The normalised record, the row and the object of [rated_book]. *)
Definition rated_book_normalized : pydict :=
  Eval vm_compute in
    match normalize_book rated_book with
    | Ok (VDict d) => d
    | _ => []
    end.

Definition rated_book_row : pydict :=
  Eval vm_compute in
    match csv_row sample_iso_date rated_book with
    | Ok row => row
    | Raise _ => []
    end.

Definition rated_book_clean : pydict :=
  Eval vm_compute in
    match clean_book sample_iso_date sample_float_of_str rated_book with
    | Ok (VDict d) => d
    | _ => []
    end.

End Exporters.

(** ** Review merger: [merge_reviews_with_books]

    The merger copies dictionaries, updates the copies and appends to a list,
    so what it does to its arguments can only be said with objects that have
    an identity.  A [store] holds the objects; a list and a dictionary hold
    references ([loc]) to their items.  The store of a running program has no
    dangling reference ([closed]). *)

Module Merger.

Abbreviation loc := nat (only parsing).

Abbreviation entries := (list (string * nat)) (only parsing).

Inductive obj : Type :=
| ONone
| OBool (b : bool)
| OInt (n : Z)
| OFloat (f : spec_float)
| OStr (s : string)
| OList (items : list loc)
| ODict (d : entries).

Abbreviation store := (list obj) (only parsing).

Definition load (h : store) (l : loc) : obj := default ONone (h !! l).

Definition truthy_obj (o : obj) : bool :=
  match o with
  | ONone => false
  | OBool b => b
  | OInt n => negb (n =? 0)
  | OFloat (S754_zero _) => false
  | OFloat _ => true
  | OStr s => negb (String.eqb s "")
  | OList items => match items with [] => false | _ => true end
  | ODict d => match d with [] => false | _ => true end
  end.

Definition is_dict_obj (o : obj) : bool :=
  match o with ODict _ => true | _ => false end.

(** The references an object holds. *)
Definition refs (o : obj) : list loc :=
  match o with
  | OList items => items
  | ODict d => map snd d
  | _ => []
  end.

(** No object of the store refers outside the store. *)
Definition closed (h : store) : Prop :=
  Forall (fun o => Forall (fun l => (l < length h)%nat) (refs o)) h.

Fixpoint lookup_entry (k : string) (d : entries) : option loc :=
  match d with
  | [] => None
  | (k', l) :: d' => if String.eqb k k' then Some l else lookup_entry k d'
  end.

(** [d[k] = l]: the entry is replaced where it is, or added at the end. *)
Fixpoint set_entry (k : string) (l : loc) (d : entries) : entries :=
  match d with
  | [] => [(k, l)]
  | (k', l') :: d' =>
      if String.eqb k k' then (k', l) :: d' else (k', l') :: set_entry k l d'
  end.

(** [d.update(new)]. *)
Definition update_entries (d new : entries) : entries :=
  fold_left (fun acc kv => set_entry (fst kv) (snd kv) acc) new d.

(** *** Code over the store *)

Definition M (A : Type) : Type := store -> result A * store.

Definition ret {A : Type} (a : A) : M A := fun h => (Ok a, h).

Definition bind {A B : Type} (c : M A) (k : A -> M B) : M B :=
  fun h =>
    match c h with
    | (Ok a, h') => k a h'
    | (Raise e, h') => (Raise e, h')
    end.

(** [try: c  except Exception: handler]; what [c] did to the store before it
    raised stays done. *)
Definition try_except {A : Type} (c : M A) (handler : M A) : M A :=
  fun h =>
    match c h with
    | (Ok a, h') => (Ok a, h')
    | (Raise _, h') => handler h'
    end.

Declare Scope store_scope.
Delimit Scope store_scope with store.
Notation "x <- c ;; k" := (bind c (fun x => k))
  (at level 100, c at next level, right associativity) : store_scope.
Local Open Scope store_scope.

(** A new object. *)
Definition alloc (o : obj) : M loc :=
  fun h => (Ok (length h), (h ++ [o])%list).

Definition deref (l : loc) : M obj := fun h => (Ok (load h l), h).

(** [l.append(x)]. *)
Definition list_append (l x : loc) : M unit :=
  fun h =>
    match load h l with
    | OList items => (Ok tt, <[l := OList (items ++ [x])]> h)
    | _ => (Raise AttributeError, h)
    end.

(** [l.update(new)]. *)
Definition dict_update (l : loc) (new : entries) : M unit :=
  fun h =>
    match load h l with
    | ODict d => (Ok tt, <[l := ODict (update_entries d new)]> h)
    | _ => (Raise AttributeError, h)
    end.

(** The entries of the dictionary at [l]. *)
Definition entries_of (l : loc) : M entries :=
  fun h =>
    match load h l with
    | ODict d => (Ok d, h)
    | _ => (Raise AttributeError, h)
    end.

(** [bool(d.get(k))] for the result of a [get]: a missing key gives [None]. *)
Definition truthy_at (h : store) (v : option loc) : bool :=
  match v with
  | Some l => truthy_obj (load h l)
  | None => false
  end.

Definition is_dict_at (h : store) (v : option loc) : bool :=
  match v with
  | Some l => is_dict_obj (load h l)
  | None => false
  end.

(** [key in reviews], for the lookup the signature declares: a dictionary
    with string keys.  A list or a dictionary cannot be hashed; a key that is
    not a string equals no string.  Anything but a dictionary in the place of
    the lookup is taken as not a container. *)
Definition contains (reviews key : loc) : M bool :=
  fun h =>
    match load h reviews with
    | ODict r =>
        match load h key with
        | OList _ | ODict _ => (Raise TypeError, h)
        | OStr s =>
            (Ok (match lookup_entry s r with Some _ => true | None => false end), h)
        | _ => (Ok false, h)
        end
    | _ => (Raise TypeError, h)
    end.

(** [reviews[key]]. *)
Definition getitem (reviews key : loc) : M loc :=
  fun h =>
    match load h reviews with
    | ODict r =>
        match load h key with
        | OList _ | ODict _ => (Raise TypeError, h)
        | OStr s =>
            match lookup_entry s r with
            | Some l => (Ok l, h)
            | None => (Raise KeyError, h)
            end
        | _ => (Raise KeyError, h)
        end
    | _ => (Raise TypeError, h)
    end.

(** Lines 301-320: the body of the [try]. *)
Definition merge_one (book merged_books reviews : loc) : M unit :=
  book_d <- entries_of book ;;
  nested <- ret (lookup_entry "book" book_d) ;;
  nested_is_dict <- (fun h => (Ok (is_dict_at h nested), h)) ;;
  (* book_data = book.get("book", {}) if isinstance(book.get("book"), dict) else book *)
  book_data <- ret (match nested with
                    | Some l => if nested_is_dict then l else book
                    | None => book
                    end) ;;
  book_data_o <- deref book_data ;;
  if negb (truthy_obj book_data_o) || negb (is_dict_obj book_data_o) then
    list_append merged_books book
  else
    book_data_d <- entries_of book_data ;;
    book_id <- ret (lookup_entry "id" book_data_d) ;;
    (* merged_book = dict(book) *)
    merged_book <- alloc (ODict book_d) ;;
    book_id_true <- (fun h => (Ok (truthy_at h book_id), h)) ;;
    found <- match book_id with
             | Some id => if book_id_true then contains reviews id else ret false
             | None => ret false
             end ;;
    _ <- match book_id with
         | Some id =>
             if found then
               review_data <- getitem reviews id ;;
               review_data_o <- deref review_data ;;
               if truthy_obj review_data_o && is_dict_obj review_data_o then
                 new <- entries_of review_data ;;
                 dict_update merged_book new
               else ret tt
             else ret tt
         | None => ret tt
         end ;;
    list_append merged_books merged_book.

(** Lines 296-323: one turn of the loop. *)
Definition merge_step (book merged_books reviews : loc) : M unit :=
  book_o <- deref book ;;
  if negb (is_dict_obj book_o) then ret tt
  else
    try_except (merge_one book merged_books reviews)
               (list_append merged_books book).

(** Line 295: [for book in books].  The iterator reads item [i] of the list
    as it is at that turn and stops at its end; [fuel] bounds the turns. *)
Fixpoint iterate (fuel : nat) (i : nat) (books merged_books reviews : loc)
    (h : store) : option (result unit * store) :=
  match fuel with
  | O => None
  | S fuel' =>
      match load h books with
      | OList items =>
          match items !! i with
          | None => Some (Ok tt, h)
          | Some book =>
              match merge_step book merged_books reviews h with
              | (Ok _, h') => iterate fuel' (S i) books merged_books reviews h'
              | (Raise e, h') => Some (Raise e, h')
              end
          end
      | _ => Some (Raise TypeError, h)
      end
  end.

(** [merge_reviews_with_books(books, reviews)] for a list [books]: the
    reference to the new list, or [None] when [fuel] does not suffice. *)
Definition merge_reviews_with_books (fuel : nat) (books reviews : loc)
    (h : store) : option (result loc * store) :=
  match load h books with
  | OList _ =>
      match alloc (OList []) h with
      | (Ok merged_books, h1) =>
          match iterate fuel 0 books merged_books reviews h1 with
          | Some (Ok _, h2) => Some (Ok merged_books, h2)
          | Some (Raise e, h2) => Some (Raise e, h2)
          | None => None
          end
      | (Raise e, h1) => Some (Raise e, h1)
      end
  | _ => Some (Raise TypeError, h)
  end.

(** *** What the merger is to do with one item

    The outcome for an item, read off the store the call starts in: the item
    is left out, the item itself is put in the result, or a new dictionary
    with the entries [d] is. *)
Inductive outcome : Type :=
| Skipped
| Original
| Copied (d : entries).

Definition book_data_loc (h : store) (book : loc) (book_d : entries) : loc :=
  match lookup_entry "book" book_d with
  | Some l => if is_dict_obj (load h l) then l else book
  | None => book
  end.

(** The entries of the copy of [book_d] for a book whose identifier is the
    object at [id]; [None] when looking the identifier up raises. *)
Definition overlay (h : store) (reviews : loc) (book_d : entries) (id : loc)
  : option entries :=
  if truthy_obj (load h id) then
    match load h reviews with
    | ODict r =>
        match load h id with
        | OList _ | ODict _ => None
        | OStr s =>
            match lookup_entry s r with
            | Some review_data =>
                match load h review_data with
                | ODict ((_ :: _) as new) => Some (update_entries book_d new)
                | _ => Some book_d
                end
            | None => Some book_d
            end
        | _ => Some book_d
        end
    | _ => None
    end
  else Some book_d.

Definition expected (h : store) (reviews book : loc) : outcome :=
  match load h book with
  | ODict book_d =>
      match load h (book_data_loc h book book_d) with
      | ODict ((_ :: _) as book_data_d) =>
          match lookup_entry "id" book_data_d with
          | Some id =>
              match overlay h reviews book_d id with
              | Some d => Copied d
              | None => Original
              end
          | None => Copied book_d
          end
      | _ => Original
      end
  | _ => Skipped
  end.

(** [result_of h h' reviews book o]: the object at [o] in the store [h'] is
    what the outcome of [book] in [h] asks for, a copy being an object that
    [h] did not have. *)
Definition result_of (h h' : store) (reviews : loc) (book o : loc) : Prop :=
  match expected h reviews book with
  | Skipped => False
  | Original => o = book
  | Copied d => (length h < o < length h')%nat /\ load h' o = ODict d
  end.

(** The items of a list that are dictionaries. *)
Definition mappings (h : store) (items : list loc) : list loc :=
  List.filter (fun l => is_dict_obj (load h l)) items.

(** [reviewed h reviews book book_d new]: [new] holds the entries of the review
    that the lookup has under the identifier of [book]; the identifier is
    that of the nested mapping under ["book"] when there is one. *)
Definition reviewed (h : store) (reviews book : loc) (book_d new : entries)
  : Prop :=
  exists book_data_d id s r review_data,
    load h (book_data_loc h book book_d) = ODict book_data_d /\
    lookup_entry "id" book_data_d = Some id /\
    load h id = OStr s /\
    load h reviews = ODict r /\
    lookup_entry s r = Some review_data /\
    load h review_data = ODict new.

(** [copy_of h h' reviews book o]: the object at [o] is a dictionary that [h]
    did not have, with the entries of [book] and, over them, the entries
    [new] of the review of the book ([new] is empty when nothing is laid
    over). *)
Definition copy_of (h h' : store) (reviews book o : loc) : Prop :=
  (length h < o)%nat /\
  exists book_d new,
    load h book = ODict book_d /\
    load h' o = ODict (update_entries book_d new) /\
    (new = [] \/ reviewed h reviews book book_d new).

(** The statement of the spec that entries which are not mappings pass
    through the merger. *)
Definition malformed_pass_through : Prop :=
  forall (fuel : nat) (h h' : store) (books reviews merged_books : loc)
         (items out : list loc),
    load h books = OList items ->
    merge_reviews_with_books fuel books reviews h = Some (Ok merged_books, h') ->
    load h' merged_books = OList out ->
    forall book, book ∈ items -> is_dict_obj (load h book) = false -> book ∈ out.

(** The statement of the spec that merging an empty lookup gives back the
    input list. *)
Definition empty_lookup_identity : Prop :=
  forall (fuel : nat) (h h' : store) (books reviews merged_books : loc)
         (items out : list loc),
    load h books = OList items ->
    load h reviews = ODict [] ->
    merge_reviews_with_books fuel books reviews h = Some (Ok merged_books, h') ->
    load h' merged_books = OList out ->
    Forall2 (fun book o => load h' o = load h book) items out.

(** *** Sample stores *)

(** One book with a review, and a [None] entry, in the list at 7; the lookup
    at 6. *)
Definition sample_store : store :=
  [ OStr "A";
    OStr "Foo";
    ODict [ ("id", 0%nat); ("title", 1%nat) ];
    ONone;
    OFloat (S754_finite false 5066549580791808 (-50));
    ODict [ ("rating", 4%nat) ];
    ODict [ ("A", 5%nat) ];
    OList [ 2%nat; 3%nat ] ].

(** The same list at 5, with an empty lookup at 4. *)
Definition sample_store_no_reviews : store :=
  [ OStr "A";
    OStr "Foo";
    ODict [ ("id", 0%nat); ("title", 1%nat) ];
    ONone;
    ODict [];
    OList [ 2%nat; 3%nat ] ].

End Merger.

(** ** Further definitions for the exporters *)

Module ExportersMore.
Import Normalizer Exporters.

Definition is_str (v : pyval) : bool :=
  match v with VStr _ => true | _ => false end.

(** [s] without the characters [c]. *)
Definition without_char (c : Ascii.ascii) (s : string) : string :=
  string_of_list_ascii
    (List.filter (fun a => negb (Ascii.eqb a c)) (list_ascii_of_string s)).

(** An author that makes [format_authors_list] fail: a mapping whose name is
    a true value that is not a string. *)
Definition bad_author (author : pyval) : bool :=
  match author with
  | VDict d =>
      truthy (get_default d "name" (VStr ""))
      && negb (is_str (get_default d "name" (VStr "")))
  | _ => false
  end.

(** The keys of an object of the structured export, in order
    (exporters.py, lines 314-356). *)
Definition json_fields : list string :=
  [ "title"; "subtitle"; "authors"; "isbn10"; "isbn13"; "publisher"; "pages";
    "published_date"; "description"; "cover_image"; "genres"; "moods";
    "content_warnings"; "status"; "rating"; "detailed_ratings"; "review";
    "review_summary"; "contains_spoilers"; "did_not_finish"; "attributes";
    "emoji_reaction"; "spicy_level"; "started_reading"; "finished_reading";
    "current_page"; "total_pages"; "date_added" ].

(** The entries of a list that are not [None]. *)
Definition not_none (books : list pyval) : list pyval :=
  List.filter (fun b => match b with VNone => false | _ => true end) books.

(** A text field of a normalised record is a true value or the empty
    string. *)
Definition soft (v : pyval) : Prop := truthy v = true \/ v = VStr "".

(** The fields that a second normalisation leaves as they are, and those it
    sets back to their defaults. *)
Definition kept_fields : list string :=
  [ "title"; "subtitle"; "authors"; "isbn"; "page_count"; "published_date";
    "description"; "cover_image"; "status"; "rating"; "review";
    "contains_spoilers"; "did_not_finish"; "added_at"; "started_reading_at";
    "finished_reading_at"; "characters_rating"; "plot_rating";
    "writing_style_rating"; "setting_rating"; "emoji_reaction";
    "spicy_level" ].

Definition reset_fields : list (string * pyval) :=
  [ ("storygraph_genres", VList []);
    ("moods", VList []);
    ("content_warnings", VList []);
    ("review_summary_liked", VNone);
    ("review_summary_disliked", VNone);
    ("review_summary_disagreed", VNone);
    ("current_page", VNone);
    ("total_pages", VNone) ].

(** The normalised record of an entry, as the exporters take it. *)
Definition normalized_record (raw : pyval) : result pydict :=
  match normalize_book raw with
  | Ok (VDict d) => Ok d
  | Ok _ => Raise AttributeError
  | Raise e => Raise e
  end.

(** The record has the status [k]. *)
Definition has_status (k : string) (b : pydict) : bool :=
  key_eq (VStr k) (get b "status").

Section Sections.
Variable py_repr : pyval -> string.
Variable iso_date : string -> option string.
Variable str_title : string -> string.

(** The lines of the section of status [k] for the records [group]: none
    when there is no record, the heading with the number of records and then
    the records in order otherwise. *)
Definition section_lines (k : string) (group : list pydict)
  : result (list string) :=
  match group with
  | [] => Ok []
  | _ :: _ =>
      match mapM (render_book py_repr iso_date) group with
      | Ok bodies =>
          Ok (section_heading str_title k (length group) :: concat bodies)
      | Raise e => Raise e
      end
  end.
End Sections.

(** A record whose ISBN is a number. *)
Definition numeric_isbn_book : pyval :=
  VDict [ ("title", VStr "Dune"); ("isbn", VInt 9780441013593) ].

Section WithFiles.
Variable FS : Type.
Variable fs_write : string -> string -> FS -> result unit * FS.

(** The file system after the writes of [lines] to the file at [path], when
    each of them succeeds. *)
Fixpoint write_all (path : string) (lines : list string) (fs : FS)
  : option FS :=
  match lines with
  | [] => Some fs
  | line :: lines' =>
      match fs_write path line fs with
      | (Ok _, fs') => write_all path lines' fs'
      | (Raise _, _) => None
      end
  end.
End WithFiles.

(** *** A file system that records what is done to it, to run the examples *)

Inductive fs_op : Type :=
| Mkdir (dir : string)
| Open (path : string)
| Write (path : string) (text : string).

Definition rec_mkdir (dir : string) (log : list fs_op)
  : result unit * list fs_op := (Ok tt, (log ++ [Mkdir dir])%list).

Definition rec_open (path : string) (log : list fs_op)
  : result unit * list fs_op := (Ok tt, (log ++ [Open path])%list).

Definition rec_write (path text : string) (log : list fs_op)
  : result unit * list fs_op := (Ok tt, (log ++ [Write path text])%list).

Definition sample_title (s : string) : string := s.
Definition sample_now : string := "2024-01-01 00:00:00".
Definition sample_json_dumps (v : pyval) : string := "<json>".
Definition sample_csv_line (cells : list string) : string :=
  String.concat "," cells.
Definition sample_parent (path : string) : string := "exports".

(** A record whose genre has a number for a name: the narrative export
    cannot join it. *)
Definition numeric_genre_book : pyval :=
  VDict [ ("title", VStr "Dune");
          ("status", VStr "finished");
          ("genres", VList [ VDict [ ("name", VInt 5) ] ]) ].

Definition finished_book : pyval :=
  VDict [ ("title", VStr "Emma"); ("status", VStr "finished") ].

Definition reading_book : pyval :=
  VDict [ ("title", VStr "Ulysses"); ("status", VStr "reading") ].

(** Four entries: a book being read, one of another status, [None], and a
    finished book. *)
Definition shelf : list pyval :=
  [ reading_book; abandoned_book; VNone; finished_book ].

Definition shelf_normalized : list pydict :=
  Eval vm_compute in
    match mapM normalized_record (not_none shelf) with
    | Ok nbs => nbs
    | Raise _ => []
    end.

Definition shelf_rows : list pydict :=
  Eval vm_compute in
    match mapM (csv_row sample_iso_date) (not_none shelf) with
    | Ok rows => rows
    | Raise _ => []
    end.

Definition shelf_objects : list pyval :=
  Eval vm_compute in
    match clean_books sample_iso_date sample_float_of_str shelf with
    | Ok cbs => cbs
    | Raise _ => []
    end.

End ExportersMore.


(** ** Further definitions for the merger *)

Module MergerMore.
Import Merger.

(** The keys of every dictionary of the store are distinct. *)
Definition distinct_keys (h : store) : Prop :=
  Forall (fun o => match o with
                   | ODict d => NoDup (map fst d)
                   | _ => True
                   end) h.

(** [d] reads as [book_d] with [new] laid over it: a key of [new] has the
    value [new] gives it, any other key the value [book_d] gives it. *)
Definition overlaid (book_d new d : entries) : Prop :=
  forall k,
    lookup_entry k d
    = match lookup_entry k new with
      | Some l => Some l
      | None => lookup_entry k book_d
      end.

(** The review the merger lays over the book at [book]: the entries of the
    mapping, not empty, that the lookup holds under the identifier of the
    book, a string that is not empty; the identifier is that of the mapping
    nested under ["book"] when there is one.  [None] when there is no such
    review. *)
Definition review_of (h : store) (reviews book : loc) : option entries :=
  match load h book with
  | ODict book_d =>
      match load h (book_data_loc h book book_d) with
      | ODict book_data_d =>
          match lookup_entry "id" book_data_d with
          | Some id =>
              match load h id, load h reviews with
              | OStr s, ODict r =>
                  if String.eqb s "" then None
                  else
                    match lookup_entry s r with
                    | Some review_data =>
                        match load h review_data with
                        | ODict ((_ :: _) as new) => Some new
                        | _ => None
                        end
                    | None => None
                    end
              | _, _ => None
              end
          | None => None
          end
      | _ => None
      end
  | _ => None
  end.

End MergerMore.


(** ** Retrieval client: [fetch_owned_books], [fetch_user_lists],
    [fetch_books_from_list], [fetch_all_books], [fetch_user_reviews]

    The client reads two environment variables, sends GET requests and prints
    warnings.  These are effects on a world [W]; what the environment holds and
    what the service replies is left to the world.  The loops of the client
    end when the service says so, so they take fuel: one unit per turn of a
    [while] loop, and [None] means that the loop has not ended yet. *)

Module Client.
Import Exporters.
Local Open Scope list_scope.

(** What a call of the client can raise: its own [FableAPIError], the
    [JSONDecodeError] of [response.json()], or an exception of the
    interpreter. *)
Inductive failure : Type :=
| FableAPIError (msg : string)
| JSONDecodeError
| Uncaught (e : exn).

Inductive outcome (A : Type) : Type :=
| Returns (a : A)
| Fails (f : failure).
Arguments Returns {A} a.
Arguments Fails {A} f.

(** A response of the service: its status code, the text of the [HTTPError]
    that [raise_for_status] raises when the status is an error, and the body
    decoded as JSON ([None] when the body is not JSON). *)
Record response : Type := Response {
  status_code : Z;
  http_error : string;
  json : option pyval
}.

(** What [requests.get] gives: a [RequestException] with its text, or a
    response. *)
Inductive reply : Type :=
| NoResponse (msg : string)
| Got (r : response).

(** [raise_for_status] raises for the codes 400 to 599. *)
Definition is_error (r : response) : bool :=
  (400 <=? status_code r) && (status_code r <? 600).

(** The truth value of what [os.getenv] returns. *)
Definition present (v : option string) : bool :=
  match v with
  | Some s => negb (String.eqb s "")
  | None => false
  end.

(** [s.startswith(p)] and [s[n:]]. *)
Fixpoint startswith (p s : string) : bool :=
  match p, s with
  | EmptyString, _ => true
  | String a p', String b s' => Ascii.eqb a b && startswith p' s'
  | String _ _, EmptyString => false
  end.

Fixpoint skip (n : nat) (s : string) : string :=
  match n, s with
  | O, _ => s
  | S n', String _ s' => skip n' s'
  | S _, EmptyString => EmptyString
  end.

(** The token [get_headers] sends (lines 36-42): one prefix is taken off a
    token that is set and not empty. *)
Definition bare_token (auth_token : option string) : option string :=
  match auth_token with
  | Some t =>
      if negb (String.eqb t "") then
        if startswith "JWT " t then Some (skip 4 t)
        else if startswith "Token " t then Some (skip 6 t)
        else if startswith "Bearer " t then Some (skip 7 t)
        else Some t
      else Some t
  | None => None
  end.

(** An optional string inside an f-string. *)
Definition str_of_optional (v : option string) : string :=
  match v with
  | Some s => s
  | None => "None"
  end.

Definition headers_for (auth_token : option string) : list (string * string) :=
  [ ("Authorization", "JWT " +:+ str_of_optional (bare_token auth_token));
    ("Accept", "application/json");
    ("Content-Type", "application/json");
    ("User-Agent",
     "Mozilla/5.0 (Windows NT 10.0; Win64; x64) AppleWebKit/537.36");
    ("Referer", "https://fable.co/");
    ("Origin", "https://fable.co") ].

(** The header of a given name. *)
Fixpoint header (name : string) (hs : list (string * string)) : option string :=
  match hs with
  | [] => None
  | (k, v) :: hs' => if String.eqb name k then Some v else header name hs'
  end.

(** The addresses the client asks. *)
Definition owned_url : string :=
  "https://api.fable.co/api/v2/books/owned/?include=preorder,owned".

Definition lists_url (user_id : string) : string :=
  "https://api.fable.co/api/v2/users/" +:+ user_id +:+ "/book_lists".

Definition list_books_url (user_id list_id : string) (offset limit : Z)
  : string :=
  "https://api.fable.co/api/v2/users/" +:+ user_id +:+ "/book_lists/"
  +:+ list_id +:+ "/books" +:+ "?offset=" +:+ pretty offset +:+ "&limit="
  +:+ pretty limit.

Definition reviews_url (user_id : string) (offset limit : Z) : string :=
  "https://api.fable.co/api/v2/users/" +:+ user_id +:+ "/reviews/?limit="
  +:+ pretty limit +:+ "&offset=" +:+ pretty offset.

Definition reviews_url_v1 (user_id : string) (offset limit : Z) : string :=
  "https://api.fable.co/api/users/" +:+ user_id +:+ "/reviews/?limit="
  +:+ pretty limit +:+ "&offset=" +:+ pretty offset.

(** The addresses of [n] pages of a list, from page [k] on, 100 books a
    page. *)
Definition page_urls (user_id list_id : string) (k n : nat) : list pyval :=
  map (fun i => VStr (list_books_url user_id list_id (100 * Z.of_nat i) 100))
      (seq k n).

Definition unexpected_format : string :=
  "Unexpected response format from Fable API".

(** [len(v)]: numbers, booleans and [None] have no length. *)
Definition py_len (v : pyval) : result Z :=
  match v with
  | VStr s => Ok (Z.of_nat (String.length s))
  | VList xs => Ok (Z.of_nat (length xs))
  | VDict kvs => Ok (Z.of_nat (length kvs))
  | _ => Raise TypeError
  end.

(** [v.get(k, dflt)] on a value whose type is not known to be [dict]. *)
Definition method_get (v : pyval) (k : string) (dflt : pyval) : result pyval :=
  match v with
  | VDict d => Ok (get_default d k dflt)
  | _ => Raise AttributeError
  end.

(** [all_books.extend(results)] under [isinstance(results, list)]. *)
Definition extended (all_books : list pyval) (results : pyval) : list pyval :=
  match results with
  | VList xs => all_books ++ xs
  | _ => all_books
  end.

(** [d[k] = x] for a dictionary keyed by hashable values: an equal key keeps
    its place and the key object it had, a new key goes to the end. *)
Fixpoint dict_set {A : Type} (k : pyval) (x : A) (d : list (pyval * A))
  : list (pyval * A) :=
  match d with
  | [] => [(k, x)]
  | (k', y) :: d' =>
      if key_eq k k' then (k', x) :: d' else (k', y) :: dict_set k x d'
  end.

(** The entry [fetch_user_reviews] keeps of a review (lines 257-272). *)
Definition review_entry (review : pydict) : pyval :=
  VDict
    [ ("rating", get review "rating");
      ("review", get review "review");
      ("contains_spoilers", get review "contains_spoilers");
      ("did_not_finish", get review "did_not_finish");
      ("characters_rating", get review "characters_rating");
      ("plot_rating", get review "plot_rating");
      ("writing_style_rating", get review "writing_style_rating");
      ("setting_rating", get review "setting_rating");
      ("attributes", get_default review "attributes" (VList []));
      ("emoji_reaction", get review "emoji_reaction");
      ("emoji", get review "emoji");
      ("spicy_level", get review "spicy_level");
      ("created_at", get review "created_at");
      ("updated_at", get review "updated_at") ].

(** The body of [for review in results] (lines 252-272).  A review that is
    not a mapping, or whose [book] is not one, has no [get]; a true identifier
    that is a list or a mapping cannot be a key. *)
Fixpoint add_reviews (results : list pyval)
    (reviews_by_book : list (pyval * pyval))
  : result (list (pyval * pyval)) :=
  match results with
  | [] => Ok reviews_by_book
  | review :: rest =>
      match method_get review "book" (VDict []) with
      | Ok book_data =>
          match attr_get book_data "id" with
          | Ok book_id =>
              if truthy book_id then
                match review with
                | VDict r =>
                    if hashable book_id then
                      add_reviews rest
                        (dict_set book_id (review_entry r) reviews_by_book)
                    else Raise TypeError
                | _ => Raise AttributeError
                end
              else add_reviews rest reviews_by_book
          | Raise e => Raise e
          end
      | Raise e => Raise e
      end
  end.

(** What the client takes from its surroundings: [repr] of a float, a list or
    a dictionary (for [str] in an f-string), and the world with
    [load_dotenv()], [os.getenv(name)],
    [requests.get(url, headers=hs, timeout=10)] and [print(text)].  The
    address of a request is a value: the cursor of the owned books is
    whatever the service put under [next]. *)
Class Service : Type := {
  py_repr : pyval -> string;
  W : Type;
  load_dotenv : W -> W;
  getenv : string -> W -> option string;
  http_get : pyval -> list (string * string) -> W -> reply * W;
  print : string -> W -> W
}.

Section WithService.
Context `{Service}.

(** Code of the client: from a world to an outcome and the world after it,
    or [None] when the fuel ran out. *)
Definition C (A : Type) : Type := W -> option (outcome A * W).

Definition ret {A : Type} (a : A) : C A := fun w => Some (Returns a, w).

Definition raise {A : Type} (f : failure) : C A := fun w => Some (Fails f, w).

Definition unfinished {A : Type} : C A := fun _ => None.

Definition bind {A B : Type} (c : C A) (k : A -> C B) : C B :=
  fun w =>
    match c w with
    | Some (Returns a, w') => k a w'
    | Some (Fails f, w') => Some (Fails f, w')
    | None => None
    end.

Definition lift {A : Type} (r : result A) : C A :=
  match r with
  | Ok a => ret a
  | Raise e => raise (Uncaught e)
  end.

(** [try: c  except FableAPIError as e: handler e]. *)
Definition except_api {A : Type} (c : C A) (handler : string -> C A) : C A :=
  fun w =>
    match c w with
    | Some (Fails (FableAPIError msg), w') => handler msg w'
    | r => r
    end.

Definition say (text : string) : C unit :=
  fun w => Some (Returns tt, print text w).

Definition http (url : pyval) (hs : list (string * string)) : C reply :=
  fun w => let (r, w') := http_get url hs w in Some (Returns r, w').

Declare Scope client_scope.
Delimit Scope client_scope with client.
Notation "x <- c ;; k" := (bind c (fun x => k))
  (at level 100, c at next level, right associativity) : client_scope.
Local Open Scope client_scope.

(** [validate_credentials] (lines 14-27). *)
Definition validate_credentials : C unit :=
  fun w =>
    let w1 := load_dotenv w in
    let user_id := getenv "FABLE_USER_ID" w1 in
    let auth_token := getenv "FABLE_AUTH_TOKEN" w1 in
    if negb (present user_id) then
      raise (FableAPIError
        "FABLE_USER_ID is not set. Please configure your Fable credentials.")
        w1
    else if negb (present auth_token) then
      raise (FableAPIError
        "FABLE_AUTH_TOKEN is not set. Please add your authentication token to .env file.")
        w1
    else ret tt w1.

(** [get_headers] (lines 30-51). *)
Definition get_headers : C (list (string * string)) :=
  fun w =>
    let w1 := load_dotenv w in
    ret (headers_for (getenv "FABLE_AUTH_TOKEN" w1)) w1.

(** [get_user_id] (lines 54-60). *)
Definition get_user_id : C string :=
  fun w =>
    let w1 := load_dotenv w in
    match getenv "FABLE_USER_ID" w1 with
    | Some user_id =>
        if negb (String.eqb user_id "") then ret user_id w1
        else raise (FableAPIError "FABLE_USER_ID is not set.") w1
    | None => raise (FableAPIError "FABLE_USER_ID is not set.") w1
    end.

(** The [try] block of the three book requests: the request with fresh
    headers, then [raise_for_status]; a [RequestException] becomes a
    [FableAPIError] whose text starts with [what]. *)
Definition request (url : pyval) (what : string) : C response :=
  hs <- get_headers ;;
  r <- http url hs ;;
  match r with
  | NoResponse msg => raise (FableAPIError (what +:+ msg))
  | Got resp =>
      if is_error resp then raise (FableAPIError (what +:+ http_error resp))
      else ret resp
  end.

(** [response.json()], outside the [try] block. *)
Definition json_of (resp : response) : C pyval :=
  match json resp with
  | Some data => ret data
  | None => raise JSONDecodeError
  end.

(** The loop of [fetch_owned_books] (lines 75-97). *)
Fixpoint owned_loop (fuel : nat) (url : pyval) (all_books : list pyval)
  : C (list pyval) :=
  if negb (truthy url) then ret all_books
  else
    match fuel with
    | O => unfinished
    | S fuel' =>
        resp <- request url "Failed to fetch owned books: " ;;
        data <- json_of resp ;;
        match data with
        | VList xs => ret (all_books ++ xs)
        | VDict d =>
            let results := get_default d "results" (VList []) in
            owned_loop fuel' (get d "next") (extended all_books results)
        | _ => raise (FableAPIError unexpected_format)
        end
    end.

(** [fetch_owned_books] (lines 63-97). *)
Definition fetch_owned_books (fuel : nat) : C (list pyval) :=
  _ <- validate_credentials ;;
  owned_loop fuel (VStr owned_url) [].

(** [fetch_user_lists] (lines 100-125).  Under [results] the service may
    have put any value; it is returned as it is. *)
Definition fetch_user_lists : C pyval :=
  _ <- validate_credentials ;;
  user_id <- get_user_id ;;
  resp <- request (VStr (lists_url user_id)) "Failed to fetch book lists: " ;;
  data <- json_of resp ;;
  match data with
  | VList _ => ret data
  | VDict d => ret (get_default d "results" (VList []))
  | _ => raise (FableAPIError unexpected_format)
  end.

(** The loop of [fetch_books_from_list] (lines 145-175), [limit] being 100. *)
Fixpoint list_loop (fuel : nat) (user_id : string) (list_id : pyval)
    (offset : Z) (all_books : list pyval) : C (list pyval) :=
  match fuel with
  | O => unfinished
  | S fuel' =>
      let limit := 100 in
      let url := list_books_url user_id (py_str py_repr list_id) offset limit in
      resp <- request (VStr url)
                ("Failed to fetch books from list "
                 +:+ py_str py_repr list_id +:+ ": ") ;;
      data <- json_of resp ;;
      match data with
      | VList xs => ret (all_books ++ xs)
      | VDict d =>
          let results := get_default d "results" (VList []) in
          let all_books' := extended all_books results in
          if negb (truthy results) then ret all_books'
          else
            n <- lift (py_len results) ;;
            if n <? limit then ret all_books'
            else list_loop fuel' user_id list_id (offset + limit) all_books'
      | _ => raise (FableAPIError unexpected_format)
      end
  end.

(** [fetch_books_from_list] (lines 128-175). *)
Definition fetch_books_from_list (fuel : nat) (list_id : pyval)
  : C (list pyval) :=
  _ <- validate_credentials ;;
  user_id <- get_user_id ;;
  list_loop fuel user_id list_id 0 [].

(** The loop over the lists in [fetch_all_books] (lines 197-204).
    [all_books] is extended in place, so the loop gives it back together with
    the way the loop ended. *)
Fixpoint each_list (fuel : nat) (lists : list pyval) (all_books : list pyval)
  : W -> option (outcome unit * list pyval * W) :=
  fun w =>
    match lists with
    | [] => Some (Returns tt, all_books, w)
    | book_list :: rest =>
        match attr_get book_list "id" with
        | Ok list_id =>
            if truthy list_id then
              match fetch_books_from_list fuel list_id w with
              | Some (Returns books, w') =>
                  each_list fuel rest (all_books ++ books) w'
              | Some (Fails (FableAPIError e), w') =>
                  each_list fuel rest all_books
                    (print ("Warning: Could not fetch books from list "
                            +:+ py_str py_repr list_id +:+ ": " +:+ e) w')
              | Some (Fails f, w') => Some (Fails f, all_books, w')
              | None => None
              end
            else each_list fuel rest all_books w
        | Raise e => Some (Fails (Uncaught e), all_books, w)
        end
    end.

(** The second [try] block of [fetch_all_books] (lines 195-204). *)
Definition all_lists (fuel : nat) (all_books : list pyval)
  : W -> option (outcome unit * list pyval * W) :=
  fun w =>
    match fetch_user_lists w with
    | Some (Returns lists, w') =>
        match py_iter lists with
        | Ok items => each_list fuel items all_books w'
        | Raise e => Some (Fails (Uncaught e), all_books, w')
        end
    | Some (Fails f, w') => Some (Fails f, all_books, w')
    | None => None
    end.

(** [fetch_all_books] (lines 178-208). *)
Definition fetch_all_books (fuel : nat) : C (list pyval) :=
  all_books <-
    except_api (fetch_owned_books fuel)
      (fun e =>
         _ <- say ("Warning: Could not fetch owned books: " +:+ e) ;;
         ret []) ;;
  fun w =>
    match all_lists fuel all_books w with
    | Some (Returns _, all_books', w') => ret all_books' w'
    | Some (Fails (FableAPIError e), all_books', w') =>
        (_ <- say ("Warning: Could not fetch user lists: " +:+ e) ;;
         ret all_books') w'
    | Some (Fails f, _, w') => Some (Fails f, w')
    | None => None
    end.

(** The [try] block of [fetch_user_reviews] (lines 229-241), [limit] being
    20: the response to go on with, or [None] when a [RequestException] was
    raised.  After a 404 the older address is asked. *)
Definition reviews_page (user_id : string) (offset : Z) : C (option response) :=
  let limit := 20 in
  hs <- get_headers ;;
  r <- http (VStr (reviews_url user_id offset limit)) hs ;;
  match r with
  | NoResponse _ => ret None
  | Got resp =>
      if status_code resp =? 404 then
        hs' <- get_headers ;;
        r' <- http (VStr (reviews_url_v1 user_id offset limit)) hs' ;;
        match r' with
        | NoResponse _ => ret None
        | Got resp' => if is_error resp' then ret None else ret (Some resp')
        end
      else if is_error resp then ret None
      else ret (Some resp)
  end.

(** The loop of [fetch_user_reviews] (lines 225-279). *)
Fixpoint reviews_loop (fuel : nat) (user_id : string) (offset : Z)
    (reviews_by_book : list (pyval * pyval)) : C (list (pyval * pyval)) :=
  match fuel with
  | O => unfinished
  | S fuel' =>
      let limit := 20 in
      page <- reviews_page user_id offset ;;
      match page with
      | None => ret reviews_by_book
      | Some resp =>
          data <- json_of resp ;;
          match data with
          | VDict d =>
              match get_default d "results" (VList []) with
              | VList [] => ret reviews_by_book
              | VList results =>
                  reviews_by_book' <-
                    lift (add_reviews results reviews_by_book) ;;
                  if Z.of_nat (length results) <? limit then
                    ret reviews_by_book'
                  else
                    reviews_loop fuel' user_id (offset + limit)
                      reviews_by_book'
              | _ => ret reviews_by_book
              end
          | _ => ret reviews_by_book
          end
      end
  end.

(** [fetch_user_reviews] (lines 211-279). *)
Definition fetch_user_reviews (fuel : nat) : C (list (pyval * pyval)) :=
  _ <- validate_credentials ;;
  user_id <- get_user_id ;;
  reviews_loop fuel user_id 0 [].

(** *** What the properties speak of *)

(** The credentials are set, and stay as they are. *)
Definition signed_in (user_id auth_token : string) : Prop :=
  user_id <> "" /\ auth_token <> "" /\
  forall w,
    getenv "FABLE_USER_ID" (load_dotenv w) = Some user_id /\
    getenv "FABLE_AUTH_TOKEN" (load_dotenv w) = Some auth_token.

(** A credential is missing when the client looks for it in [w]. *)
Definition signed_out (w : W) : Prop :=
  present (getenv "FABLE_USER_ID" (load_dotenv w)) = false \/
  present (getenv "FABLE_AUTH_TOKEN" (load_dotenv w)) = false.

(** Whenever it is asked for [url], the service replies [r]. *)
Definition replies (url : pyval) (r : reply) : Prop :=
  forall hs w, fst (http_get url hs w) = r.

(** Whenever it is asked for [url], the service answers without an error
    status and with the JSON document [body]. *)
Definition answers (url : pyval) (body : pyval) : Prop :=
  forall hs w,
    exists resp,
      fst (http_get url hs w) = Got resp /\
      is_error resp = false /\
      json resp = Some body.

(** [asked] keeps the addresses that were requested, in their order: a
    request adds its address at the end; reading the environment and
    printing add nothing. *)
Definition records_requests (asked : W -> list pyval) : Prop :=
  (forall w, asked (load_dotenv w) = asked w) /\
  (forall text w, asked (print text w) = asked w) /\
  (forall url hs w, asked (snd (http_get url hs w)) = asked w ++ [url]).

(** Whenever it is asked for [url], the service says 404. *)
Definition not_found (url : pyval) : Prop :=
  forall hs w,
    exists resp,
      fst (http_get url hs w) = Got resp /\ status_code resp = 404.

(** The service answers the reviews at [offset] with [body], at the newer
    address or, saying 404 there, at the older one. *)
Definition serves_reviews (user_id : string) (offset : Z) (body : pyval)
  : Prop :=
  answers (VStr (reviews_url user_id offset 20)) body \/
  (not_found (VStr (reviews_url user_id offset 20)) /\
   answers (VStr (reviews_url_v1 user_id offset 20)) body).

(** Whenever it is asked for [url], the service answers without an error
    status and with a body that is not JSON. *)
Definition garbled (url : pyval) : Prop :=
  forall hs w,
    exists resp,
      fst (http_get url hs w) = Got resp /\
      is_error resp = false /\
      json resp = None.

(** The value of the [Authorization] header [get_headers] makes in [w]. *)
Definition authorization (w : W) : option string :=
  match get_headers w with
  | Some (Returns hs, _) => header "Authorization" hs
  | _ => None
  end.

(** A run that ended with a [FableAPIError]. *)
Definition raises_api_error {A : Type} (r : option (outcome A * W)) : bool :=
  match r with
  | Some (Fails (FableAPIError _), _) => true
  | _ => false
  end.

(** Whatever the world, [c] ends with the books [books], or with a
    [FableAPIError] when [books] is [None]. *)
Definition gives (c : C (list pyval)) (books : option (list pyval)) : Prop :=
  forall w,
    exists w',
      match books with
      | Some bs => c w = Some (Returns bs, w')
      | None => exists m, c w = Some (Fails (FableAPIError m), w')
      end.

(** The books [fetch_all_books] takes for an entry of the lists: those of
    its [id] when the [id] is true and the list could be fetched. *)
Definition books_listed (books_of : pyval -> option (list pyval))
    (book_list : pydict) : list pyval :=
  if truthy (get book_list "id") then
    default [] (books_of (get book_list "id"))
  else [].

End WithService.

(** The identifier [fetch_user_reviews] files a review under. *)
Definition book_id_of (review : pydict) : pyval :=
  match get_default review "book" (VDict []) with
  | VDict book_data => get book_data "id"
  | _ => VNone
  end.

(** A review whose book has a text that is not empty as its identifier. *)
Definition filed_under (id : string) (review : pydict) : Prop :=
  id <> "" /\
  exists book_data,
    get_default review "book" (VDict []) = VDict book_data /\
    get book_data "id" = VStr id.

(** The dictionary after a review with a hashable, true identifier was
    filed. *)
Definition file_review (reviews_by_book : list (pyval * pyval))
    (review : pydict) : list (pyval * pyval) :=
  dict_set (book_id_of review) (review_entry review) reviews_by_book.

(** [review] is the last of [reviews] that is filed under [id]. *)
Definition latest (reviews : list pydict) (id : string) (review : pydict)
  : Prop :=
  exists before after,
    reviews = before ++ review :: after /\
    filed_under id review /\
    Forall (fun r => ~ filed_under id r) after.

(** *** A small service to try the client on

    The user [u1] owns two books on two pages, has one list [L1] of two books
    and a list entry without identifier, and has reviewed the book [b1]
    twice; the reviews are at the older address only.  The world counts the
    requests. *)

Definition sample_owned : list (list pyval) :=
  [ [VDict [("id", VStr "b1")]]; [VDict [("id", VStr "b2")]] ].

Definition sample_cursor (i : nat) : pyval :=
  match i with
  | 0%nat => VStr owned_url
  | 1%nat => VStr "https://api.fable.co/api/v2/books/owned/?page=2"
  | _ => VNone
  end.

Definition sample_list : list pyval :=
  [ VDict [("id", VStr "b2")]; VDict [("id", VStr "b3")] ].

Definition sample_lists : list pydict :=
  [ [("id", VStr "L1"); ("name", VStr "Want to read")];
    [("name", VStr "Unnamed")] ].

Definition sample_reviews : list pydict :=
  [ [("book", VDict [("id", VStr "b1")]); ("rating", VInt 3)];
    [("book", VDict [("id", VStr "b1")]); ("rating", VInt 5)] ].

Definition sample_page (results : pyval) (next : pyval) : reply :=
  Got (Response 200 "" (Some (VDict [("results", results); ("next", next)]))).

Definition sample_reply (url : pyval) : reply :=
  match url with
  | VStr u =>
      if String.eqb u owned_url then
        sample_page (VList [VDict [("id", VStr "b1")]]) (sample_cursor 1)
      else if String.eqb u
                "https://api.fable.co/api/v2/books/owned/?page=2" then
        sample_page (VList [VDict [("id", VStr "b2")]]) VNone
      else if String.eqb u (lists_url "u1") then
        Got (Response 200 "" (Some (VList (map VDict sample_lists))))
      else if String.eqb u (list_books_url "u1" "L1" 0 100) then
        sample_page (VList sample_list) VNone
      else if String.eqb u (reviews_url "u1" 0 20) then
        Got (Response 404 "404 Client Error" None)
      else if String.eqb u (reviews_url_v1 "u1" 0 20) then
        sample_page (VList (map VDict sample_reviews)) VNone
      else NoResponse "no route"
  | _ => NoResponse "no route"
  end.

Definition sample_getenv (name : string) : option string :=
  if String.eqb name "FABLE_USER_ID" then Some "u1"
  else if String.eqb name "FABLE_AUTH_TOKEN" then Some "Bearer abc"
  else None.

Definition sample_service : Service := {|
  py_repr := sample_repr;
  W := nat;
  load_dotenv := fun w => w;
  getenv := fun name _ => sample_getenv name;
  http_get := fun url _ w => (sample_reply url, S w);
  print := fun _ w => w
|}.

(** The same service for a user who has not set the credentials. *)
Definition signed_out_service : Service := {|
  py_repr := sample_repr;
  W := nat;
  load_dotenv := fun w => w;
  getenv := fun _ _ => None;
  http_get := fun url _ w => (sample_reply url, S w);
  print := fun _ w => w
|}.

(** A service that answers every request with a page that is not JSON. *)
Definition garbled_service : Service := {|
  py_repr := sample_repr;
  W := nat;
  load_dotenv := fun w => w;
  getenv := fun name _ => sample_getenv name;
  http_get := fun _ _ w => (Got (Response 200 "" None), S w);
  print := fun _ w => w
|}.

(** A service with one list [L2] of 100 books: the page at 0 is full, the
    page at 100 is empty.  The world is the list of the addresses that were
    requested. *)
Definition hundred_books : list pyval :=
  map (fun i => VDict [("id", VInt (Z.of_nat i))]) (seq 0 100).

Definition paging_reply (url : pyval) : reply :=
  match url with
  | VStr u =>
      if String.eqb u (list_books_url "u1" "L2" 0 100) then
        sample_page (VList hundred_books) VNone
      else if String.eqb u (list_books_url "u1" "L2" 100 100) then
        sample_page (VList []) VNone
      else NoResponse "no route"
  | _ => NoResponse "no route"
  end.

Definition paging_service : Service := {|
  py_repr := sample_repr;
  W := list pyval;
  load_dotenv := fun w => w;
  getenv := fun name _ => sample_getenv name;
  http_get := fun url _ w => (paging_reply url, w ++ [url]);
  print := fun _ w => w
|}.

End Client.


(** ** Command line: [ask_yes_no], [select_export_formats] and the file name
    of a list in [export_books] ([src/cli.py]) *)

Module Cli.
Local Open Scope list_scope.

(** *** Characters

    [str.isalnum], [str.isspace] and [str.lower] on the characters below
    256, by their code points. *)

Definition code (c : ascii) : nat := nat_of_ascii c.

Definition between (lo hi : nat) (c : ascii) : bool :=
  (lo <=? code c)%nat && (code c <=? hi)%nat.

Definition isalnum (c : ascii) : bool :=
  between 48 57 c || between 65 90 c || between 97 122 c
  || between 170 170 c || between 178 179 c || between 181 181 c
  || between 185 186 c || between 188 190 c || between 192 214 c
  || between 216 246 c || between 248 255 c.

Definition isspace (c : ascii) : bool :=
  between 9 13 c || between 28 32 c || between 133 133 c
  || between 160 160 c.

Definition lower_char (c : ascii) : ascii :=
  if between 65 90 c || between 192 214 c || between 216 222 c then
    ascii_of_nat (code c + 32)
  else c.

Fixpoint string_map (f : ascii -> ascii) (s : string) : string :=
  match s with
  | EmptyString => EmptyString
  | String c s' => String (f c) (string_map f s')
  end.

Fixpoint string_forall (p : ascii -> bool) (s : string) : bool :=
  match s with
  | EmptyString => true
  | String c s' => p c && string_forall p s'
  end.

(** [s.lower()]. *)
Definition lower (s : string) : string := string_map lower_char s.

(** [s.isalnum()]: every character is one, and there is at least one. *)
Definition str_isalnum (s : string) : bool :=
  negb (String.eqb s "") && string_forall isalnum s.

(** [s.strip()]: without the blanks at both ends. *)
Fixpoint lstrip (s : string) : string :=
  match s with
  | EmptyString => EmptyString
  | String c s' => if isspace c then lstrip s' else s
  end.

Fixpoint rstrip (s : string) : string :=
  match s with
  | EmptyString => EmptyString
  | String c s' =>
      match rstrip s' with
      | EmptyString => if isspace c then EmptyString else String c EmptyString
      | t => String c t
      end
  end.

Definition strip (s : string) : string := rstrip (lstrip s).

(** *** The file name of a list (lines 199-200)

    [safe_name] is made of the items [list_name] yields: an item that is
    alphanumeric, or one of blank, hyphen and underscore, is kept, any other
    item becomes an underscore; then blanks become underscores.  An item that
    is not a string has no [isalnum]. *)

Definition kept (c : pyval) : result string :=
  match c with
  | VStr c =>
      Ok (if str_isalnum c || String.eqb c " " || String.eqb c "-"
             || String.eqb c "_"
          then c else "_")
  | _ => Raise AttributeError
  end.

Definition safe_name (list_name : pyval) : result string :=
  match py_iter list_name with
  | Ok items =>
      match mapM kept items with
      | Ok parts => Ok (replace_char " " "_" (String.concat "" parts))
      | Raise e => Raise e
      end
  | Raise e => Raise e
  end.

(** A character a file name made by [safe_name] may hold. *)
Definition plain (c : ascii) : bool :=
  isalnum c || Ascii.eqb c "-" || Ascii.eqb c "_".

(** What [safe_name] makes of one character of a name. *)
Definition tidy (c : ascii) : ascii := if plain c then c else "_"%char.

(** *** Questions on the terminal

    The terminal holds the lines the user is going to type and what has been
    written so far.  [input] writes its prompt and takes the next line; when
    there is none it raises [EOFError]. *)

Record terminal : Type := Terminal {
  typed : list string;
  shown : list string
}.

Inductive answer (A : Type) : Type :=
| Answered (a : A)
| EndOfInput.
Arguments Answered {A} a.
Arguments EndOfInput {A}.

Definition print (text : string) (t : terminal) : terminal :=
  Terminal (typed t) (shown t ++ [text +:+ nl]).

Fixpoint dashes (n : nat) : string :=
  match n with
  | O => EmptyString
  | S n' => String "-" (dashes n')
  end.

(** [print_section] (lines 17-20). *)
Definition print_section (title : string) (t : terminal) : terminal :=
  print (dashes (String.length title)) (print (nl +:+ title) t).

(** What [ask_yes_no] makes of a line (lines 26-30). *)
Definition yes_no_of (line : string) : option bool :=
  let response := lower (strip line) in
  if String.eqb response "yes" || String.eqb response "y" then Some true
  else if String.eqb response "no" || String.eqb response "n" then Some false
  else None.

Definition yes_no_prompt (prompt : string) : string :=
  nl +:+ prompt +:+ " (yes/no): ".

Definition yes_no_hint : string := "Please enter 'yes' or 'no'" +:+ nl.

(** [ask_yes_no] (lines 23-32): the loop ends with the first line that is an
    answer, or with the end of the input. *)
Fixpoint ask_yes_no_from (prompt : string) (lines shown : list string)
  : answer bool * terminal :=
  match lines with
  | [] => (EndOfInput, Terminal [] (shown ++ [yes_no_prompt prompt]))
  | line :: rest =>
      match yes_no_of line with
      | Some b => (Answered b, Terminal rest (shown ++ [yes_no_prompt prompt]))
      | None =>
          ask_yes_no_from prompt rest
            (shown ++ [yes_no_prompt prompt] ++ [yes_no_hint])
      end
  end.

Definition ask_yes_no (prompt : string) (t : terminal)
  : answer bool * terminal :=
  ask_yes_no_from prompt (typed t) (shown t).

Definition choices : list (string * string) :=
  [ ("csv", "CSV (spreadsheet - import to Excel, Google Sheets)");
    ("json", "JSON (structured data format)");
    ("md", "Markdown (readable text format)") ].

(** The loop over the choices in [select_export_formats] (lines 124-126). *)
Fixpoint ask_each (choices : list (string * string)) (formats : list string)
    (t : terminal) : answer (list string) * terminal :=
  match choices with
  | [] => (Answered formats, t)
  | (key, label) :: rest =>
      match ask_yes_no ("Export as " +:+ label +:+ "?") t with
      | (Answered true, t') => ask_each rest (formats ++ [key]) t'
      | (Answered false, t') => ask_each rest formats t'
      | (EndOfInput, t') => (EndOfInput, t')
      end
  end.

(** [select_export_formats] (lines 112-132). *)
Definition select_export_formats (t : terminal)
  : answer (list string) * terminal :=
  let t1 :=
    print
      "Which format(s) would you like to export? (You can choose multiple)"
      (print_section "Export Formats" t) in
  match ask_each choices [] t1 with
  | (Answered [], t2) =>
      (Answered ["csv"],
       print (nl +:+ "No formats selected. Using CSV (default).") t2)
  | r => r
  end.

(** [ask_separate_lists] (lines 135-141). *)
Definition ask_separate_lists (t : terminal) : answer bool * terminal :=
  ask_yes_no
    ("Do you want to export each book list to a separate file?" +:+ nl
     +:+ "(Yes = separate files per list, No = one combined file)")
    (print_section "Export Options" t).

(** The question and the hint a line that is no answer costs. *)
Definition asked_again (prompt : string) (lines : list string) : list string :=
  concat (map (fun _ => [yes_no_prompt prompt; yes_no_hint]) lines).

(** Blanks only. *)
Definition blank (s : string) : Prop := string_forall isspace s = true.

Definition sample_terminal : terminal :=
  Terminal [ "maybe"; " YES "; "n"; ""; "No"; "y"; "exports" ] [].

End Cli.

(** * Properties *)

(** ** The record normaliser *)

Module NormalizerFacts.
Import Normalizer.

Lemma normalize_mapping_keys (outer : pydict) (r : pyval) :
  normalize_mapping outer = Ok r ->
  exists kvs, r = VDict kvs /\ keys kvs = canonical_fields.
Proof.
  unfold normalize_mapping, rbind.
  destruct (genres_of _); [|discriminate].
  destruct (attr_get _ "current_page"); [|discriminate].
  destruct (attr_get _ "page_count"); [|discriminate].
  destruct (emoji_reaction_of _); [|discriminate].
  intros [= <-]. eexists; split; [reflexivity|reflexivity].
Qed.

(** Whenever [normalize_book] returns, the record has the canonical keys, in
    the canonical order. *)
Lemma normalize_book_keys (book r : pyval) :
  normalize_book book = Ok r ->
  exists kvs, r = VDict kvs /\ keys kvs = canonical_fields.
Proof.
  unfold normalize_book.
  destruct (negb (truthy book) || negb (is_dict book)).
  - intros [= <-]. eexists; split; reflexivity.
  - destruct book; try (intros [= <-]; eexists; split; reflexivity).
    apply normalize_mapping_keys.
Qed.

(** [None], a value that is not a mapping and the empty mapping give the
    default record. *)
Lemma normalize_book_default (book : pyval) :
  is_dict book = false \/ book = VDict [] ->
  normalize_book book = Ok (VDict default_record).
Proof.
  unfold normalize_book. intros [H | ->]; [|reflexivity].
  rewrite H. rewrite orb_true_r. reflexivity.
Qed.

(** [normalize_book] returns a record exactly for the mappings that are
    [well_shaped]; for the others it raises. *)
Lemma normalize_mapping_returns (outer : pydict) :
  (exists r, normalize_mapping outer = Ok r) <-> well_shaped outer = true.
Proof.
  unfold normalize_mapping, well_shaped, rbind, genres_of, emoji_reaction_of.
  set (bd := book_data_of outer).
  assert (Hg : truthy (get bd "genres") = true ->
               get_default bd "genres" (VList []) = get bd "genres").
  { unfold get, get_default. by destruct (assoc "genres" bd). }
  destruct (truthy (get bd "genres")); simpl;
    [rewrite Hg by done; destruct (get bd "genres"); simpl|];
    destruct (reading_progress_of bd); simpl;
    destruct (truthy (get outer "emoji_reaction")); simpl;
    destruct (py_or (get outer "emoji") (VDict [])); simpl;
    (split;
     [ intros [r Hr]; first [discriminate Hr | reflexivity]
     | intros Hw; first [discriminate Hw | eauto] ]).
Qed.

(** A mapping with a nested mapping under ["book"] is normalised with the
    nested mapping as [book_data]. *)
Lemma book_data_of_nested (outer nested : pydict) :
  get outer "book" = VDict nested -> book_data_of outer = nested.
Proof. unfold book_data_of. intros ->. reflexivity. Qed.

(** C1 (the defect): a mapping whose ["reading_progress"] is a string that is
    not empty makes [normalize_book] raise [AttributeError] (line 81 calls
    [.get] on the string), where the claim promises a record with the
    canonical keys for every input. *)
Theorem normalize_book_raises_on_text_reading_progress :
  normalize_book (VDict [("reading_progress", VStr "abc")]) = Raise AttributeError.
Proof. reflexivity. Qed.

Lemma normalize_nested (outer nested : pydict) :
  get outer "book" = VDict nested ->
  normalize_book (VDict outer) = normalize_mapping outer.
Proof.
  destruct outer as [|kv outer]; [discriminate|]. reflexivity.
Qed.

(** The normalised record of a mapping, with the results of the three steps
    that may raise named. *)
Lemma normalize_mapping_ok (outer r : pydict) :
  normalize_mapping outer = Ok (VDict r) ->
  exists genres current_page total_pages emoji_reaction,
    genres_of (book_data_of outer) = Ok genres /\
    attr_get (reading_progress_of (book_data_of outer)) "current_page"
      = Ok current_page /\
    attr_get (reading_progress_of (book_data_of outer)) "page_count"
      = Ok total_pages /\
    emoji_reaction_of outer = Ok emoji_reaction /\
    get r "genres" = genres /\
    get r "current_page" = current_page /\
    get r "total_pages" = total_pages /\
    get r "emoji_reaction" = emoji_reaction /\
    get r "title" = py_or (get (book_data_of outer) "title") (get outer "title") /\
    get r "authors" = authors_of (book_data_of outer) outer /\
    get r "published_date"
      = py_or (py_or (get (book_data_of outer) "published_date")
                     (get (book_data_of outer) "publish_date"))
              (get outer "published_date") /\
    get r "storygraph_genres"
      = tag_group (storygraph_tags_of (book_data_of outer)) "genres" /\
    get r "moods" = tag_group (storygraph_tags_of (book_data_of outer)) "moods" /\
    get r "content_warnings"
      = tag_group (storygraph_tags_of (book_data_of outer)) "content_warnings" /\
    get r "status"
      = py_or (read_status_of (reading_progress_of (book_data_of outer)))
              (get outer "status") /\
    get r "rating" = get outer "rating" /\
    get r "review" = py_or (get outer "review") (VStr "") /\
    get r "contains_spoilers" = get outer "contains_spoilers" /\
    get r "did_not_finish" = get outer "did_not_finish" /\
    get r "started_reading_at"
      = py_or (get (book_data_of outer) "started_reading_at") (VStr "") /\
    get r "finished_reading_at"
      = py_or (get (book_data_of outer) "finished_reading_at") (VStr "") /\
    get r "characters_rating" = get outer "characters_rating" /\
    get r "plot_rating" = get outer "plot_rating" /\
    get r "writing_style_rating" = get outer "writing_style_rating" /\
    get r "setting_rating" = get outer "setting_rating" /\
    get r "attributes" = attribute_names_of outer /\
    get r "isbn" = py_or (get (book_data_of outer) "isbn") (get outer "isbn") /\
    get r "review_created_at"
      = py_or (get outer "review_created_at") (get outer "created_at") /\
    get r "added_at" = get outer "added_at" /\
    get r "created_at" = VNone.
Proof.
  unfold normalize_mapping, rbind.
  destruct (genres_of _) as [genres|]; [|discriminate].
  destruct (attr_get _ "current_page") as [current_page|]; [|discriminate].
  destruct (attr_get _ "page_count") as [total_pages|]; [|discriminate].
  destruct (emoji_reaction_of _) as [emoji_reaction|]; [|discriminate].
  intros [= <-].
  exists genres, current_page, total_pages, emoji_reaction.
  repeat split; reflexivity.
Qed.

(** C5 (as amended): with a nested mapping under ["book"], the
    book-intrinsic fields come from the nested mapping first and the review
    fields from the outer record; of the reading state, the status is the
    nested [reading_progress.status] with the outer ["status"] as fallback,
    the pages come from the nested [reading_progress] and the two reading
    dates from the nested mapping. *)
Theorem nested_book_field_sources (outer nested r : pydict) :
  get outer "book" = VDict nested ->
  normalize_book (VDict outer) = Ok (VDict r) ->
  (* book-intrinsic fields *)
  get r "title" = py_or (get nested "title") (get outer "title") /\
  get r "authors" = authors_of nested outer /\
  genres_of nested = Ok (get r "genres") /\
  get r "published_date"
    = py_or (py_or (get nested "published_date") (get nested "publish_date"))
            (get outer "published_date") /\
  get r "storygraph_genres" = tag_group (storygraph_tags_of nested) "genres" /\
  get r "moods" = tag_group (storygraph_tags_of nested) "moods" /\
  get r "content_warnings"
    = tag_group (storygraph_tags_of nested) "content_warnings" /\
  (* review fields *)
  get r "rating" = get outer "rating" /\
  get r "review" = py_or (get outer "review") (VStr "") /\
  (* reading state *)
  get r "status"
    = py_or (read_status_of (reading_progress_of nested)) (get outer "status") /\
  attr_get (reading_progress_of nested) "current_page"
    = Ok (get r "current_page") /\
  attr_get (reading_progress_of nested) "page_count"
    = Ok (get r "total_pages") /\
  get r "started_reading_at"
    = py_or (get nested "started_reading_at") (VStr "") /\
  get r "finished_reading_at"
    = py_or (get nested "finished_reading_at") (VStr "").
Proof.
  intros Hbook Hnorm.
  rewrite (normalize_nested _ _ Hbook) in Hnorm.
  apply normalize_mapping_ok in Hnorm.
  rewrite (book_data_of_nested _ _ Hbook) in Hnorm.
  destruct Hnorm as (g & cp & tp & em & Hg & Hcp & Htp & _ & Hrg & Hrcp & Hrtp
    & _ & Ht & Ha & Hpd & Hsg & Hm & Hcw & Hst & Hra & Hre & _ & _ & Hs & Hf & _).
  subst g cp tp. repeat split; assumption.
Qed.

Lemma nested_book_field_sources_witness :
  exists r,
    normalize_book (VDict nested_example) = Ok (VDict r) /\
    get r "title" = VStr "Dune" /\
    get r "rating" = VInt 5 /\
    get r "started_reading_at" = VStr "".
Proof.
  eexists. split; [reflexivity|].
  pose proof (nested_book_field_sources nested_example
                [ ("title", VStr "Dune") ] _ eq_refl eq_refl) as H.
  destruct H as (Ht & _ & _ & _ & _ & _ & _ & Hr & _ & _ & _ & _ & Hs & _).
  rewrite Ht, Hr, Hs. repeat split; reflexivity.
Defined.

(** C5 (as stated, refuted): the started-reading date is not read from the
    outer record.  With the outer record fixed, the normalised date follows
    the nested mapping. *)
Lemma started_reading_at_not_read_from_outer :
  ~ read_from_outer "started_reading_at".
Proof.
  intros H.
  specialize (H [ ("started_reading_at", VStr "2024-01-05") ]
                [ ("started_reading_at", VStr "2023-12-24") ]
                [ ("title", VStr "Dune") ]
                _ _ eq_refl eq_refl).
  discriminate H.
Qed.

(** The review fields are read from the outer record. *)
Lemma review_fields_read_from_outer (field : string) :
  In field review_fields -> read_from_outer field.
Proof.
  intros Hin rest nested nested' r r' H H'.
  rewrite (normalize_nested _ nested) in H by reflexivity.
  rewrite (normalize_nested _ nested') in H' by reflexivity.
  apply normalize_mapping_ok in H, H'.
  destruct H as (g & cp & tp & em & H).
  destruct H' as (g' & cp' & tp' & em' & H').
  decompose [and] H. decompose [and] H'. clear H H'.
  unfold review_fields in Hin. simpl in Hin.
  repeat (destruct Hin as [<- | Hin]);
    try match goal with
        | Hr : get r ?f = _, Hr' : get r' ?f = _ |- get r ?f = get r' ?f =>
            rewrite Hr, Hr'; reflexivity
        end.
  destruct Hin.
Qed.

(** The other two places where [normalize_book] raises: genres that cannot be
    iterated (line 64) and an [emoji] that is not a mapping (line 132). *)
Example normalize_book_raises_on_number_genres :
  normalize_book (VDict [("genres", VInt 5)]) = Raise TypeError.
Proof. reflexivity. Qed.

Example normalize_book_raises_on_text_emoji :
  normalize_book (VDict [("emoji", VStr "x")]) = Raise AttributeError.
Proof. reflexivity. Qed.

End NormalizerFacts.

(** ** The exporters *)

Module ExporterFacts.
Import Normalizer Exporters NormalizerFacts.

Lemma assoc_in_keys (k : string) (d : pydict) :
  In k (keys d) -> exists v, assoc k d = Some v.
Proof.
  induction d as [|[k' v] d IH]; simpl; [done|].
  intros [-> | Hin].
  - rewrite String.eqb_refl. eauto.
  - destruct (String.eqb k k'); eauto.
Qed.

(** A key that is present is read alike with and without a default. *)
Lemma get_default_present (k : string) (d : pydict) (dflt : pyval) :
  In k (keys d) -> get_default d k dflt = get d k.
Proof.
  intros Hin. destruct (assoc_in_keys k d Hin) as [v Hv].
  unfold get, get_default. by rewrite Hv.
Qed.

Lemma normalized_get_default (raw : pyval) (nb : pydict) (k : string)
    (dflt : pyval) :
  normalize_book raw = Ok (VDict nb) ->
  In k canonical_fields ->
  get_default nb k dflt = get nb k.
Proof.
  intros Hn Hk. apply get_default_present.
  destruct (normalize_book_keys _ _ Hn) as (kvs & [= <-] & ->). exact Hk.
Qed.

(** The normalised record has no ["created_at"]. *)
Lemma normalized_created_at (raw : pyval) (nb : pydict) :
  normalize_book raw = Ok (VDict nb) -> get nb "created_at" = VNone.
Proof.
  unfold normalize_book.
  destruct (negb (truthy raw) || negb (is_dict raw)); [by intros [= <-]|].
  destruct raw; try by intros [= <-].
  intros H. apply normalize_mapping_ok in H.
  destruct H as (? & ? & ? & ? & H).
  repeat match type of H with _ /\ _ => destruct H as [_ H] end.
  exact H.
Qed.

Section WithRuntime.
Variable py_repr : pyval -> string.
Variable iso_date : string -> option string.
Variable str_title : string -> string.
Variable float_of_str : string -> option spec_float.
Variable now : string.
Variable json_dumps : pyval -> string.
Variable csv_line : list string -> string.
Variable path_parent : string -> string.
Variable FS : Type.
Variable fs_mkdir : string -> FS -> result unit * FS.
Variable fs_open : string -> FS -> result unit * FS.
Variable fs_write : string -> string -> FS -> result unit * FS.

Set Default Proof Using "Type".

(** C6: with an empty list each of the three exporters raises
    [ValueError "No books to export"] and leaves the file system as it
    was: the directory is not made and no file is opened or written. *)
Theorem export_empty_raises (output_path : string) (fs : FS) :
  export_to_csv py_repr iso_date csv_line path_parent FS
                fs_mkdir fs_open fs_write [] output_path fs
    = (Raise (ValueError "No books to export"), fs) /\
  export_to_json iso_date float_of_str json_dumps path_parent FS
                 fs_mkdir fs_open fs_write [] output_path fs
    = (Raise (ValueError "No books to export"), fs) /\
  export_to_markdown py_repr iso_date str_title now path_parent FS
                     fs_mkdir fs_open fs_write [] output_path fs
    = (Raise (ValueError "No books to export"), fs).
Proof. repeat split. Qed.

(** With a list that is not empty the first thing an exporter does is to
    make the directory of the output path. *)
Lemma export_to_csv_makes_directory (book : pyval) (books : list pyval)
    (output_path : string) (fs fs' : FS) (e : exn) :
  fs_mkdir (path_parent output_path) fs = (Raise e, fs') ->
  export_to_csv py_repr iso_date csv_line path_parent FS
                fs_mkdir fs_open fs_write (book :: books) output_path fs
    = (Raise e, fs').
Proof.
  intros H. unfold export_to_csv, io_bind. simpl. by rewrite H.
Qed.

(** A book whose status is none of the three of [status_order], or that has
    no status, is in no section: alone in the list, it leaves the header. *)
Lemma markdown_other_status_dropped (raw : pyval) (nb : pydict) :
  raw <> VNone ->
  normalize_book raw = Ok (VDict nb) ->
  hashable (get nb "status") = true ->
  Forall (fun k => key_eq (VStr k) (get nb "status") = false) status_order ->
  markdown_lines py_repr iso_date str_title now [raw]
    = Ok (header_lines now [raw]).
Proof.
  intros Hraw Hn Hhash Hother.
  unfold markdown_lines, rbind.
  assert (Hgroups : exists g,
             group_by_status [raw] [] = Ok [(get nb "status", g)]).
  { unfold group_by_status, rbind. rewrite Hn.
    rewrite (normalized_get_default raw nb "status" _ Hn)
      by (unfold canonical_fields; repeat (first [by left | right])).
    rewrite Hhash. simpl.
    destruct raw; try congruence;
      destruct (key_eq (get nb "status") (get nb "status")); eauto. }
  destruct Hgroups as [g ->].
  unfold status_order in *.
  inversion Hother as [|? ? H1 Hother1]; subst.
  inversion Hother1 as [|? ? H2 Hother2]; subst.
  inversion Hother2 as [|? ? H3 _]; subst.
  simpl. unfold render_section, group_lookup. rewrite H1, H2, H3. simpl.
  reflexivity.
Qed.

(** C4 (the defect): a book whose status is none of [finished], [reading]
    and [unread] is in no section of the narrative export; the lines are
    those of the header alone, which counts the book. *)
Theorem markdown_drops_other_status :
  markdown_lines py_repr iso_date str_title now [abandoned_book]
    = Ok [ "# My Fable Book Library" +:+ nl;
           "Exported on: " +:+ now +:+ nl;
           "Total books: 1" +:+ nl;
           nl +:+ "---" +:+ nl ].
Proof. reflexivity. Qed.


(** *** The row of the tabular export *)

(** The row of a book, with the results of the steps that may raise
    named. *)
Lemma csv_row_ok (raw : pyval) (nb row : pydict) :
  normalize_book raw = Ok (VDict nb) ->
  csv_row iso_date raw = Ok row ->
  exists isbn authors_s genres moods content_warnings attributes,
    extract_isbn (get nb "isbn") = Ok isbn /\
    format_authors_list (get nb "authors") = Ok authors_s /\
    py_join "; " (get nb "genres") = Ok genres /\
    py_join "; " (get nb "moods") = Ok moods /\
    py_join "; " (get nb "content_warnings") = Ok content_warnings /\
    py_join "; " (get nb "attributes") = Ok attributes /\
    row =
      [ ("Title", get nb "title");
        ("Subtitle", get nb "subtitle");
        ("Author(s)", VStr authors_s);
        ("ISBN-10", VStr (fst isbn));
        ("ISBN-13", VStr (snd isbn));
        ("Publisher", get nb "imprint");
        ("Pages", get nb "page_count");
        ("Published Date", VStr (format_date iso_date (get nb "published_date")));
        ("Genres", VStr genres);
        ("Moods", VStr moods);
        ("Content Warnings", VStr content_warnings);
        ("Status", get nb "status");
        ("Rating", get nb "rating");
        ("Characters Rating", get nb "characters_rating");
        ("Plot Rating", get nb "plot_rating");
        ("Writing Style Rating", get nb "writing_style_rating");
        ("Setting Rating", get nb "setting_rating");
        ("Review", get nb "review");
        ("Review Summary - Liked", get nb "review_summary_liked");
        ("Review Summary - Disliked", get nb "review_summary_disliked");
        ("Review Summary - Disagreed", get nb "review_summary_disagreed");
        ("Attributes/Tags", VStr attributes);
        ("Emoji Reaction", get nb "emoji_reaction");
        ("Contains Spoilers", yes_no (get nb "contains_spoilers"));
        ("Did Not Finish", yes_no (get nb "did_not_finish"));
        ("Started Reading",
          VStr (format_date iso_date (get nb "started_reading_at")));
        ("Finished Reading",
          VStr (format_date iso_date (get nb "finished_reading_at")));
        ("Date Added", VStr (date_added iso_date nb)) ].
Proof.
  intros Hn. unfold csv_row, rbind. rewrite Hn.
  rewrite !(normalized_get_default raw nb _ _ Hn)
    by (unfold canonical_fields; repeat (first [by left | right])).
  destruct (extract_isbn _) as [isbn|]; [|discriminate].
  destruct (format_authors_list _) as [authors_s|]; [|discriminate].
  destruct (py_join "; " (get nb "genres")) as [genres|]; [|discriminate].
  destruct (py_join "; " (get nb "moods")) as [moods|]; [|discriminate].
  destruct (py_join "; " (get nb "content_warnings")) as [cw|];
    [|discriminate].
  destruct (py_join "; " (get nb "attributes")) as [attributes|];
    [|discriminate].
  intros [= <-]. exists isbn, authors_s, genres, moods, cw, attributes.
  repeat split; reflexivity.
Qed.

Lemma format_date_falsy (v : pyval) :
  truthy v = false -> format_date iso_date v = "".
Proof. unfold format_date. by intros ->. Qed.

Lemma extract_isbn_falsy (v : pyval) :
  truthy v = false -> extract_isbn v = Ok ("", "").
Proof. unfold extract_isbn. by intros ->. Qed.

Lemma csv_cell_absent (v : pyval) :
  v = VNone \/ v = VStr "" -> csv_cell py_repr v = "".
Proof. by intros [-> | ->]. Qed.

Lemma absent_falsy (v : pyval) : v = VNone \/ v = VStr "" -> truthy v = false.
Proof. by intros [-> | ->]. Qed.

Lemma strs_of_strs (items : list string) :
  strs_of (map VStr items) = Some items.
Proof. induction items as [|s items IH]; simpl; [done|]. by rewrite IH. Qed.

Lemma py_join_strs (sep : string) (items : list string) :
  py_join sep (VList (map VStr items)) = Ok (String.concat sep items).
Proof. unfold py_join. simpl. by rewrite strs_of_strs. Qed.

Lemma author_name_named (name : string) (author : pyval) :
  named name author -> author_name author = VStr name.
Proof.
  intros [_ [-> | (d & -> & Hd)]]; [done|].
  unfold author_name. unfold get, get_default in *.
  by destruct (assoc "name" d).
Qed.

Lemma named_authors_kept (names : list string) (authors : list pyval) :
  Forall2 named names authors ->
  List.filter truthy (map author_name authors) = map VStr names.
Proof.
  induction 1 as [|name author names authors Hn _ IH]; [done|].
  cbn [map List.filter]. rewrite (author_name_named _ _ Hn), IH.
  destruct Hn as [Hne _]. cbn [truthy].
  by destruct (String.eqb_spec name "").
Qed.

(** The names of the authors with [", "] between them. *)
Lemma format_authors_list_named (names : list string) (authors : list pyval) :
  Forall2 named names authors ->
  format_authors_list (VList authors) = Ok (String.concat ", " names).
Proof.
  intros Hn. unfold format_authors_list.
  destruct Hn as [|name author names authors Hn Hns]; [done|].
  cbn [truthy is_list negb orb].
  rewrite (named_authors_kept (name :: names) (author :: authors))
    by by constructor.
  apply py_join_strs.
Qed.

(** C7 (as amended): in the row of a book, a boolean column reads [Yes]
    when the field is true and [No] otherwise, also when the field has no
    value; genres, moods, content warnings and attributes are joined with
    ["; "], the authors with [", "]: a list of strings gives the strings with
    ["; "] between them, and authors given as names or as mappings with a
    name give the names with [", "] between them; in every other column a
    field without a value ([None] or the empty string) gives an empty cell,
    and so does an empty list in a list column. *)
Theorem csv_row_rendering (raw : pyval) (nb row : pydict) :
  normalize_book raw = Ok (VDict nb) ->
  csv_row iso_date raw = Ok row ->
  (* booleans *)
  (forall col field, In (col, field) boolean_columns ->
     csv_rendered py_repr row col
     = if truthy (get nb field) then "Yes" else "No") /\
  (* lists *)
  py_join "; " (get nb "genres") = Ok (csv_rendered py_repr row "Genres") /\
  py_join "; " (get nb "moods") = Ok (csv_rendered py_repr row "Moods") /\
  py_join "; " (get nb "content_warnings")
    = Ok (csv_rendered py_repr row "Content Warnings") /\
  py_join "; " (get nb "attributes")
    = Ok (csv_rendered py_repr row "Attributes/Tags") /\
  format_authors_list (get nb "authors")
    = Ok (csv_rendered py_repr row "Author(s)") /\
  (forall col field items, In (col, field) list_columns ->
     col <> "Author(s)" ->
     get nb field = VList (map VStr items) ->
     csv_rendered py_repr row col = String.concat "; " items) /\
  (forall names authors, Forall2 named names authors ->
     get nb "authors" = VList authors ->
     csv_rendered py_repr row "Author(s)" = String.concat ", " names) /\
  (* fields without a value *)
  (forall col field, In (col, field) scalar_columns ->
     get nb field = VNone \/ get nb field = VStr "" ->
     csv_rendered py_repr row col = "") /\
  (forall col field, In (col, field) list_columns ->
     get nb field = VList [] ->
     csv_rendered py_repr row col = "") /\
  (truthy (get nb "review_created_at") = false ->
   truthy (get nb "added_at") = false ->
   csv_rendered py_repr row "Date Added" = "").
Proof.
  intros Hn Hrow.
  destruct (csv_row_ok raw nb row Hn Hrow)
    as (isbn & authors_s & genres & moods & cw & attributes
        & Hisbn & Hauthors & Hgenres & Hmoods & Hcw & Hattributes & ->).
  split.
  { intros col field Hin. simpl in Hin.
    destruct Hin as [[= <- <-] | [[= <- <-] | []]];
      unfold csv_rendered, yes_no; simpl;
      match goal with |- context [truthy ?v] => by destruct (truthy v) end. }
  do 5 (split; [assumption|]).
  split.
  { intros col field items Hin Hcol Hitems. simpl in Hin.
    repeat (destruct Hin as [[= <- <-] | Hin]); try (by destruct Hin);
      try (by destruct Hcol);
      unfold csv_rendered; simpl;
      first [ rewrite Hitems, py_join_strs in Hgenres; injection Hgenres as <-
            | rewrite Hitems, py_join_strs in Hmoods; injection Hmoods as <-
            | rewrite Hitems, py_join_strs in Hcw; injection Hcw as <-
            | rewrite Hitems, py_join_strs in Hattributes;
              injection Hattributes as <- ];
      reflexivity. }
  split.
  { intros names authors Hnamed Hget.
    rewrite Hget, (format_authors_list_named _ _ Hnamed) in Hauthors.
    injection Hauthors as <-. reflexivity. }
  split.
  { intros col field Hin Habsent.
    pose proof (absent_falsy _ Habsent) as Hfalsy.
    simpl in Hin.
    repeat (destruct Hin as [[= <- <-] | Hin]);
      try (unfold csv_rendered; simpl; by apply csv_cell_absent);
      try (unfold csv_rendered; simpl; by rewrite format_date_falsy);
      try (rewrite extract_isbn_falsy in Hisbn by done;
           injection Hisbn as <-; reflexivity). }
  split.
  { intros col field Hin Hempty. simpl in Hin.
    repeat (destruct Hin as [[= <- <-] | Hin]); try (by destruct Hin);
      unfold csv_rendered; simpl;
      first [ rewrite Hempty in Hauthors; injection Hauthors as <-
            | rewrite Hempty in Hgenres; cbv in Hgenres;
              injection Hgenres as <-
            | rewrite Hempty in Hmoods; cbv in Hmoods;
              injection Hmoods as <-
            | rewrite Hempty in Hcw; cbv in Hcw; injection Hcw as <-
            | rewrite Hempty in Hattributes; cbv in Hattributes;
              injection Hattributes as <- ];
      reflexivity. }
  intros Hr Ha. unfold csv_rendered. simpl. unfold date_added, py_or.
  rewrite Hr, Ha, (normalized_created_at raw nb Hn). reflexivity.
Qed.


(** *** The object of the structured export *)

Lemma clean_book_ok (raw : pyval) (nb cb : pydict) :
  normalize_book raw = Ok (VDict nb) ->
  clean_book iso_date float_of_str raw = Ok (VDict cb) ->
  exists rating characters plot writing_style setting,
    float_or_null float_of_str (get nb "rating") = Ok rating /\
    float_or_null float_of_str (get nb "characters_rating") = Ok characters /\
    float_or_null float_of_str (get nb "plot_rating") = Ok plot /\
    float_or_null float_of_str (get nb "writing_style_rating")
      = Ok writing_style /\
    float_or_null float_of_str (get nb "setting_rating") = Ok setting /\
    get cb "rating" = rating /\
    get cb "detailed_ratings"
      = VDict [ ("characters", characters);
                ("plot", plot);
                ("writing_style", writing_style);
                ("setting", setting) ].
Proof.
  intros Hn. unfold clean_book, rbind. rewrite Hn.
  destruct (extract_isbn _) as [isbn|]; [|discriminate].
  destruct (format_authors_list _) as [authors_s|]; [|discriminate].
  destruct (float_or_null _ (get nb "rating")) as [rating|]; [|discriminate].
  destruct (float_or_null _ (get nb "characters_rating")) as [characters|];
    [|discriminate].
  destruct (float_or_null _ (get nb "plot_rating")) as [plot|];
    [|discriminate].
  destruct (float_or_null _ (get nb "writing_style_rating"))
    as [writing_style|]; [|discriminate].
  destruct (float_or_null _ (get nb "setting_rating")) as [setting|];
    [|discriminate].
  intros [= <-]. exists rating, characters, plot, writing_style, setting.
  repeat split; reflexivity.
Qed.

Lemma float_or_null_spec (v out : pyval) :
  float_or_null float_of_str v = Ok out -> null_or_float float_of_str v out.
Proof.
  unfold float_or_null, null_or_float. destruct (truthy v).
  - destruct (py_float float_of_str v) as [f|]; [|discriminate].
    intros [= <-]. eauto.
  - by intros [= <-].
Qed.

(** C10: in the object of a book, the rating and each of the four detailed
    ratings is a float when the normalised value is true and [null] when it
    is not; a rating of [0] gives [null], not [0.0]. *)
Theorem json_ratings_null_or_float (raw : pyval) (nb cb : pydict) :
  normalize_book raw = Ok (VDict nb) ->
  clean_book iso_date float_of_str raw = Ok (VDict cb) ->
  null_or_float float_of_str (get nb "rating") (get cb "rating") /\
  (exists detailed,
     get cb "detailed_ratings" = VDict detailed /\
     null_or_float float_of_str (get nb "characters_rating")
                   (get detailed "characters") /\
     null_or_float float_of_str (get nb "plot_rating") (get detailed "plot") /\
     null_or_float float_of_str (get nb "writing_style_rating")
                   (get detailed "writing_style") /\
     null_or_float float_of_str (get nb "setting_rating")
                   (get detailed "setting")) /\
  (get nb "rating" = VInt 0 -> get cb "rating" = VNone).
Proof.
  intros Hn Hcb.
  destruct (clean_book_ok raw nb cb Hn Hcb)
    as (rating & characters & plot & writing_style & setting
        & Hr & Hc & Hp & Hw & Hs & Hrating & Hdetailed).
  apply float_or_null_spec in Hr, Hc, Hp, Hw, Hs.
  split; [by rewrite Hrating|].
  split.
  { eexists. split; [exact Hdetailed|]. repeat split; assumption. }
  intros Hzero. rewrite Hrating. rewrite Hzero in Hr. exact Hr.
Qed.

End WithRuntime.

(** The properties above hold whatever the runtime does; the examples run
    with the stand-ins [sample_repr], [sample_iso_date] and
    [sample_float_of_str]. *)

Lemma csv_row_rendering_witness :
  normalize_book authored_book = Ok (VDict authored_book_normalized) /\
  csv_row sample_iso_date authored_book = Ok authored_book_row /\
  csv_rendered sample_repr authored_book_row "Contains Spoilers" = "Yes" /\
  csv_rendered sample_repr authored_book_row "Did Not Finish" = "No" /\
  csv_rendered sample_repr authored_book_row "Genres" = "Fantasy; Humour" /\
  csv_rendered sample_repr authored_book_row "Author(s)"
  = "Terry Pratchett, Neil Gaiman" /\
  csv_rendered sample_repr authored_book_row "Publisher" = "".
Proof.
  assert (Hn : normalize_book authored_book
               = Ok (VDict authored_book_normalized))
    by (vm_compute; reflexivity).
  assert (Hrow : csv_row sample_iso_date authored_book = Ok authored_book_row)
    by (vm_compute; reflexivity).
  pose proof (csv_row_rendering sample_repr sample_iso_date authored_book
                authored_book_normalized authored_book_row Hn Hrow)
    as (Hbool & _ & _ & _ & _ & _ & Hjoined & Hauthors & Hscalar & _).
  split; [exact Hn|]. split; [exact Hrow|].
  split; [exact (Hbool "Contains Spoilers" "contains_spoilers"
                       (or_introl eq_refl))|].
  split; [exact (Hbool "Did Not Finish" "did_not_finish"
                       (or_intror (or_introl eq_refl)))|].
  split.
  { apply (Hjoined "Genres" "genres" [ "Fantasy"; "Humour" ]);
      [simpl; tauto|discriminate|reflexivity]. }
  split.
  { apply (Hauthors [ "Terry Pratchett"; "Neil Gaiman" ]
                    [ VStr "Terry Pratchett";
                      VDict [ ("name", VStr "Neil Gaiman") ] ]);
      [|reflexivity].
    constructor; [split; [discriminate|by left]|].
    constructor; [|constructor].
    split; [discriminate|]. right. by eexists. }
  apply (Hscalar "Publisher" "imprint"); [simpl; tauto|by left].
Defined.

(** C7 (as stated, refuted): a book without [contains_spoilers] has [No] in
    the column, not an empty cell; and the authors of a book of two are
    joined with [", "], not with ["; "]. *)
Lemma csv_row_not_as_stated :
  ~ missing_renders_empty /\ ~ lists_joined_with_semicolon.
Proof.
  split.
  - intros H.
    specialize (H sample_repr sample_iso_date
                  (VDict [ ("title", VStr "Dune") ]) _ _
                  "Contains Spoilers" "contains_spoilers" eq_refl eq_refl).
    assert (Hcell : "No" = "").
    { apply H; [simpl; tauto|reflexivity]. }
    discriminate Hcell.
  - intros H.
    specialize (H sample_repr sample_iso_date two_author_book _ _
                  "Author(s)" "authors"
                  [ "Terry Pratchett"; "Neil Gaiman" ] eq_refl eq_refl).
    assert (Hcell : "Terry Pratchett, Neil Gaiman"
                    = "Terry Pratchett; Neil Gaiman").
    { apply H; [simpl; tauto|reflexivity]. }
    discriminate Hcell.
Qed.

Lemma json_ratings_null_or_float_witness :
  normalize_book rated_book = Ok (VDict rated_book_normalized) /\
  clean_book sample_iso_date sample_float_of_str rated_book
    = Ok (VDict rated_book_clean) /\
  null_or_float sample_float_of_str (VInt 4) (get rated_book_clean "rating") /\
  get rated_book_clean "rating"
    = VFloat (S754_finite false 4503599627370496 (-50)) /\
  (exists detailed,
     get rated_book_clean "detailed_ratings" = VDict detailed /\
     get detailed "plot" = VNone).
Proof.
  assert (Hn : normalize_book rated_book = Ok (VDict rated_book_normalized))
    by (vm_compute; reflexivity).
  assert (Hcb : clean_book sample_iso_date sample_float_of_str rated_book
                = Ok (VDict rated_book_clean))
    by (vm_compute; reflexivity).
  pose proof (json_ratings_null_or_float sample_iso_date sample_float_of_str
                rated_book rated_book_normalized rated_book_clean Hn Hcb)
    as (Hrating & (detailed & Hdetailed & _ & Hplot & _) & _).
  split; [exact Hn|]. split; [exact Hcb|].
  split; [exact Hrating|].
  split; [reflexivity|].
  exists detailed. split; [exact Hdetailed|exact Hplot].
Defined.

(** A rating of [0] is written as [null]. *)
Example json_rating_zero :
  exists cb,
    clean_book sample_iso_date sample_float_of_str unrated_book = Ok (VDict cb) /\
    get cb "rating" = VNone.
Proof. eexists. split; reflexivity. Qed.

End ExporterFacts.

(** ** The review merger *)

Module MergerFacts.
Import Merger.
Local Open Scope nat_scope.
Local Open Scope list_scope.
Local Open Scope store_scope.

(** *** The store *)

Lemma load_app_l (h ext : store) (l : loc) :
  l < length h -> load (h ++ ext) l = load h l.
Proof. intros Hl. unfold load. by rewrite lookup_app_l. Qed.

Lemma load_middle (h ext : store) (o : obj) :
  load (h ++ o :: ext) (length h) = o.
Proof. unfold load. by rewrite list_lookup_middle. Qed.

Lemma insert_middle (h ext : store) (o o' : obj) :
  <[length h := o']> (h ++ o :: ext) = h ++ o' :: ext.
Proof.
  rewrite insert_app_r_alt by lia. by rewrite Nat.sub_diag.
Qed.

Lemma load_in_range (h : store) (l : loc) (o : obj) :
  load h l = o -> o <> ONone -> l < length h.
Proof.
  unfold load. intros H Hne. destruct (h !! l) eqn:E.
  - by eapply lookup_lt_Some.
  - simpl in H. congruence.
Qed.

Lemma closed_refs (h : store) (l l' : loc) :
  closed h -> l' ∈ refs (load h l) -> l' < length h.
Proof.
  unfold closed, load. intros Hc Hin.
  destruct (h !! l) as [o|] eqn:E; simpl in Hin.
  - rewrite Forall_forall in Hc.
    assert (Ho : o ∈ h) by (eapply list_elem_of_lookup_2; eassumption).
    specialize (Hc o Ho). rewrite Forall_forall in Hc. by apply Hc.
  - by apply not_elem_of_nil in Hin.
Qed.

Lemma lookup_entry_ref (k : string) (d : entries) (l : loc) :
  lookup_entry k d = Some l -> l ∈ map snd d.
Proof.
  induction d as [|[k' l'] d IH]; simpl; [discriminate|].
  destruct (String.eqb k k').
  - intros [= ->]. apply list_elem_of_here.
  - intros H. apply list_elem_of_further. by apply IH.
Qed.

Lemma closed_entry (h : store) (l l' : loc) (k : string) (d : entries) :
  closed h -> load h l = ODict d -> lookup_entry k d = Some l' ->
  l' < length h.
Proof.
  intros Hc Hl Hk. apply (closed_refs h l); [done|].
  rewrite Hl. simpl. by eapply lookup_entry_ref.
Qed.

Lemma closed_item (h : store) (l book : loc) (items : list loc) :
  closed h -> load h l = OList items -> book ∈ items -> book < length h.
Proof.
  intros Hc Hl Hin. apply (closed_refs h l); [done|]. by rewrite Hl.
Qed.

Local Arguments lookup_entry : simpl never.
Local Arguments update_entries : simpl never.

Lemma load_last (h ext : store) (o x : obj) :
  load (h ++ o :: (ext ++ [x])) (length h + S (length ext)) = x.
Proof.
  replace (h ++ o :: (ext ++ [x])) with ((h ++ o :: ext) ++ x :: [])
    by (by rewrite <- app_assoc).
  replace (length h + S (length ext)) with (length (h ++ o :: ext))
    by (rewrite length_app; simpl; lia).
  apply load_middle.
Qed.

Lemma insert_last (h ext : store) (o x x' : obj) :
  <[length h + S (length ext) := x']> (h ++ o :: (ext ++ [x]))
  = h ++ o :: (ext ++ [x']).
Proof.
  replace (h ++ o :: (ext ++ [x])) with ((h ++ o :: ext) ++ x :: [])
    by (by rewrite <- app_assoc).
  replace (length h + S (length ext)) with (length (h ++ o :: ext))
    by (rewrite length_app; simpl; lia).
  rewrite insert_middle. by rewrite <- app_assoc.
Qed.

Ltac finish_step :=
  rewrite ?load_middle, ?insert_middle;
  eexists _, _; split; [reflexivity | done].

Section Step.
Variables (h : store) (reviews : loc).
Hypothesis Hclosed : closed h.
Hypothesis Hreviews : reviews < length h.

Lemma book_data_loc_dict (book : loc) (book_d : entries) :
  book < length h -> load h book = ODict book_d ->
  book_data_loc h book book_d < length h /\
  exists d, load h (book_data_loc h book book_d) = ODict d.
Proof.
  intros Hlt Hb. unfold book_data_loc.
  destruct (lookup_entry "book" book_d) as [l|] eqn:El; [|eauto].
  destruct (load h l) eqn:Eo; simpl; eauto.
  split; [|eauto]. exact (closed_entry h book l "book" book_d Hclosed Hb El).
Qed.

Lemma merge_step_spec (book : loc) (out : list loc) (ext : store) :
  book < length h ->
  exists out' ext',
    merge_step book (length h) reviews (h ++ OList out :: ext)
      = (Ok tt, h ++ OList (out ++ out') :: (ext ++ ext')) /\
    match expected h reviews book with
    | Skipped => out' = []
    | Original => out' = [book]
    | Copied d => out' = [length h + S (length ext)] /\ ext' = [ODict d]
    end.
Proof.
  intros Hlt. unfold merge_step, bind, deref, expected.
  rewrite load_app_l by done.
  destruct (load h book) as [| | | | | |book_d] eqn:Hb; simpl;
    try (exists [], []; rewrite !app_nil_r; done).
  destruct (book_data_loc_dict book book_d Hlt Hb) as [Hbd [d Hd]].
  unfold try_except, merge_one, bind, entries_of, ret, deref.
  rewrite load_app_l by done. rewrite Hb.
  assert (Hnested :
    match lookup_entry "book" book_d with
    | Some l => if is_dict_at (h ++ OList out :: ext) (lookup_entry "book" book_d) then l else book
    | None => book
    end = book_data_loc h book book_d).
  { unfold book_data_loc, is_dict_at.
    destruct (lookup_entry "book" book_d) as [l|] eqn:El; [|done].
    rewrite load_app_l; [done|].
    exact (closed_entry h book l "book" book_d Hclosed Hb El). }
  rewrite Hnested. clear Hnested.
  rewrite load_app_l by done. rewrite Hd.
  destruct d as [|kv d']; simpl.
  { (* the book data is empty: the book itself is appended *)
    unfold list_append. rewrite load_middle, insert_middle.
    exists [book], []. by rewrite app_nil_r. }
  rewrite load_app_l by done. rewrite Hd.
  unfold alloc, truthy_at, contains, getitem, dict_update, list_append.
  replace ((h ++ OList out :: ext) ++ [ODict book_d])
    with (h ++ OList out :: (ext ++ [ODict book_d]))
    by (by rewrite <- app_assoc).
  replace (length (h ++ OList out :: ext)) with (length h + S (length ext))
    by (rewrite length_app; simpl; lia).
  destruct (lookup_entry "id" (kv :: d')) as [id|] eqn:Eid.
  2:{ rewrite load_middle, insert_middle.
      exists [length h + S (length ext)], [ODict book_d]. done. }
  assert (Hid : id < length h)
    by exact (closed_entry h _ id "id" _ Hclosed Hd Eid).
  unfold overlay.
  rewrite !(load_app_l h _ id) by done.
  rewrite ?(load_app_l h _ reviews) by done.
  destruct (truthy_obj (load h id)) eqn:Et; simpl; [|finish_step].
  rewrite ?(load_app_l h _ reviews), ?(load_app_l h _ id) by done.
  destruct (load h reviews) as [| | | | | |r] eqn:Er; simpl; try finish_step.
  destruct (load h id) as [| | | |s| |] eqn:Ei; simpl; try finish_step.
  destruct (lookup_entry s r) as [review_data|] eqn:Erd; simpl;
    [|finish_step].
  assert (Hrd : review_data < length h)
    by exact (closed_entry h _ _ s _ Hclosed Er Erd).
  rewrite ?(load_app_l h _ reviews), ?(load_app_l h _ id) by done.
  rewrite Er, Ei, Erd.
  rewrite ?(load_app_l h _ review_data) by done.
  destruct (load h review_data) as [| | | | | |[|kv2 new]] eqn:Eo; simpl;
    rewrite ?andb_false_r; simpl; try finish_step.
  rewrite ?(load_app_l h _ review_data), ?Eo by done.
  rewrite load_last, insert_last. finish_step.
Qed.
Lemma expected_skipped (book : loc) :
  expected h reviews book = Skipped <-> is_dict_obj (load h book) = false.
Proof.
  unfold expected. destruct (load h book) as [| | | | | |book_d]; simpl;
    try (split; reflexivity).
  split; [|discriminate].
  destruct (load h (book_data_loc h book book_d)) as [| | | | | |[|kv d]];
    try discriminate.
  destruct (lookup_entry "id" (kv :: d)); [|discriminate].
  destruct (overlay h reviews book_d n); discriminate.
Qed.

Lemma load_ext (out : list loc) (ext exts : store) (x : obj) :
  load (h ++ OList out :: (ext ++ x :: exts)) (length h + S (length ext)) = x.
Proof.
  replace (h ++ OList out :: (ext ++ x :: exts))
    with ((h ++ OList out :: ext) ++ x :: exts)
    by (by rewrite <- app_assoc).
  replace (length h + S (length ext)) with (length (h ++ OList out :: ext))
    by (rewrite length_app; simpl; lia).
  apply load_middle.
Qed.

Variables (books : loc) (items : list loc).
Hypothesis Hbooks : load h books = OList items.

Lemma iterate_spec (rest : list loc) :
  forall (done out : list loc) (ext : store) (fuel : nat),
    items = done ++ rest ->
    length rest < fuel ->
    exists outs exts,
      iterate fuel (length done) books (length h) reviews
              (h ++ OList out :: ext)
        = Some (Ok tt, h ++ OList (out ++ outs) :: (ext ++ exts)) /\
      Forall2 (result_of h (h ++ OList (out ++ outs) :: (ext ++ exts)) reviews)
              (mappings h rest) outs.
Proof.
  assert (Hin : books < length h)
    by (eapply load_in_range; [exact Hbooks|discriminate]).
  induction rest as [|book rest IH]; intros done out ext fuel Hitems Hfuel.
  - destruct fuel as [|fuel]; [simpl in Hfuel; lia|]. simpl.
    rewrite load_app_l by done. rewrite Hbooks.
    rewrite (lookup_ge_None_2 items)
      by (rewrite Hitems, length_app; simpl; lia).
    exists [], []. rewrite !app_nil_r. split; [done|constructor].
  - destruct fuel as [|fuel]; [simpl in Hfuel; lia|]. simpl.
    rewrite load_app_l by done. rewrite Hbooks.
    assert (Hbook : items !! length done = Some book)
      by (rewrite Hitems; apply list_lookup_middle; done).
    rewrite Hbook.
    assert (Hlt : book < length h).
    { eapply closed_item; [done|exact Hbooks|].
      eapply list_elem_of_lookup_2; exact Hbook. }
    destruct (merge_step_spec book out ext Hlt)
      as (out1 & ext1 & Hstep & Hexp).
    rewrite Hstep.
    destruct (IH (done ++ [book]) (out ++ out1) (ext ++ ext1) fuel)
      as (outs & exts & Hrun & Hres).
    { by rewrite <- app_assoc. }
    { simpl in Hfuel. lia. }
    replace (length (done ++ [book])) with (S (length done)) in Hrun
      by (rewrite length_app; simpl; lia).
    exists (out1 ++ outs), (ext1 ++ exts).
    rewrite !app_assoc. split; [exact Hrun|].
    unfold mappings. simpl.
    destruct (expected h reviews book) as [| |d] eqn:Eexp.
    + subst out1. apply expected_skipped in Eexp. rewrite Eexp. exact Hres.
    + subst out1.
      destruct (is_dict_obj (load h book)) eqn:Edict;
        [|apply expected_skipped in Edict; congruence].
      simpl. constructor; [|exact Hres].
      unfold result_of. by rewrite Eexp.
    + destruct Hexp as [-> ->].
      destruct (is_dict_obj (load h book)) eqn:Edict;
        [|apply expected_skipped in Edict; congruence].
      simpl. constructor; [|exact Hres].
      unfold result_of. rewrite Eexp. split.
      * rewrite !length_app. simpl. rewrite !length_app. simpl. lia.
      * rewrite <- (app_assoc ext). simpl. apply load_ext.
Qed.

(** The merger computes, in new objects, what the outcomes of its items
    ask for. *)
Lemma merge_correct (fuel : nat) :
  length items < fuel ->
  exists out ext,
    merge_reviews_with_books fuel books reviews h
      = Some (Ok (length h), h ++ OList out :: ext) /\
    Forall2 (result_of h (h ++ OList out :: ext) reviews)
            (mappings h items) out.
Proof.
  intros Hfuel. unfold merge_reviews_with_books, alloc. rewrite Hbooks.
  destruct (iterate_spec items [] [] [] fuel eq_refl Hfuel)
    as (out & ext & Hrun & Hres).
  simpl in Hrun. rewrite Hrun. exists out, ext. split; [done|exact Hres].
Qed.

End Step.

(** *** Consequences of [merge_correct] *)

Lemma filter_all {A : Type} (f : A -> bool) (l : list A) :
  Forall (fun x => f x = true) l -> List.filter f l = l.
Proof.
  induction 1 as [|x l Hx _ IH]; simpl; [done|]. by rewrite Hx, IH.
Qed.

Lemma mappings_in_range (h : store) (books : loc) (items : list loc) :
  closed h -> load h books = OList items ->
  Forall (fun book => book < length h /\ is_dict_obj (load h book) = true)
         (mappings h items).
Proof.
  intros Hc Hb. apply Forall_forall. intros book Hin.
  apply list_elem_of_In, filter_In in Hin. destruct Hin as [Hin Hd].
  split; [|done]. eapply closed_item; [done|exact Hb|]. by apply list_elem_of_In.
Qed.

Lemma Forall2_impl_l {A B : Type} (P : A -> Prop) (R S : A -> B -> Prop)
    (xs : list A) (ys : list B) :
  Forall P xs -> Forall2 R xs ys ->
  (forall x y, P x -> R x y -> S x y) ->
  Forall2 S xs ys.
Proof.
  intros HP HR Himp. induction HR as [|x y xs ys Hxy _ IH]; [constructor|].
  inversion HP; subst. constructor; auto.
Qed.

(** A copy asked for by [expected] has the entries of the book, with the
    entries of its review over them. *)
Lemma expected_copied (h : store) (reviews book : loc) (d : entries) :
  expected h reviews book = Copied d ->
  exists book_d new,
    load h book = ODict book_d /\ d = update_entries book_d new /\
    (new = [] \/ reviewed h reviews book book_d new).
Proof.
  unfold expected, reviewed.
  destruct (load h book) as [| | | | | |book_d]; try discriminate.
  destruct (load h (book_data_loc h book book_d)) as [| | | | | |[|kv bd]]
    eqn:Ebd; try discriminate.
  destruct (lookup_entry "id" (kv :: bd)) as [id|] eqn:Eid.
  2:{ intros [= <-]. exists book_d, []. eauto. }
  unfold overlay.
  destruct (truthy_obj (load h id)).
  2:{ intros [= <-]. exists book_d, []. eauto. }
  destruct (load h reviews) as [| | | | | |r] eqn:Er; try discriminate.
  destruct (load h id) as [| | | |s| |] eqn:Es; try discriminate;
    try (intros [= <-]; exists book_d, []; by eauto).
  destruct (lookup_entry s r) as [review_data|] eqn:Erd.
  2:{ intros [= <-]. exists book_d, []. eauto. }
  destruct (load h review_data) as [| | | | | |[|kv2 new]] eqn:Eo;
    try (intros [= <-]; exists book_d, []; by eauto).
  intros [= <-]. exists book_d, (kv2 :: new). split; [done|]. split; [done|].
  right. exists (kv :: bd), id, s, r, review_data. done.
Qed.

(** With an empty lookup a copy has exactly the entries of the book. *)
Lemma expected_copied_no_reviews (h : store) (reviews book : loc) (d : entries) :
  load h reviews = ODict [] ->
  expected h reviews book = Copied d ->
  load h book = ODict d.
Proof.
  intros Hr. unfold expected.
  destruct (load h book) as [| | | | | |book_d]; try discriminate.
  destruct (load h (book_data_loc h book book_d)) as [| | | | | |[|kv bd]];
    try discriminate.
  destruct (lookup_entry "id" (kv :: bd)) as [id|]; [|by intros [= <-]].
  unfold overlay. rewrite Hr.
  destruct (truthy_obj (load h id)); [|by intros [= <-]].
  destruct (load h id); try discriminate; by intros [= <-].
Qed.

(** A book that is not nested and whose identifier is a list that is not
    empty: the lookup raises, the book itself is the result. *)
Lemma expected_unhashable_id (h : store) (reviews book id x : loc)
    (book_d : entries) (xs : list loc) :
  load h book = ODict book_d ->
  lookup_entry "book" book_d = None ->
  lookup_entry "id" book_d = Some id ->
  load h id = OList (x :: xs) ->
  expected h reviews book = Original.
Proof.
  intros Hb Hn Hid Hl. unfold expected, book_data_loc.
  rewrite Hb, Hn, Hb.
  destruct book_d as [|kv book_d]; [done|].
  rewrite Hid. unfold overlay. rewrite Hl. simpl.
  by destruct (load h reviews).
Qed.

Lemma sample_store_closed : closed sample_store.
Proof. unfold closed, sample_store. repeat constructor. Qed.

Lemma sample_store_no_reviews_closed : closed sample_store_no_reviews.
Proof. unfold closed, sample_store_no_reviews. repeat constructor. Qed.

(** C2: the merger returns a new list with one record for each item that is
    a mapping; when every item is one, the list is as long as the input. *)
Theorem merge_length (h : store) (books reviews : loc)
    (r : entries) (items : list loc) (fuel : nat) :
  closed h ->
  load h reviews = ODict r ->
  load h books = OList items ->
  length items < fuel ->
  exists merged_books h' out,
    merge_reviews_with_books fuel books reviews h = Some (Ok merged_books, h') /\
    load h' merged_books = OList out /\
    length out = length (mappings h items) /\
    (Forall (fun book => is_dict_obj (load h book) = true) items ->
     length out = length items).
Proof.
  intros Hc Hrd Hb Hf.
  assert (Hr : reviews < length h)
    by (eapply load_in_range; [exact Hrd|discriminate]).
  destruct (merge_correct h reviews Hc Hr books items Hb fuel Hf)
    as (out & ext & Hrun & Hres).
  exists (length h), (h ++ OList out :: ext), out.
  split; [exact Hrun|]. split; [apply load_middle|].
  assert (Hlen : length out = length (mappings h items))
    by (symmetry; eapply Forall2_length; exact Hres).
  split; [exact Hlen|].
  intros Hall. rewrite Hlen. unfold mappings. by rewrite filter_all.
Qed.

Lemma merge_length_witness :
  exists merged_books h' out,
    merge_reviews_with_books 3 7 6 sample_store = Some (Ok merged_books, h') /\
    load h' merged_books = OList out /\
    length out = length (mappings sample_store [2; 3]) /\
    (Forall (fun book => is_dict_obj (load sample_store book) = true) [2; 3] ->
     length out = length [2; 3]).
Proof.
  apply (merge_length sample_store 7 6 [ ("A", 5) ] [2; 3] 3
           sample_store_closed).
  - reflexivity.
  - reflexivity.
  - simpl. lia.
Defined.

(** C3 (as amended): for a list of books the merger never raises; an item
    that is not a mapping is left out, and every mapping gives exactly one
    record, the mapping itself or a new dictionary.  When the lookup of a
    record fails (here: an identifier that is a list, which cannot be
    hashed), the record put in the result is the original one. *)
Theorem merge_never_raises (h : store) (books reviews : loc)
    (r : entries) (items : list loc) (fuel : nat) :
  closed h ->
  load h reviews = ODict r ->
  load h books = OList items ->
  length items < fuel ->
  exists merged_books h' out,
    merge_reviews_with_books fuel books reviews h = Some (Ok merged_books, h') /\
    load h' merged_books = OList out /\
    Forall2
      (fun book o =>
         (o = book \/ length h < o) /\
         (forall book_d id x xs,
             load h book = ODict book_d ->
             lookup_entry "book" book_d = None ->
             lookup_entry "id" book_d = Some id ->
             load h id = OList (x :: xs) ->
             o = book))
      (mappings h items) out.
Proof.
  intros Hc Hrd Hb Hf.
  assert (Hr : reviews < length h)
    by (eapply load_in_range; [exact Hrd|discriminate]).
  destruct (merge_correct h reviews Hc Hr books items Hb fuel Hf)
    as (out & ext & Hrun & Hres).
  exists (length h), (h ++ OList out :: ext), out.
  split; [exact Hrun|]. split; [apply load_middle|].
  eapply Forall2_impl; [exact Hres|].
  intros book o Hbo. unfold result_of in Hbo.
  destruct (expected h reviews book) as [| |d] eqn:Eexp; [done| |].
  - split; [by left|]. intros; exact Hbo.
  - destruct Hbo as [[Hlt _] _]. split; [by right|].
    intros book_d id x xs H1 H2 H3 H4.
    rewrite (expected_unhashable_id h reviews book id x book_d xs H1 H2 H3 H4)
      in Eexp.
    discriminate.
Qed.

Lemma merge_never_raises_witness :
  exists merged_books h' out,
    merge_reviews_with_books 3 7 6 sample_store = Some (Ok merged_books, h') /\
    load h' merged_books = OList out /\
    Forall2
      (fun book o =>
         (o = book \/ length sample_store < o) /\
         (forall book_d id x xs,
             load sample_store book = ODict book_d ->
             lookup_entry "book" book_d = None ->
             lookup_entry "id" book_d = Some id ->
             load sample_store id = OList (x :: xs) ->
             o = book))
      (mappings sample_store [2; 3]) out.
Proof.
  apply (merge_never_raises sample_store 7 6 [ ("A", 5) ] [2; 3] 3
           sample_store_closed).
  - reflexivity.
  - reflexivity.
  - simpl. lia.
Defined.

(** C3 (as stated, refuted): a [None] item does not pass through, it is left
    out of the result. *)
Lemma none_item_is_dropped : ~ malformed_pass_through.
Proof.
  intros H.
  specialize (H 2 [ONone; OList [0]; ODict []]
                [ONone; OList [0]; ODict []; OList []] 1 2 3 [0] []
                eq_refl eq_refl eq_refl 0).
  assert (Hin : 0 ∈ ([] : list nat)).
  { apply H; [apply list_elem_of_here|reflexivity]. }
  by apply not_elem_of_nil in Hin.
Qed.

(** C8 (as amended): with an empty lookup the records of the result are
    equal to the mappings of the input, in order; the items that are not
    mappings are left out.  When every item is a mapping, the result is equal
    to the input, record by record. *)
Theorem merge_empty_lookup (h : store) (books reviews : loc)
    (items : list loc) (fuel : nat) :
  closed h ->
  load h reviews = ODict [] ->
  load h books = OList items ->
  length items < fuel ->
  exists merged_books h' out,
    merge_reviews_with_books fuel books reviews h = Some (Ok merged_books, h') /\
    load h' merged_books = OList out /\
    Forall2 (fun book o => load h' o = load h book) (mappings h items) out /\
    (Forall (fun book => is_dict_obj (load h book) = true) items ->
     Forall2 (fun book o => load h' o = load h book) items out).
Proof.
  intros Hc Hr Hb Hf.
  assert (Hrl : reviews < length h)
    by (eapply load_in_range; [exact Hr|discriminate]).
  destruct (merge_correct h reviews Hc Hrl books items Hb fuel Hf)
    as (out & ext & Hrun & Hres).
  exists (length h), (h ++ OList out :: ext), out.
  split; [exact Hrun|]. split; [apply load_middle|].
  assert (Heq : Forall2 (fun book o => load (h ++ OList out :: ext) o = load h book)
                        (mappings h items) out).
  { eapply Forall2_impl_l;
      [exact (mappings_in_range h books items Hc Hb)|exact Hres|].
    intros book o [Hlt _] Hbo. unfold result_of in Hbo.
    destruct (expected h reviews book) as [| |d] eqn:Eexp; [done| |].
    - subst o. by apply load_app_l.
    - destruct Hbo as [_ ->]. symmetry.
      by apply (expected_copied_no_reviews h reviews). }
  split; [exact Heq|].
  intros Hall. unfold mappings in Heq. by rewrite filter_all in Heq.
Qed.

Lemma merge_empty_lookup_witness :
  exists merged_books h' out,
    merge_reviews_with_books 3 5 4 sample_store_no_reviews
      = Some (Ok merged_books, h') /\
    load h' merged_books = OList out /\
    Forall2 (fun book o => load h' o = load sample_store_no_reviews book)
            (mappings sample_store_no_reviews [2; 3]) out /\
    (Forall (fun book => is_dict_obj (load sample_store_no_reviews book) = true)
            [2; 3] ->
     Forall2 (fun book o => load h' o = load sample_store_no_reviews book)
             [2; 3] out).
Proof.
  apply (merge_empty_lookup sample_store_no_reviews 5 4 [2; 3] 3
           sample_store_no_reviews_closed).
  - reflexivity.
  - reflexivity.
  - simpl. lia.
Defined.

(** C8 (as stated, refuted): merging an empty lookup into the list [[None]]
    gives the empty list, not the input. *)
Lemma empty_lookup_drops_none : ~ empty_lookup_identity.
Proof.
  intros H.
  specialize (H 2 [ONone; OList [0]; ODict []]
                [ONone; OList [0]; ODict []; OList []] 1 2 3 [0] []
                eq_refl eq_refl eq_refl eq_refl).
  inversion H.
Qed.

(** C9: the merger changes no object of the store it is called in: the list
    of books, its items, the lookup and the review records are as they were.
    The result is a new list; each of its records is the input mapping itself
    or a new dictionary, with the entries of the input mapping and the
    entries of its review over them. *)
Theorem merge_frame (h : store) (books reviews : loc)
    (r : entries) (items : list loc) (fuel : nat) :
  closed h ->
  load h reviews = ODict r ->
  load h books = OList items ->
  length items < fuel ->
  exists merged_books h' out,
    merge_reviews_with_books fuel books reviews h = Some (Ok merged_books, h') /\
    load h' merged_books = OList out /\
    (* the objects of [h] are unchanged *)
    (forall l, l < length h -> h' !! l = h !! l) /\
    load h' books = OList items /\
    load h' reviews = load h reviews /\
    Forall (fun book => load h' book = load h book) items /\
    (* the result is new *)
    length h <= merged_books /\
    Forall2 (fun book o => o = book \/ copy_of h h' reviews book o)
            (mappings h items) out.
Proof.
  intros Hc Hrd Hb Hf.
  assert (Hr : reviews < length h)
    by (eapply load_in_range; [exact Hrd|discriminate]).
  destruct (merge_correct h reviews Hc Hr books items Hb fuel Hf)
    as (out & ext & Hrun & Hres).
  exists (length h), (h ++ OList out :: ext), out.
  split; [exact Hrun|]. split; [apply load_middle|].
  split; [intros l Hl; by apply lookup_app_l|].
  assert (Hbl : books < length h)
    by (eapply load_in_range; [exact Hb|discriminate]).
  split; [by rewrite load_app_l|].
  split; [by apply load_app_l|].
  split.
  { apply Forall_forall. intros book Hin. apply load_app_l.
    by eapply closed_item. }
  split; [done|].
  eapply Forall2_impl; [exact Hres|].
  intros book o Hbo. unfold result_of in Hbo.
  destruct (expected h reviews book) as [| |d] eqn:Eexp; [done|by left|].
  right. destruct Hbo as [[Hlt _] Hload].
  destruct (expected_copied h reviews book d Eexp)
    as (book_d & new & Hbook & -> & Hnew).
  split; [exact Hlt|]. exists book_d, new. done.
Qed.

Lemma merge_frame_witness :
  exists merged_books h' out,
    merge_reviews_with_books 3 7 6 sample_store = Some (Ok merged_books, h') /\
    load h' merged_books = OList out /\
    (forall l, l < length sample_store -> h' !! l = sample_store !! l) /\
    load h' 7 = OList [2; 3] /\
    load h' 6 = load sample_store 6 /\
    Forall (fun book => load h' book = load sample_store book) [2; 3] /\
    length sample_store <= merged_books /\
    Forall2 (fun book o => o = book \/ copy_of sample_store h' 6 book o)
            (mappings sample_store [2; 3]) out.
Proof.
  apply (merge_frame sample_store 7 6 [ ("A", 5) ] [2; 3] 3
           sample_store_closed).
  - reflexivity.
  - reflexivity.
  - simpl. lia.
Defined.

(** On the sample store the review is found: the record of the result is a
    new dictionary with the rating over the entries of the book. *)
Example merge_sample :
  merge_reviews_with_books 3 7 6 sample_store
  = Some (Ok 8, sample_store
                  ++ [ OList [9];
                       ODict [ ("id", 0); ("title", 1); ("rating", 4) ] ]).
Proof. reflexivity. Qed.

End MergerFacts.

(** ** More on the exporters *)

Module ExporterProps.
Import Normalizer Exporters ExportersMore NormalizerFacts ExporterFacts.

Lemma replace_char_empty (c : Ascii.ascii) (s : string) :
  replace_char c "" s = without_char c s.
Proof.
  unfold without_char. induction s as [|a s IH]; simpl; [done|].
  destruct (Ascii.eqb a c); simpl; by rewrite IH.
Qed.

(** X1: [extract_isbn] on a string gives the string without its hyphens, in
    the ISBN-13 place exactly when 13 characters are left and in the ISBN-10
    place otherwise, whatever the length; the other place is empty. *)
Theorem extract_isbn_split (s : string) :
  let normalized := without_char "-" s in
  extract_isbn (VStr s)
  = Ok (if Nat.eqb (String.length normalized) 13
        then ("", normalized) else (normalized, "")).
Proof.
  simpl. unfold extract_isbn. destruct s as [|a s].
  - reflexivity.
  - cbn [truthy negb String.eqb]. rewrite replace_char_empty.
    destruct (Nat.eqb (String.length _) 10) eqn:E10.
    + apply Nat.eqb_eq in E10. rewrite E10. reflexivity.
    + by destruct (Nat.eqb (String.length _) 13).
Qed.

(** *** Authors *)

Lemma strs_of_app (xs ys : list pyval) :
  strs_of (xs ++ ys)%list
  = match strs_of xs, strs_of ys with
    | Some a, Some b => Some (a ++ b)%list
    | _, _ => None
    end.
Proof.
  induction xs as [|x xs IH]; simpl.
  - by destruct (strs_of ys).
  - destruct x; try reflexivity. rewrite IH.
    destruct (strs_of xs); [|reflexivity]. by destruct (strs_of ys).
Qed.

Lemma strs_of_names (xs : list pyval) :
  (exists ss, strs_of (List.filter truthy (map author_name xs)) = Some ss)
  <-> Forall (fun x => bad_author x = false) xs.
Proof.
  induction xs as [|x xs IH]; simpl.
  - split; [constructor|eauto].
  - destruct (truthy (author_name x)) eqn:Et.
    + simpl. destruct (author_name x) as [| | | |s| |] eqn:En;
        try (split;
             [ intros [ss Hss]; discriminate Hss
             | intros H; inversion H as [|? ? Hx _]; subst;
               destruct x; simpl in *; try discriminate;
               rewrite En in Hx; simpl in Hx; rewrite Et in Hx;
               discriminate ]).
      split.
      * intros [ss Hss].
        destruct (strs_of (List.filter truthy (map author_name xs))) eqn:E;
          [|discriminate].
        constructor; [|apply IH; eauto].
        destruct x; simpl in *; try reflexivity. by rewrite En, andb_false_r.
      * intros H. inversion H as [|? ? _ Hxs]; subst.
        apply IH in Hxs. destruct Hxs as [ss ->]. eauto.
    + rewrite IH. split.
      * intros H. constructor; [|done].
        destruct x; simpl in *; try reflexivity. by rewrite Et.
      * intros H. by inversion H.
Qed.

(** X2: [format_authors_list] fails exactly when the value is a list that is
    not empty and holds a mapping whose name is a true value that is not a
    string; it then raises [TypeError].  Everything else gives a string:
    items that are neither strings nor mappings, and names that are empty,
    are left out. *)
Theorem format_authors_list_fails (authors : pyval) :
  (format_authors_list authors = Raise TypeError
   <-> exists xs, authors = VList xs /\ Exists (fun x => bad_author x = true) xs)
  /\ (forall e, format_authors_list authors = Raise e -> e = TypeError).
Proof.
  assert (Hok : forall xs,
    Forall (fun x => bad_author x = false) xs ->
    exists s, py_join ", " (VList (List.filter truthy (map author_name xs)))
              = Ok s).
  { intros xs H. apply strs_of_names in H. destruct H as [ss Hss].
    unfold py_join. simpl. rewrite Hss. eauto. }
  assert (Hbad : forall xs,
    Exists (fun x => bad_author x = true) xs ->
    py_join ", " (VList (List.filter truthy (map author_name xs)))
    = Raise TypeError).
  { intros xs H. unfold py_join. simpl.
    destruct (strs_of _) eqn:E; [|reflexivity].
    assert (Hall : Forall (fun x => bad_author x = false) xs)
      by (apply strs_of_names; eauto).
    apply Exists_exists in H. destruct H as (x & Hin & Hx).
    rewrite Forall_forall in Hall.
    rewrite Hall in Hx by done. discriminate. }
  assert (Hdec : forall xs,
    Forall (fun x => bad_author x = false) xs
    \/ Exists (fun x => bad_author x = true) xs).
  { induction xs as [|x xs [IH|IH]].
    - left. constructor.
    - destruct (bad_author x) eqn:E.
      + right. by constructor.
      + left. by constructor.
    - right. by constructor 2. }
  unfold format_authors_list.
  destruct authors as [| | | | |xs|]; simpl; rewrite ?orb_true_r;
    try (split; [split; [intros H; discriminate H|intros (? & [=] & _)]
                |intros e H; discriminate H]).
  destruct xs as [|x xs].
  { simpl.
    split; [split; [intros H; discriminate H|]|intros e H; discriminate H].
    intros (xs & [= <-] & H). inversion H. }
  cbn [negb orb].
  destruct (Hdec (x :: xs)) as [Hgood|Hbadx].
  - destruct (Hok _ Hgood) as [s Hs]. rewrite Hs.
    split; [split; [intros H; discriminate H|]|intros e H; discriminate H].
    intros (ys & [= <-] & H).
    apply Exists_exists in H. destruct H as (y & Hin & Hy).
    rewrite Forall_forall in Hgood.
    rewrite Hgood in Hy by done. discriminate.
  - rewrite (Hbad _ Hbadx). split; [split; [eauto|done]|].
    by intros e [= <-].
Qed.

Lemma string_app_assoc (s1 s2 s3 : string) :
  s1 +:+ (s2 +:+ s3) = (s1 +:+ s2) +:+ s3.
Proof.
  induction s1 as [|a s1 IH]; [done|].
  change (String a (s1 +:+ (s2 +:+ s3)) = String a ((s1 +:+ s2) +:+ s3)).
  by rewrite IH.
Qed.

Lemma replace_char_app (c : Ascii.ascii) (by_ s1 s2 : string) :
  replace_char c by_ (s1 +:+ s2)
  = replace_char c by_ s1 +:+ replace_char c by_ s2.
Proof.
  induction s1 as [|a s1 IH]; [done|].
  change (replace_char c by_ (String a (s1 +:+ s2))
          = replace_char c by_ (String a s1) +:+ replace_char c by_ s2).
  cbn [replace_char]. destruct (Ascii.eqb a c).
  - change (by_ +:+ replace_char c by_ (s1 +:+ s2)
            = (by_ +:+ replace_char c by_ s1) +:+ replace_char c by_ s2).
    rewrite IH. apply string_app_assoc.
  - change (String a (replace_char c by_ (s1 +:+ s2))
            = String a (replace_char c by_ s1 +:+ replace_char c by_ s2)).
    by rewrite IH.
Qed.

Lemma replace_char_utc_twice (s : string) :
  replace_char "Z" "+00:00" (replace_char "Z" "+00:00" s)
  = replace_char "Z" "+00:00" s.
Proof.
  induction s as [|a s IH]; simpl; [done|].
  destruct (Ascii.eqb a "Z") eqn:E.
  - change ("+00:00" ++ replace_char "Z" "+00:00" s)%string
      with ("+00:00" +:+ replace_char "Z" "+00:00" s).
    rewrite replace_char_app, IH. reflexivity.
  - simpl. rewrite E. by rewrite IH.
Qed.

(** *** Normalising twice *)

Lemma py_or_soft (v : pyval) : soft (py_or v (VStr "")).
Proof. unfold soft, py_or. destruct (truthy v) eqn:E; auto. Qed.

Lemma py_or_same (v : pyval) : py_or v v = v.
Proof. unfold py_or. by destruct (truthy v). Qed.

Lemma genres_of_list (bd : pydict) (g : pyval) :
  genres_of bd = Ok g -> exists gs, g = VList gs.
Proof.
  unfold genres_of. destruct (truthy _); [|intros [= <-]; eauto].
  destruct (py_iter _); [|discriminate]. intros [= <-]. eauto.
Qed.

Lemma authors_of_list (bd outer : pydict) :
  exists xs, authors_of bd outer = VList xs.
Proof.
  unfold authors_of. destruct (py_or _ _); simpl; eauto.
Qed.

Lemma attribute_names_of_list (outer : pydict) :
  exists xs, attribute_names_of outer = VList xs.
Proof.
  unfold attribute_names_of. destruct (py_or _ _); simpl; eauto.
Qed.

Lemma emoji_reaction_of_soft (outer : pydict) (em : pyval) :
  emoji_reaction_of outer = Ok em -> soft em.
Proof.
  unfold emoji_reaction_of. destruct (truthy (get outer "emoji_reaction")) eqn:E.
  - intros [= <-]. by left.
  - destruct (attr_get _ _); [|discriminate]. intros [= <-]. apply py_or_soft.
Qed.

(** What a second normalisation does to a record built of the values below,
    where the six text fields are true or empty. *)
Lemma normalize_record_again
    (title subtitle isbn imprint page_count published_date description
     cover_image storygraph_genres moods content_warnings status rating review
     liked disliked disagreed contains_spoilers did_not_finish
     review_created_at added_at started finished current_page total_pages
     characters plot writing_style setting emoji_reaction spicy_level : pyval)
    (authors genres attributes : list pyval) :
  soft subtitle -> soft description -> soft cover_image -> soft review ->
  soft started -> soft finished -> soft emoji_reaction ->
  let r :=
    [ ("title", title); ("subtitle", subtitle); ("authors", VList authors);
      ("isbn", isbn); ("imprint", imprint); ("page_count", page_count);
      ("published_date", published_date); ("description", description);
      ("cover_image", cover_image); ("genres", VList genres);
      ("storygraph_genres", storygraph_genres); ("moods", moods);
      ("content_warnings", content_warnings); ("status", status);
      ("rating", rating); ("review", review);
      ("review_summary_liked", liked); ("review_summary_disliked", disliked);
      ("review_summary_disagreed", disagreed);
      ("contains_spoilers", contains_spoilers);
      ("did_not_finish", did_not_finish);
      ("review_created_at", review_created_at); ("added_at", added_at);
      ("started_reading_at", started); ("finished_reading_at", finished);
      ("current_page", current_page); ("total_pages", total_pages);
      ("characters_rating", characters); ("plot_rating", plot);
      ("writing_style_rating", writing_style); ("setting_rating", setting);
      ("attributes", VList attributes); ("emoji_reaction", emoji_reaction);
      ("spicy_level", spicy_level) ] in
  exists r',
    normalize_book (VDict r) = Ok (VDict r') /\
    (forall f, In f kept_fields -> get r' f = get r f) /\
    (forall f v, In (f, v) reset_fields -> get r' f = v) /\
    get r' "genres" = VList (names_of genres) /\
    get r' "attributes" = VList (names_of attributes) /\
    (truthy imprint = true -> get r' "imprint" = imprint) /\
    (truthy review_created_at = true ->
     get r' "review_created_at" = review_created_at).
Proof.
  intros Hsub Hdesc Hcover Hrev Hst Hfin Hemo r.
  assert (Hnorm : forall r0, normalize_mapping r = Ok r0 ->
                             normalize_book (VDict r) = Ok r0)
    by (intros r0 <-; reflexivity).
  assert (Hsoft : forall v, soft v -> py_or v (VStr "") = v).
  { intros v [H| ->]; [|reflexivity]. unfold py_or. by rewrite H. }
  assert (Hgen : genres_of r = Ok (VList (names_of genres))).
  { unfold genres_of. cbn. by destruct genres. }
  assert (Hatt : attribute_names_of r = VList (names_of attributes)).
  { unfold attribute_names_of. cbn. by destruct attributes. }
  assert (Hem : emoji_reaction_of r = Ok emoji_reaction).
  { unfold emoji_reaction_of. cbn.
    destruct Hemo as [H| ->]; [by rewrite H|reflexivity]. }
  assert (Hau : authors_of r r = VList authors).
  { unfold authors_of. cbn. by destruct authors. }
  eexists. split.
  { apply Hnorm. unfold normalize_mapping, rbind.
    change (book_data_of r) with r.
    rewrite Hgen, Hatt, Hem, Hau. cbn. reflexivity. }
  unfold py_or.
  split.
  { intros f Hin. unfold kept_fields in Hin. simpl in Hin.
    repeat (destruct Hin as [<- | Hin]); try (by destruct Hin); cbn;
      rewrite ?(Hsoft _ Hsub), ?(Hsoft _ Hdesc), ?(Hsoft _ Hcover),
              ?(Hsoft _ Hrev), ?(Hsoft _ Hst), ?(Hsoft _ Hfin);
      try reflexivity;
      repeat match goal with
             | |- context [truthy ?v] => destruct (truthy v) eqn:?
             end; try reflexivity; try congruence.
    all: unfold py_or in *;
      repeat match goal with
             | H : soft ?v |- _ => destruct H as [H | ->]
             end; simpl in *; congruence. }
  split.
  { intros f v Hin. unfold reset_fields in Hin. simpl in Hin.
    repeat (destruct Hin as [[= <- <-] | Hin]); try (by destruct Hin);
      reflexivity. }
  split; [reflexivity|]. split; [reflexivity|].
  split; intros H; cbn; by rewrite H.
Qed.

(** X10: a normalised record can be normalised again without an error, but
    not without loss.  Title, subtitle, authors, ISBN, pages, dates, status,
    rating, review, the two booleans and the detailed ratings stay as they
    are (the publisher and the review date when they are true); the
    StoryGraph tags, the review summary and the reading progress go back to
    their defaults, and of the genres and attributes only the names of
    entries that are themselves mappings with a name are left, so none when
    the names are strings. *)
Theorem normalize_twice (raw : pyval) (r : pydict) :
  normalize_book raw = Ok (VDict r) ->
  exists r' genres attributes,
    normalize_book (VDict r) = Ok (VDict r') /\
    (forall f, In f kept_fields -> get r' f = get r f) /\
    (forall f v, In (f, v) reset_fields -> get r' f = v) /\
    get r "genres" = VList genres /\
    get r' "genres" = VList (names_of genres) /\
    get r "attributes" = VList attributes /\
    get r' "attributes" = VList (names_of attributes) /\
    (truthy (get r "imprint") = true -> get r' "imprint" = get r "imprint") /\
    (truthy (get r "review_created_at") = true ->
     get r' "review_created_at" = get r "review_created_at").
Proof.
  intros H.
  assert (Hshape : exists
     title subtitle isbn imprint page_count published_date description
     cover_image storygraph_genres moods content_warnings status rating review
     liked disliked disagreed contains_spoilers did_not_finish
     review_created_at added_at started finished current_page total_pages
     characters plot writing_style setting emoji_reaction spicy_level
     authors genres attributes,
     soft subtitle /\ soft description /\ soft cover_image /\ soft review /\
     soft started /\ soft finished /\ soft emoji_reaction /\
     r = [ ("title", title); ("subtitle", subtitle); ("authors", VList authors);
      ("isbn", isbn); ("imprint", imprint); ("page_count", page_count);
      ("published_date", published_date); ("description", description);
      ("cover_image", cover_image); ("genres", VList genres);
      ("storygraph_genres", storygraph_genres); ("moods", moods);
      ("content_warnings", content_warnings); ("status", status);
      ("rating", rating); ("review", review);
      ("review_summary_liked", liked); ("review_summary_disliked", disliked);
      ("review_summary_disagreed", disagreed);
      ("contains_spoilers", contains_spoilers);
      ("did_not_finish", did_not_finish);
      ("review_created_at", review_created_at); ("added_at", added_at);
      ("started_reading_at", started); ("finished_reading_at", finished);
      ("current_page", current_page); ("total_pages", total_pages);
      ("characters_rating", characters); ("plot_rating", plot);
      ("writing_style_rating", writing_style); ("setting_rating", setting);
      ("attributes", VList attributes); ("emoji_reaction", emoji_reaction);
      ("spicy_level", spicy_level) ]).
  { unfold normalize_book in H.
    destruct (negb (truthy raw) || negb (is_dict raw)).
    - injection H as <-. unfold default_record, soft.
      repeat eexists; by right.
    - destruct raw as [| | | | | |outer];
        try (injection H as <-; unfold default_record, soft;
             repeat eexists; by right).
      unfold normalize_mapping, rbind in H.
      destruct (genres_of _) as [g|] eqn:Eg; [|discriminate].
      destruct (attr_get _ "current_page"); [|discriminate].
      destruct (attr_get _ "page_count"); [|discriminate].
      destruct (emoji_reaction_of _) as [em|] eqn:Eem; [|discriminate].
      injection H as <-.
      destruct (genres_of_list _ _ Eg) as [gs ->].
      destruct (authors_of_list (book_data_of outer) outer) as [au ->].
      destruct (attribute_names_of_list outer) as [ats ->].
      pose proof (emoji_reaction_of_soft _ _ Eem).
      repeat eexists; first [apply py_or_soft | assumption]. }
  destruct Hshape as (title & subtitle & isbn & imprint & page_count
    & published_date & description & cover_image & storygraph_genres & moods
    & content_warnings & status & rating & review & liked & disliked
    & disagreed & contains_spoilers & did_not_finish & review_created_at
    & added_at & started & finished & current_page & total_pages & characters
    & plot & writing_style & setting & emoji_reaction & spicy_level & authors
    & genres & attributes & H1 & H2 & H3 & H4 & H5 & H6 & H7 & ->).
  destruct (normalize_record_again title subtitle isbn imprint page_count
    published_date description cover_image storygraph_genres moods
    content_warnings status rating review liked disliked disagreed
    contains_spoilers did_not_finish review_created_at added_at started
    finished current_page total_pages characters plot writing_style setting
    emoji_reaction spicy_level authors genres attributes
    H1 H2 H3 H4 H5 H6 H7)
    as (r' & Hr' & Hkept & Hreset & Hg & Ha & Hi & Hc).
  exists r', genres, attributes.
  repeat split; try assumption; reflexivity.
Qed.

Lemma normalize_twice_witness :
  exists r r' genres attributes,
    normalize_book rated_book = Ok (VDict r) /\
    normalize_book (VDict r) = Ok (VDict r') /\
    (forall f, In f kept_fields -> get r' f = get r f) /\
    (forall f v, In (f, v) reset_fields -> get r' f = v) /\
    get r "genres" = VList genres /\
    get r' "genres" = VList (names_of genres) /\
    get r "attributes" = VList attributes /\
    get r' "attributes" = VList (names_of attributes) /\
    (truthy (get r "imprint") = true -> get r' "imprint" = get r "imprint") /\
    (truthy (get r "review_created_at") = true ->
     get r' "review_created_at" = get r "review_created_at").
Proof.
  assert (Hn : normalize_book rated_book = Ok (VDict rated_book_normalized))
    by (vm_compute; reflexivity).
  destruct (normalize_twice rated_book rated_book_normalized Hn)
    as (r' & genres & attributes & H).
  exists rated_book_normalized, r', genres, attributes. split; [exact Hn|exact H].
Defined.

(** *** Groups by status *)

Lemma key_eq_str_l (k : string) (v : pyval) :
  key_eq (VStr k) v = true <-> v = VStr k.
Proof.
  destruct v; simpl; try (split; [discriminate|discriminate]).
  rewrite String.eqb_eq. split; [by intros ->|by intros [= ->]].
Qed.

Lemma key_eq_str_r (k : string) (v : pyval) :
  key_eq v (VStr k) = true <-> v = VStr k.
Proof.
  destruct v; simpl; try (split; [discriminate|discriminate]).
  rewrite String.eqb_eq. split; [by intros ->|by intros [= ->]].
Qed.

Lemma key_eq_str_refl (k : string) : key_eq (VStr k) (VStr k) = true.
Proof. by apply key_eq_str_l. Qed.

Local Arguments key_eq : simpl never.

Lemma group_lookup_alter {A : Type} (f : A -> A) (k : string) (status : pyval)
    (d : list (pyval * A)) :
  group_lookup (VStr k) (group_alter f status d)
  = if key_eq (VStr k) status then f <$> group_lookup (VStr k) d
    else group_lookup (VStr k) d.
Proof.
  induction d as [|[k' x] d IH]; simpl.
  - by destruct (key_eq (VStr k) status).
  - destruct (key_eq status k') eqn:E1;
      destruct (key_eq (VStr k) k') eqn:E2;
      destruct (key_eq (VStr k) status) eqn:E3; simpl; rewrite ?E2; try done.
    all: try (by rewrite IH, E3).
    all: try (apply key_eq_str_l in E3; subst status; congruence).
    apply key_eq_str_l in E2. subst k'. apply key_eq_str_r in E1. subst.
    by rewrite key_eq_str_refl in E3.
Qed.

Lemma group_lookup_snoc {A : Type} (key s : pyval) (x : A)
    (d : list (pyval * A)) :
  group_lookup key (d ++ [(s, x)])
  = match group_lookup key d with
    | Some y => Some y
    | None => if key_eq key s then Some x else None
    end.
Proof.
  induction d as [|[k' y] d IH]; simpl; [done|].
  by destruct (key_eq key k').
Qed.

Lemma normalized_record_status (raw : pyval) (nb : pydict) (dflt : pyval) :
  normalized_record raw = Ok nb ->
  normalize_book raw = Ok (VDict nb) /\
  get_default nb "status" dflt = get nb "status".
Proof.
  unfold normalized_record. intros H.
  destruct (normalize_book raw) as [r|] eqn:En; [|discriminate].
  destruct r; try discriminate. injection H as <-. split; [done|].
  apply (normalized_get_default raw _ _ _ En).
  unfold canonical_fields. repeat (first [by left | right]).
Qed.

(** The groups [group_by_status] builds, looked up under a status that is a
    string: the records with that status, in the order of the list, after
    those the group had. *)
Lemma group_by_status_lookup (books : list pyval) :
  forall (acc : list (pyval * list pydict)) (nbs : list pydict),
    mapM normalized_record (not_none books) = Ok nbs ->
    Forall (fun b => hashable (get b "status") = true) nbs ->
    exists groups,
      group_by_status books acc = Ok groups /\
      forall k,
        group_lookup (VStr k) groups
        = match group_lookup (VStr k) acc with
          | Some old => Some (old ++ List.filter (has_status k) nbs)%list
          | None =>
              match List.filter (has_status k) nbs with
              | [] => None
              | group => Some group
              end
          end.
Proof.
  induction books as [|book books IH]; intros acc nbs.
  - intros [= <-] _. exists acc. split; [done|]. intros k. simpl.
    destruct (group_lookup (VStr k) acc); [|done]. by rewrite app_nil_r.
  - assert (Hstep : book <> VNone ->
      mapM normalized_record (book :: not_none books) = Ok nbs ->
      Forall (fun b => hashable (get b "status") = true) nbs ->
      exists groups,
        rbind (normalize_book book) (fun nb =>
          match nb with
          | VDict b =>
              let status := get_default b "status" (VStr "unknown") in
              if hashable status then
                let by_status' :=
                  match group_lookup status acc with
                  | None => (acc ++ [(status, [])])%list
                  | Some _ => acc
                  end in
                group_by_status books
                  (group_alter (fun g => (g ++ [b])%list) status by_status')
              else Raise TypeError
          | _ => Raise AttributeError
          end) = Ok groups /\
        forall k,
          group_lookup (VStr k) groups
          = match group_lookup (VStr k) acc with
            | Some old => Some (old ++ List.filter (has_status k) nbs)%list
            | None =>
                match List.filter (has_status k) nbs with
                | [] => None
                | group => Some group
                end
            end).
    { intros _. simpl.
      destruct (normalized_record book) as [nb|] eqn:Enb; [|discriminate].
      destruct (mapM normalized_record (not_none books)) as [nbs'|] eqn:Enbs;
        [|discriminate].
      intros [= <-] Hhash. inversion Hhash as [|? ? Hh Hhash']; subst.
      destruct (normalized_record_status book nb (VStr "unknown") Enb)
        as [Hn Hst].
      unfold rbind. rewrite Hn. cbn zeta. rewrite Hst, Hh.
      set (status := get nb "status") in *.
      set (acc' := group_alter (fun g => (g ++ [nb])%list) status
                     match group_lookup status acc with
                     | Some _ => acc
                     | None => (acc ++ [(status, [])])%list
                     end).
      destruct (IH acc' nbs' eq_refl Hhash') as (groups & Hrun & Hlook).
      exists groups. split; [exact Hrun|]. intros k. rewrite Hlook.
      unfold acc'. rewrite group_lookup_alter. simpl.
      change (has_status k nb) with (key_eq (VStr k) status).
      destruct (key_eq (VStr k) status) eqn:Ek.
      - apply key_eq_str_l in Ek. rewrite Ek.
        destruct (group_lookup (VStr k) acc) as [old|] eqn:Eold; simpl.
        + rewrite Eold. simpl. by rewrite <- app_assoc.
        + rewrite group_lookup_snoc, Eold, key_eq_str_refl. simpl. done.
      - destruct (group_lookup status acc); [done|].
        rewrite group_lookup_snoc, Ek.
        by destruct (group_lookup (VStr k) acc). }
    unfold not_none. simpl.
    destruct book; try (apply Hstep; discriminate).
    apply IH.
Qed.

Section WithRuntime.
Variable py_repr : pyval -> string.
Variable iso_date : string -> option string.
Variable str_title : string -> string.
Variable float_of_str : string -> option spec_float.
Variable now : string.
Variable json_dumps : pyval -> string.
Variable csv_line : list string -> string.
Variable path_parent : string -> string.
Variable FS : Type.
Variable fs_mkdir : string -> FS -> result unit * FS.
Variable fs_open : string -> FS -> result unit * FS.
Variable fs_write : string -> string -> FS -> result unit * FS.

Set Default Proof Using "Type".

(** X3: [format_date] reads a [Z] as the offset [+00:00]: a timestamp written
    with either gives the same date.  A value that is not a string gives the
    empty string. *)
Theorem format_date_utc (s : string) :
  format_date iso_date (VStr (replace_char "Z" "+00:00" s))
  = format_date iso_date (VStr s)
  /\ (forall v, is_str v = false -> format_date iso_date v = "").
Proof.
  split.
  - unfold format_date. rewrite replace_char_utc_twice.
    destruct s as [|a s]; [reflexivity|]. simpl.
    by destruct (Ascii.eqb a "Z").
  - intros v Hv. unfold format_date.
    destruct v; try discriminate; by destruct (negb _).
Qed.

(** X4: an ISBN that is a true value and not a string (a JSON number) makes
    the row of the tabular export and the object of the structured export
    raise [AttributeError]. *)
Theorem non_text_isbn_fails (raw : pyval) (nb : pydict) :
  normalize_book raw = Ok (VDict nb) ->
  truthy (get nb "isbn") = true ->
  is_str (get nb "isbn") = false ->
  csv_row iso_date raw = Raise AttributeError /\
  clean_book iso_date float_of_str raw = Raise AttributeError.
Proof.
  intros Hn Ht Hs.
  assert (He : extract_isbn (get nb "isbn") = Raise AttributeError).
  { unfold extract_isbn. rewrite Ht. simpl.
    by destruct (get nb "isbn"). }
  unfold csv_row, clean_book, rbind. rewrite Hn, He. done.
Qed.


(** *** Rows and objects *)

Lemma csv_row_normalized (raw : pyval) (row : pydict) :
  csv_row iso_date raw = Ok row ->
  exists nb, normalize_book raw = Ok (VDict nb).
Proof.
  unfold csv_row, rbind. destruct (normalize_book raw) as [nb|]; [|discriminate].
  destruct nb; try discriminate. eauto.
Qed.

(** X5: a row of the tabular export has exactly the 28 columns of the
    header, in the order of the header: the writer finds a value for every
    column and no key it does not know. *)
Theorem csv_row_columns (raw : pyval) (row : pydict) :
  csv_row iso_date raw = Ok row ->
  keys row = fieldnames /\ length (csv_cells py_repr row) = 28%nat.
Proof.
  intros Hrow. destruct (csv_row_normalized raw row Hrow) as [nb Hn].
  destruct (csv_row_ok iso_date raw nb row Hn Hrow)
    as (? & ? & ? & ? & ? & ? & _ & _ & _ & _ & _ & _ & ->).
  split; reflexivity.
Qed.

Lemma clean_book_fields (raw cb : pyval) :
  clean_book iso_date float_of_str raw = Ok cb ->
  exists d detailed summary,
    cb = VDict d /\ keys d = json_fields /\
    get d "detailed_ratings" = VDict detailed /\
    keys detailed = [ "characters"; "plot"; "writing_style"; "setting" ] /\
    get d "review_summary" = VDict summary /\
    keys summary = [ "liked"; "disliked"; "disagreed" ].
Proof.
  unfold clean_book, rbind.
  destruct (normalize_book raw) as [nb|]; [|discriminate].
  destruct nb as [| | | | | |book]; try discriminate.
  destruct (extract_isbn _); [|discriminate].
  destruct (format_authors_list _); [|discriminate].
  destruct (float_or_null _ (get book "rating")); [|discriminate].
  destruct (float_or_null _ (get book "characters_rating")); [|discriminate].
  destruct (float_or_null _ (get book "plot_rating")); [|discriminate].
  destruct (float_or_null _ (get book "writing_style_rating"));
    [|discriminate].
  destruct (float_or_null _ (get book "setting_rating")); [|discriminate].
  intros [= <-]. eexists _, _, _. repeat split; reflexivity.
Qed.

(** X6: the structured export holds one object for each entry that is not
    [None], in order; every object has the same 28 keys in the same order,
    with the four detailed ratings and the three parts of the review summary
    grouped in two objects of their own. *)
Theorem clean_books_objects (books cbs : list pyval) :
  clean_books iso_date float_of_str books = Ok cbs ->
  Forall2 (fun book cb => clean_book iso_date float_of_str book = Ok cb)
          (not_none books) cbs /\
  Forall (fun cb =>
            exists d detailed summary,
              cb = VDict d /\ keys d = json_fields /\
              get d "detailed_ratings" = VDict detailed /\
              keys detailed = [ "characters"; "plot"; "writing_style"; "setting" ] /\
              get d "review_summary" = VDict summary /\
              keys summary = [ "liked"; "disliked"; "disagreed" ])
         cbs.
Proof.
  revert cbs. induction books as [|book books IH]; intros cbs.
  - intros [= <-]. split; constructor.
  - cbn [clean_books].
    assert (Hstep :
      book <> VNone ->
      rbind (clean_book iso_date float_of_str book)
            (fun cb => rbind (clean_books iso_date float_of_str books)
                             (fun cbs0 => Ok (cb :: cbs0))) = Ok cbs ->
      Forall2 (fun book cb => clean_book iso_date float_of_str book = Ok cb)
              (not_none (book :: books)) cbs /\
      Forall (fun cb =>
            exists d detailed summary,
              cb = VDict d /\ keys d = json_fields /\
              get d "detailed_ratings" = VDict detailed /\
              keys detailed = [ "characters"; "plot"; "writing_style"; "setting" ] /\
              get d "review_summary" = VDict summary /\
              keys summary = [ "liked"; "disliked"; "disagreed" ]) cbs).
    { intros Hne. unfold rbind.
      destruct (clean_book iso_date float_of_str book) as [cb|] eqn:Ecb;
        [|discriminate].
      destruct (clean_books iso_date float_of_str books) as [cbs0|] eqn:Ecbs;
        [|discriminate].
      intros [= <-]. destruct (IH cbs0 eq_refl) as [IH1 IH2].
      split.
      - unfold not_none. simpl.
        destruct book; try congruence; by constructor.
      - constructor; [|exact IH2]. exact (clean_book_fields book cb Ecb). }
    destruct book; try (apply Hstep; discriminate).
    intros H. by apply IH.
Qed.

(** *** What an export leaves on disk *)

(** X7: when a record of the list makes the structured export fail, the
    error comes before the file is opened: the directory has been made and
    nothing else has happened.  The same holds for the narrative export. *)
Theorem export_fails_before_open (book : pyval) (books : list pyval)
    (output_path : string) (fs fs1 : FS) (e : exn) :
  fs_mkdir (path_parent output_path) fs = (Ok tt, fs1) ->
  (clean_books iso_date float_of_str (book :: books) = Raise e ->
   export_to_json iso_date float_of_str json_dumps path_parent FS
                  fs_mkdir fs_open fs_write (book :: books) output_path fs
   = (Raise e, fs1)) /\
  (markdown_lines py_repr iso_date str_title now (book :: books) = Raise e ->
   export_to_markdown py_repr iso_date str_title now path_parent FS
                      fs_mkdir fs_open fs_write (book :: books) output_path fs
   = (Raise e, fs1)).
Proof.
  intros Hmk. split; intros Hfail.
  - unfold export_to_json, io_bind, io_lift.
    cbn [truthy negb]. rewrite Hmk, Hfail. reflexivity.
  - unfold export_to_markdown, io_bind, io_lift.
    cbn [truthy negb]. rewrite Hmk, Hfail. reflexivity.
Qed.

Lemma write_rows_ok (output_path : string) (books : list pyval)
    (rows : list pydict) (fs fs' : FS) :
  mapM (csv_row iso_date) (not_none books) = Ok rows ->
  write_all FS fs_write output_path
            (map (fun row => csv_line (csv_cells py_repr row)) rows) fs
    = Some fs' ->
  write_rows py_repr iso_date csv_line FS fs_write output_path books fs
    = (Ok tt, fs').
Proof.
  revert rows fs. induction books as [|book books IH]; intros rows fs.
  - intros [= <-] [= <-]. reflexivity.
  - assert (Hstep : book <> VNone ->
      mapM (csv_row iso_date) (book :: not_none books) = Ok rows ->
      write_all FS fs_write output_path
            (map (fun row => csv_line (csv_cells py_repr row)) rows) fs
        = Some fs' ->
      io_bind FS (io_lift FS (csv_row iso_date book)) (fun row =>
        io_bind FS (fs_write output_path (csv_line (csv_cells py_repr row)))
          (fun _ => write_rows py_repr iso_date csv_line FS fs_write
                               output_path books)) fs
      = (Ok tt, fs')).
    { intros _. simpl. unfold io_bind, io_lift.
      destruct (csv_row iso_date book) as [row|]; [|discriminate].
      destruct (mapM (csv_row iso_date) (not_none books)) as [rows0|] eqn:Erows;
        [|discriminate].
      intros [= <-]. simpl.
      destruct (fs_write output_path _ fs) as [[[]|] fs1]; [|discriminate].
      intros Hw. by apply (IH rows0). }
    unfold not_none. simpl.
    destruct book; try (apply Hstep; discriminate).
    apply IH.
Qed.

Lemma write_rows_fails (output_path : string) (good rest : list pyval)
    (bad : pyval) (rows : list pydict) (e : exn) (fs fs' : FS) :
  mapM (csv_row iso_date) (not_none good) = Ok rows ->
  bad <> VNone ->
  csv_row iso_date bad = Raise e ->
  write_all FS fs_write output_path
            (map (fun row => csv_line (csv_cells py_repr row)) rows) fs
    = Some fs' ->
  write_rows py_repr iso_date csv_line FS fs_write output_path
             (good ++ bad :: rest) fs
    = (Raise e, fs').
Proof.
  intros Hrows Hbad Hfail. revert rows fs Hrows.
  induction good as [|book good IH]; intros rows fs.
  - intros [= <-] [= <-]. simpl. unfold io_bind, io_lift. rewrite Hfail.
    by destruct bad.
  - assert (Hstep : book <> VNone ->
      mapM (csv_row iso_date) (book :: not_none good) = Ok rows ->
      write_all FS fs_write output_path
            (map (fun row => csv_line (csv_cells py_repr row)) rows) fs
        = Some fs' ->
      io_bind FS (io_lift FS (csv_row iso_date book)) (fun row =>
        io_bind FS (fs_write output_path (csv_line (csv_cells py_repr row)))
          (fun _ => write_rows py_repr iso_date csv_line FS fs_write
                               output_path (good ++ bad :: rest))) fs
      = (Raise e, fs')).
    { intros _. simpl. unfold io_bind, io_lift.
      destruct (csv_row iso_date book) as [row|]; [|discriminate].
      destruct (mapM (csv_row iso_date) (not_none good)) as [rows0|] eqn:Erows;
        [|discriminate].
      intros [= <-]. simpl.
      destruct (fs_write output_path _ fs) as [[[]|] fs1]; [|discriminate].
      intros Hw. by apply (IH rows0). }
    unfold not_none. simpl.
    destruct book; try (apply Hstep; discriminate).
    apply IH.
Qed.

(** X8: the tabular export writes as it goes.  When the directory can be
    made, the file opened and the lines written, a list whose records all
    give a row leaves the header and one line for each entry that is not
    [None]; when a record fails after some that gave rows, the error is
    raised and the file is left with the header and the lines written so
    far. *)
Theorem export_to_csv_writes (books : list pyval) (output_path : string)
    (rows : list pydict) (fs fs1 fs2 fs3 : FS) :
  fs_mkdir (path_parent output_path) fs = (Ok tt, fs1) ->
  fs_open output_path fs1 = (Ok tt, fs2) ->
  mapM (csv_row iso_date) (not_none books) = Ok rows ->
  write_all FS fs_write output_path
            (csv_line fieldnames
             :: map (fun row => csv_line (csv_cells py_repr row)) rows) fs2
    = Some fs3 ->
  (books <> [] ->
   export_to_csv py_repr iso_date csv_line path_parent FS
                 fs_mkdir fs_open fs_write books output_path fs
   = (Ok output_path, fs3)) /\
  (forall bad rest e,
     bad <> VNone ->
     csv_row iso_date bad = Raise e ->
     export_to_csv py_repr iso_date csv_line path_parent FS
                   fs_mkdir fs_open fs_write (books ++ bad :: rest)
                   output_path fs
     = (Raise e, fs3)).
Proof.
  intros Hmk Hopen Hrows Hw. cbn [write_all] in Hw.
  destruct (fs_write output_path (csv_line fieldnames) fs2)
    as [[[]|] fs2'] eqn:Eh; [|discriminate].
  split.
  - intros Hne. unfold export_to_csv.
    destruct books as [|book books]; [done|]. cbn [truthy negb].
    unfold io_bind at 1. rewrite Hmk.
    unfold io_bind at 1. rewrite Hopen.
    unfold io_bind at 1. rewrite Eh.
    unfold io_bind at 1.
    by rewrite (write_rows_ok output_path (book :: books) rows fs2' fs3).
  - intros bad rest e Hbad Hfail. unfold export_to_csv.
    destruct (books ++ bad :: rest)%list as [|b0 bs0] eqn:Eb;
      [by destruct books|].
    cbn [truthy negb]. rewrite <- Eb.
    unfold io_bind at 1. rewrite Hmk.
    unfold io_bind at 1. rewrite Hopen.
    unfold io_bind at 1. rewrite Eh.
    unfold io_bind at 1.
    by rewrite (write_rows_fails output_path books rest bad rows e fs2' fs3).
Qed.

(** *** The sections of the narrative export *)

Lemma render_section_lines (groups : list (pyval * list pydict))
    (k : string) (nbs : list pydict) :
  group_lookup (VStr k) groups
  = match List.filter (has_status k) nbs with
    | [] => None
    | group => Some group
    end ->
  render_section py_repr iso_date str_title groups k
  = section_lines py_repr iso_date str_title k (List.filter (has_status k) nbs).
Proof.
  intros H. unfold render_section, section_lines, rbind. rewrite H.
  by destruct (List.filter (has_status k) nbs).
Qed.

(** X9: the narrative export is the header followed by the sections of
    [finished], [reading] and [unread], in this order whatever the order of
    the list.  A section holds the records with its status in the order of
    the list, under a heading with their number; a status without a record
    has no section.  Entries that are [None] and records with another status
    are in no section, and the header counts them. *)
Theorem markdown_sections (books : list pyval) (nbs : list pydict) :
  mapM normalized_record (not_none books) = Ok nbs ->
  Forall (fun b => hashable (get b "status") = true) nbs ->
  markdown_lines py_repr iso_date str_title now books
  = rbind (section_lines py_repr iso_date str_title "finished"
             (List.filter (has_status "finished") nbs)) (fun finished =>
    rbind (section_lines py_repr iso_date str_title "reading"
             (List.filter (has_status "reading") nbs)) (fun reading =>
    rbind (section_lines py_repr iso_date str_title "unread"
             (List.filter (has_status "unread") nbs)) (fun unread =>
    Ok (header_lines now books ++ finished ++ reading ++ unread)%list))).
Proof.
  intros Hn Hhash.
  destruct (group_by_status_lookup books [] nbs Hn Hhash)
    as (groups & Hrun & Hlook).
  unfold markdown_lines, rbind at 1. rewrite Hrun.
  unfold status_order. cbn [mapM].
  rewrite !(render_section_lines groups _ nbs) by (rewrite Hlook; done).
  unfold rbind.
  destruct (section_lines _ _ _ "finished" _) as [s1|]; [|done].
  destruct (section_lines _ _ _ "reading" _) as [s2|]; [|done].
  destruct (section_lines _ _ _ "unread" _) as [s3|]; [|done].
  simpl. by rewrite app_nil_r.
Qed.

End WithRuntime.

Lemma non_text_isbn_fails_witness :
  csv_row sample_iso_date numeric_isbn_book = Raise AttributeError /\
  clean_book sample_iso_date sample_float_of_str numeric_isbn_book
    = Raise AttributeError.
Proof.
  assert (Hn : exists nb, normalize_book numeric_isbn_book = Ok (VDict nb)
                          /\ get nb "isbn" = VInt 9780441013593)
    by (eexists; split; reflexivity).
  destruct Hn as (nb & Hn & Hisbn).
  apply (non_text_isbn_fails sample_iso_date sample_float_of_str
           numeric_isbn_book nb Hn); by rewrite Hisbn.
Defined.

Lemma csv_row_columns_witness :
  csv_row sample_iso_date rated_book = Ok rated_book_row /\
  keys rated_book_row = fieldnames /\
  length (csv_cells sample_repr rated_book_row) = 28%nat.
Proof.
  assert (Hrow : csv_row sample_iso_date rated_book = Ok rated_book_row)
    by (vm_compute; reflexivity).
  split; [exact Hrow|].
  exact (csv_row_columns sample_repr sample_iso_date rated_book
           rated_book_row Hrow).
Defined.

Lemma clean_books_objects_witness :
  clean_books sample_iso_date sample_float_of_str shelf = Ok shelf_objects /\
  length shelf_objects = 3%nat /\
  Forall2 (fun book cb =>
             clean_book sample_iso_date sample_float_of_str book = Ok cb)
          (not_none shelf) shelf_objects /\
  Forall (fun cb =>
            exists d detailed summary,
              cb = VDict d /\ keys d = json_fields /\
              get d "detailed_ratings" = VDict detailed /\
              keys detailed = [ "characters"; "plot"; "writing_style"; "setting" ] /\
              get d "review_summary" = VDict summary /\
              keys summary = [ "liked"; "disliked"; "disagreed" ])
         shelf_objects.
Proof.
  assert (H : clean_books sample_iso_date sample_float_of_str shelf
              = Ok shelf_objects) by (vm_compute; reflexivity).
  split; [exact H|]. split; [reflexivity|].
  exact (clean_books_objects sample_iso_date sample_float_of_str shelf
           shelf_objects H).
Defined.

Lemma export_fails_before_open_witness :
  export_to_json sample_iso_date sample_float_of_str sample_json_dumps
                 sample_parent (list fs_op) rec_mkdir rec_open rec_write
                 [numeric_isbn_book] "exports/books.json" []
  = (Raise AttributeError, [Mkdir "exports"]) /\
  export_to_markdown sample_repr sample_iso_date sample_title sample_now
                     sample_parent (list fs_op) rec_mkdir rec_open rec_write
                     [numeric_genre_book] "exports/books.md" []
  = (Raise TypeError, [Mkdir "exports"]).
Proof.
  split.
  - apply (export_fails_before_open sample_repr sample_iso_date sample_title
             sample_float_of_str sample_now sample_json_dumps sample_parent
             (list fs_op) rec_mkdir rec_open rec_write
             numeric_isbn_book [] "exports/books.json" [] [Mkdir "exports"]
             AttributeError eq_refl).
    vm_compute. reflexivity.
  - apply (export_fails_before_open sample_repr sample_iso_date sample_title
             sample_float_of_str sample_now sample_json_dumps sample_parent
             (list fs_op) rec_mkdir rec_open rec_write
             numeric_genre_book [] "exports/books.md" [] [Mkdir "exports"]
             TypeError eq_refl).
    vm_compute. reflexivity.
Defined.

Lemma export_to_csv_writes_witness :
  exists log,
    write_all (list fs_op) rec_write "exports/books.csv"
      (sample_csv_line fieldnames
       :: map (fun row => sample_csv_line (csv_cells sample_repr row))
              shelf_rows)
      [Mkdir "exports"; Open "exports/books.csv"] = Some log /\
    length log = 6%nat /\
    export_to_csv sample_repr sample_iso_date sample_csv_line sample_parent
                  (list fs_op) rec_mkdir rec_open rec_write
                  shelf "exports/books.csv" []
    = (Ok "exports/books.csv", log) /\
    export_to_csv sample_repr sample_iso_date sample_csv_line sample_parent
                  (list fs_op) rec_mkdir rec_open rec_write
                  (shelf ++ [numeric_isbn_book; finished_book])
                  "exports/books.csv" []
    = (Raise AttributeError, log).
Proof.
  eexists. split; [vm_compute; reflexivity|]. split; [reflexivity|].
  assert (Hrows : mapM (csv_row sample_iso_date) (not_none shelf)
                  = Ok shelf_rows) by (vm_compute; reflexivity).
  pose proof (export_to_csv_writes sample_repr sample_iso_date
                sample_csv_line sample_parent (list fs_op)
                rec_mkdir rec_open rec_write shelf "exports/books.csv"
                shelf_rows [] [Mkdir "exports"]
                [Mkdir "exports"; Open "exports/books.csv"] _
                eq_refl eq_refl Hrows eq_refl) as [Hok Hfail].
  split.
  - apply Hok. discriminate.
  - apply (Hfail numeric_isbn_book [finished_book] AttributeError);
      [discriminate|vm_compute; reflexivity].
Defined.

Lemma markdown_sections_witness :
  mapM normalized_record (not_none shelf) = Ok shelf_normalized /\
  List.filter (has_status "finished") shelf_normalized
    = [ nth 2 shelf_normalized [] ] /\
  List.filter (has_status "reading") shelf_normalized
    = [ nth 0 shelf_normalized [] ] /\
  List.filter (has_status "unread") shelf_normalized = [] /\
  markdown_lines sample_repr sample_iso_date sample_title sample_now shelf
  = rbind (section_lines sample_repr sample_iso_date sample_title "finished"
             (List.filter (has_status "finished") shelf_normalized))
      (fun finished =>
    rbind (section_lines sample_repr sample_iso_date sample_title "reading"
             (List.filter (has_status "reading") shelf_normalized))
      (fun reading =>
    rbind (section_lines sample_repr sample_iso_date sample_title "unread"
             (List.filter (has_status "unread") shelf_normalized))
      (fun unread =>
    Ok (header_lines sample_now shelf ++ finished ++ reading ++ unread)%list))).
Proof.
  assert (Hn : mapM normalized_record (not_none shelf) = Ok shelf_normalized)
    by (vm_compute; reflexivity).
  split; [exact Hn|]. split; [reflexivity|]. split; [reflexivity|].
  split; [reflexivity|].
  apply (markdown_sections sample_repr sample_iso_date sample_title sample_now
           shelf shelf_normalized Hn).
  unfold shelf_normalized. repeat constructor.
Defined.

End ExporterProps.


(** ** More on the review merger *)

Module MergerProps.
Import Merger MergerMore MergerFacts.
Local Open Scope nat_scope.
Local Open Scope list_scope.

Lemma lookup_set_entry (k k' : string) (l : loc) (d : entries) :
  lookup_entry k (set_entry k' l d)
  = if String.eqb k k' then Some l else lookup_entry k d.
Proof.
  induction d as [|[k0 l0] d IH]; simpl.
  - by destruct (String.eqb k k').
  - destruct (String.eqb k' k0) eqn:E0; simpl.
    + apply String.eqb_eq in E0. subst k0.
      by destruct (String.eqb k k').
    + destruct (String.eqb k k0) eqn:E1; [|exact IH].
      apply String.eqb_eq in E1. subst k0.
      rewrite String.eqb_sym, E0. reflexivity.
Qed.

Lemma lookup_entry_none (k : string) (d : entries) :
  k ∉ map fst d -> lookup_entry k d = None.
Proof.
  induction d as [|[k0 l0] d IH]; simpl; [done|].
  intros Hnot. destruct (String.eqb k k0) eqn:E.
  - apply String.eqb_eq in E. subst. exfalso. apply Hnot. apply list_elem_of_here.
  - apply IH. intros Hin. apply Hnot. by apply list_elem_of_further.
Qed.

(** [dict.update]: the entries of [new] win, the other keys keep their
    values. *)
Lemma update_entries_overlaid (book_d new : entries) :
  NoDup (map fst new) -> overlaid book_d new (update_entries book_d new).
Proof.
  unfold overlaid, update_entries. revert book_d.
  induction new as [|[k' l] new IH]; intros book_d Hnd k; simpl; [done|].
  inversion Hnd as [|? ? Hnot Hnd']; subst.
  rewrite (IH _ Hnd'). rewrite lookup_set_entry.
  destruct (String.eqb k k') eqn:E.
  - apply String.eqb_eq in E. subst k'. by rewrite lookup_entry_none.
  - reflexivity.
Qed.

Lemma set_entry_keys (k : string) (l : loc) (d : entries) :
  exists added, map fst (set_entry k l d) = map fst d ++ added.
Proof.
  induction d as [|[k0 l0] d [added IH]]; simpl.
  - by exists [k].
  - destruct (String.eqb k k0); simpl.
    + exists []. by rewrite app_nil_r.
    + exists added. by rewrite IH.
Qed.

(** The keys of the book keep their places at the front of the copy. *)
Lemma update_entries_keys (book_d new : entries) :
  exists added, map fst (update_entries book_d new) = map fst book_d ++ added.
Proof.
  unfold update_entries. revert book_d.
  induction new as [|[k l] new IH]; intros book_d; simpl.
  - exists []. by rewrite app_nil_r.
  - destruct (IH (set_entry k l book_d)) as [added Ha]. rewrite Ha.
    destruct (set_entry_keys k l book_d) as [added0 ->].
    exists (added0 ++ added). by rewrite <- app_assoc.
Qed.

Lemma distinct_keys_load (h : store) (l : loc) (d : entries) :
  distinct_keys h -> load h l = ODict d -> NoDup (map fst d).
Proof.
  unfold distinct_keys, load. intros Hd Hl.
  destruct (h !! l) as [o|] eqn:E; simpl in Hl; [|discriminate]. subst o.
  rewrite Forall_forall in Hd.
  apply (Hd (ODict d)). eapply list_elem_of_lookup_2. exact E.
Qed.

Lemma sample_store_distinct_keys : distinct_keys sample_store.
Proof.
  unfold distinct_keys, sample_store.
  repeat (apply List.Forall_cons); try exact I; try apply List.Forall_nil.
  all: simpl.
  all: repeat (apply NoDup_cons_2;
               [rewrite ?elem_of_cons, ?elem_of_nil; intuition discriminate|]).
  all: apply NoDup_nil_2.
Qed.

Lemma expected_review_of (h : store) (reviews book : loc)
    (book_d new : entries) :
  load h book = ODict book_d ->
  review_of h reviews book = Some new ->
  expected h reviews book = Copied (update_entries book_d new).
Proof.
  unfold review_of, expected. intros ->.
  destruct (load h (book_data_loc h book book_d)) as [| | | | | |[|kv bd]];
    try discriminate.
  destruct (lookup_entry "id" (kv :: bd)) as [id|]; [|discriminate].
  unfold overlay.
  destruct (load h id) as [| | | |s| |]; try discriminate.
  destruct (load h reviews) as [| | | | | |r]; try discriminate.
  cbn [truthy_obj].
  destruct (String.eqb s ""); [discriminate|]. cbn [negb].
  destruct (lookup_entry s r) as [review_data|]; [|discriminate].
  destruct (load h review_data) as [| | | | | |[|kv2 rest]]; try discriminate.
  by intros [= <-].
Qed.

Lemma expected_no_review (h : store) (reviews book : loc) (book_d : entries) :
  load h book = ODict book_d ->
  review_of h reviews book = None ->
  expected h reviews book = Original \/
  expected h reviews book = Copied book_d.
Proof.
  unfold review_of, expected. intros ->.
  destruct (load h (book_data_loc h book book_d)) as [| | | | | |[|kv bd]];
    try (by left).
  destruct (lookup_entry "id" (kv :: bd)) as [id|]; [|by right].
  unfold overlay.
  destruct (load h id) as [|b|n|f|s|xs|d]; cbn [truthy_obj].
  - by right.
  - destruct b; [|by right]. destruct (load h reviews); first [by left | by right].
  - destruct (negb (n =? 0)%Z); [|by right].
    destruct (load h reviews); first [by left | by right].
  - destruct f; try (by right); destruct (load h reviews); first [by left | by right].
  - destruct (load h reviews) as [| | | | | |r];
      try (destruct (negb (String.eqb s "")); first [by left | by right]).
    destruct (String.eqb s ""); cbn [negb]; [by right|].
    destruct (lookup_entry s r) as [review_data|]; [|by right].
    destruct (load h review_data) as [| | | | | |[|kv2 rest]];
      by right.
  - destruct xs; [by right|]. destruct (load h reviews); by left.
  - destruct d; [by right|]. destruct (load h reviews); by left.
Qed.

Lemma review_of_loaded (h : store) (reviews book : loc) (new : entries) :
  review_of h reviews book = Some new ->
  exists review_data, load h review_data = ODict new.
Proof.
  unfold review_of.
  destruct (load h book) as [| | | | | |book_d]; try discriminate.
  destruct (load h (book_data_loc h book book_d)) as [| | | | | |bd];
    try discriminate.
  destruct (lookup_entry "id" bd) as [id|]; [|discriminate].
  destruct (load h id) as [| | | |s| |]; try discriminate.
  destruct (load h reviews) as [| | | | | |r]; try discriminate.
  destruct (String.eqb s ""); [discriminate|].
  destruct (lookup_entry s r) as [review_data|]; [|discriminate].
  destruct (load h review_data) as [| | | | | |[|kv2 rest]] eqn:E;
    try discriminate.
  intros [= <-]. by exists review_data.
Qed.

(** X11: in the result of the merger, the record of a book that has a review
    in the lookup is a new dictionary that reads as the input mapping with
    that review laid over it: every key of the review has the value of the
    review, every other key the value the book has, and the keys of the book
    keep their places.  The record of a book without a review is the input
    mapping itself or a new dictionary with the same entries. *)
Theorem merge_review_wins (h : store) (books reviews : loc)
    (r : entries) (items : list loc) (fuel : nat) :
  closed h ->
  distinct_keys h ->
  load h reviews = ODict r ->
  load h books = OList items ->
  length items < fuel ->
  exists merged_books h' out,
    merge_reviews_with_books fuel books reviews h = Some (Ok merged_books, h') /\
    load h' merged_books = OList out /\
    Forall2
      (fun book o =>
         exists book_d,
           load h book = ODict book_d /\
           match review_of h reviews book with
           | Some new =>
               length h < o /\
               exists d added,
                 load h' o = ODict d /\
                 overlaid book_d new d /\
                 map fst d = map fst book_d ++ added
           | None =>
               (o = book \/ length h < o) /\ load h' o = ODict book_d
           end)
      (mappings h items) out.
Proof.
  intros Hc Hd Hrd Hb Hf.
  assert (Hr : reviews < length h)
    by (eapply load_in_range; [exact Hrd|discriminate]).
  destruct (merge_correct h reviews Hc Hr books items Hb fuel Hf)
    as (out & ext & Hrun & Hres).
  exists (length h), (h ++ OList out :: ext), out.
  split; [exact Hrun|]. split; [apply load_middle|].
  eapply Forall2_impl; [exact Hres|].
  intros book o Hbo. unfold result_of in Hbo.
  destruct (load h book) as [| | | | | |book_d] eqn:Eb;
    try (unfold expected in Hbo; rewrite Eb in Hbo; by destruct Hbo).
  exists book_d. split; [reflexivity|].
  destruct (review_of h reviews book) as [new|] eqn:Er.
  - rewrite (expected_review_of h reviews book book_d new Eb Er) in Hbo.
    destruct Hbo as [[Hlo _] Hload]. split; [exact Hlo|].
    destruct (update_entries_keys book_d new) as [added Hadded].
    exists (update_entries book_d new), added.
    split; [exact Hload|]. split; [|exact Hadded].
    apply update_entries_overlaid.
    destruct (review_of_loaded h reviews book new Er) as [review_data Hl].
    by apply (distinct_keys_load h review_data).
  - destruct (expected_no_review h reviews book book_d Eb Er) as [E | E];
      rewrite E in Hbo.
    + subst o. split; [by left|].
      rewrite load_app_l; [exact Eb|].
      eapply load_in_range; [exact Eb|discriminate].
    + destruct Hbo as [[Hlo _] Hload]. split; [by right|exact Hload].
Qed.

Lemma merge_review_wins_witness :
  review_of sample_store 6 2 = Some [ ("rating", 4) ] /\
  merge_reviews_with_books 3 7 6 sample_store
  = Some (Ok 8,
          sample_store
          ++ [ OList [ 9 ];
               ODict [ ("id", 0); ("title", 1); ("rating", 4) ] ]) /\
  exists merged_books h' out,
    merge_reviews_with_books 3 7 6 sample_store = Some (Ok merged_books, h') /\
    load h' merged_books = OList out /\
    Forall2
      (fun book o =>
         exists book_d,
           load sample_store book = ODict book_d /\
           match review_of sample_store 6 book with
           | Some new =>
               length sample_store < o /\
               exists d added,
                 load h' o = ODict d /\
                 overlaid book_d new d /\
                 map fst d = map fst book_d ++ added
           | None =>
               (o = book \/ length sample_store < o) /\
               load h' o = ODict book_d
           end)
      (mappings sample_store [2; 3]) out.
Proof.
  split; [reflexivity|]. split; [reflexivity|].
  apply (merge_review_wins sample_store 7 6 [ ("A", 5) ] [2; 3] 3
           sample_store_closed sample_store_distinct_keys).
  - reflexivity.
  - reflexivity.
  - simpl. lia.
Defined.

End MergerProps.


(** ** The retrieval client *)

Module ClientProps.
Import Exporters Client.
Local Open Scope list_scope.

Lemma key_eq_str_inv (s : string) (k : pyval) :
  key_eq (VStr s) k = true -> k = VStr s.
Proof.
  destruct k; try discriminate. simpl.
  intros E. by apply String.eqb_eq in E as ->.
Qed.

Lemma lookup_dict_set {A : Type} (a b : string) (x : A) d :
  group_lookup (VStr a) (dict_set (VStr b) x d)
  = if String.eqb a b then Some x else group_lookup (VStr a) d.
Proof.
  induction d as [|[k y] d IH].
  - simpl. by destruct (String.eqb a b).
  - cbn [dict_set]. destruct (key_eq (VStr b) k) eqn:Ek.
    + apply key_eq_str_inv in Ek as ->. cbn [group_lookup key_eq].
      by destruct (String.eqb a b).
    + cbn [group_lookup]. rewrite IH.
      destruct (String.eqb_spec a b) as [->|Hne]; [by rewrite Ek|done].
Qed.

Lemma dict_set_keys {A : Type} (k : pyval) (x : A) d k' :
  k' ∈ map fst (dict_set k x d) -> k' = k \/ k' ∈ map fst d.
Proof.
  induction d as [|[k0 y] d IH]; cbn [dict_set map fst].
  - rewrite elem_of_cons, elem_of_nil. intros [->|[]]. by left.
  - destruct (key_eq k k0); cbn [map fst]; rewrite !elem_of_cons.
    + intros [->|Hin]; right; [by left|by right].
    + intros [->|Hin]; [right; by left|].
      destruct (IH Hin) as [->|Hin']; [by left|right; by right].
Qed.

Lemma filed_under_id id review :
  filed_under id review -> book_id_of review = VStr id.
Proof.
  intros (_ & book_data & Eb & Ei). unfold book_id_of. by rewrite Eb.
Qed.

Lemma filed_under_once id id' review :
  filed_under id review -> filed_under id' review -> id = id'.
Proof.
  intros H1 H2. apply filed_under_id in H1, H2. congruence.
Qed.

Lemma add_reviews_filed reviews reviews_by_book :
  Forall (fun r => exists id, filed_under id r) reviews ->
  add_reviews (map VDict reviews) reviews_by_book
  = Ok (fold_left file_review reviews reviews_by_book).
Proof.
  intros Hall. revert reviews_by_book.
  induction Hall as [|r reviews (id & Hid & book_data & Eb & Ei) _ IH];
    intros reviews_by_book; [done|].
  cbn [map add_reviews method_get fold_left]. rewrite Eb.
  cbn [attr_get]. rewrite Ei. cbn [truthy hashable].
  destruct (String.eqb_spec id "") as [->|_]; [done|]. cbn [negb].
  rewrite IH. do 2 f_equal. unfold file_review, book_id_of.
  by rewrite Eb, Ei.
Qed.

Lemma fold_file_review_keeps reviews id d :
  Forall (fun r => exists id', filed_under id' r) reviews ->
  Forall (fun r => ~ filed_under id r) reviews ->
  group_lookup (VStr id) (fold_left file_review reviews d)
  = group_lookup (VStr id) d.
Proof.
  intros Hall. revert d.
  induction Hall as [|r reviews (id' & Hid') _ IH]; intros d Hnot; [done|].
  apply Forall_cons in Hnot as [Hr Hnot].
  cbn [fold_left]. rewrite IH by done.
  unfold file_review. rewrite (filed_under_id _ _ Hid'), lookup_dict_set.
  destruct (String.eqb_spec id id') as [->|_]; [by destruct Hr|done].
Qed.

Lemma fold_file_review_latest reviews id review :
  Forall (fun r => exists id', filed_under id' r) reviews ->
  latest reviews id review ->
  group_lookup (VStr id) (fold_left file_review reviews [])
  = Some (review_entry review).
Proof.
  intros Hall (before & after & -> & Hid & Hafter).
  apply Forall_app in Hall as [_ Hall].
  apply Forall_cons in Hall as [_ Hall].
  rewrite fold_left_app. cbn [fold_left].
  rewrite fold_file_review_keeps by done.
  unfold file_review at 1. rewrite (filed_under_id _ _ Hid), lookup_dict_set.
  by rewrite String.eqb_refl.
Qed.

Lemma fold_file_review_keys reviews d k :
  Forall (fun r => exists id, filed_under id r) reviews ->
  k ∈ map fst (fold_left file_review reviews d) ->
  k ∈ map fst d \/
  exists id r, k = VStr id /\ r ∈ reviews /\ filed_under id r.
Proof.
  intros Hall. revert d.
  induction Hall as [|r reviews (id & Hid) _ IH]; intros d; [by left|].
  cbn [fold_left]. intros Hin.
  destruct (IH _ Hin) as [Hd|(id' & r' & -> & Hr' & Hid')].
  - unfold file_review in Hd. apply dict_set_keys in Hd as [->|Hd];
      [|by left].
    right. exists id, r. rewrite (filed_under_id _ _ Hid).
    split; [done|]. split; [apply list_elem_of_here|done].
  - right. exists id', r'.
    split; [done|]. split; [by apply list_elem_of_further|done].
Qed.

Section WithService.
Set Default Proof Using "Type".

Context `{Service}.

Lemma present_true (s : string) : s <> "" -> present (Some s) = true.
Proof. intros Hs. simpl. by destruct (String.eqb_spec s ""). Qed.

Lemma validate_signed_in user_id auth_token w :
  signed_in user_id auth_token ->
  validate_credentials w = Some (Returns tt, load_dotenv w).
Proof.
  intros (Hu & Ht & Henv). destruct (Henv w) as [Eu Et].
  unfold validate_credentials.
  by rewrite Eu, Et, !present_true.
Qed.

Lemma user_id_signed_in user_id auth_token w :
  signed_in user_id auth_token ->
  get_user_id w = Some (Returns user_id, load_dotenv w).
Proof.
  intros (Hu & Ht & Henv). destruct (Henv w) as [Eu Et].
  unfold get_user_id. rewrite Eu.
  by destruct (String.eqb_spec user_id "").
Qed.




(** A request that is answered adds its address to the addresses asked. *)
Lemma request_json_asked url what body w :
  answers url body ->
  exists w',
    bind (request url what) json_of w = Some (Returns body, w') /\
    forall asked, records_requests asked -> asked w' = asked w ++ [url].
Proof.
  intros Ha. unfold request, bind, get_headers, ret, http.
  destruct (Ha (headers_for (getenv "FABLE_AUTH_TOKEN" (load_dotenv w)))
              (load_dotenv w)) as (resp & E & Herr & Hj).
  pose proof (fun asked (Hr : records_requests asked) =>
                proj2 (proj2 Hr) url
                  (headers_for (getenv "FABLE_AUTH_TOKEN" (load_dotenv w)))
                  (load_dotenv w)) as Hasked.
  destruct (http_get _ _ _) as [r w'] eqn:Eg. simpl in E, Hasked. subst r.
  rewrite Herr. exists w'. unfold json_of. rewrite Hj.
  split; [reflexivity|].
  intros asked Hr. rewrite (Hasked asked Hr). f_equal. apply (proj1 Hr).
Qed.

Lemma div_100_bounds (n : nat) :
  (100 * (n / 100) <= n < 100 * (n / 100) + 100)%nat.
Proof.
  pose proof (Nat.div_mod_eq n 100).
  pose proof (Nat.mod_upper_bound n 100). lia.
Qed.

Lemma page_urls_cons user_id list_id (k n : nat) :
  page_urls user_id list_id k (S n)
  = VStr (list_books_url user_id list_id (100 * Z.of_nat k) 100)
    :: page_urls user_id list_id (S k) n.
Proof. reflexivity. Qed.

Lemma list_loop_pages user_id auth_token list_id items :
  signed_in user_id auth_token ->
  (forall k : nat,
      (k <= length items / 100)%nat ->
      exists d,
        answers
          (VStr (list_books_url user_id (py_str py_repr list_id)
                   (100 * Z.of_nat k) 100))
          (VDict d) /\
        get_default d "results" (VList [])
        = VList (take 100 (drop (100 * k) items))) ->
  forall fuel k w,
    (k <= length items / 100)%nat ->
    ((length items / 100 - k < fuel)%nat ->
     exists w',
       list_loop fuel user_id list_id (100 * Z.of_nat k)
         (take (100 * k) items) w
       = Some (Returns items, w') /\
       forall asked, records_requests asked ->
         asked w'
         = asked w
           ++ page_urls user_id (py_str py_repr list_id) k
                (S (length items / 100 - k))) /\
    ((fuel <= length items / 100 - k)%nat ->
     list_loop fuel user_id list_id (100 * Z.of_nat k)
       (take (100 * k) items) w
     = None).
Proof.
  intros Hin Hpages. pose proof (div_100_bounds (length items)) as Hb.
  induction fuel as [|fuel IH]; intros k w Hk.
  { split; [lia|done]. }
  destruct (Hpages k Hk) as (d & Ha & Hres).
  cbn [list_loop].
  destruct (request_json_asked _
              ("Failed to fetch books from list "
               +:+ py_str py_repr list_id +:+ ": ") _ w Ha)
    as (w1 & E1 & Hasked).
  unfold bind in E1 |- *.
  destruct (request _ _ w) as [[[resp|f] w0]|]; try discriminate E1.
  destruct (json_of resp w0) as [[[data|f] w0']|]; try discriminate E1.
  injection E1 as -> ->.
  rewrite Hres.
  assert (Hacc : take (100 * k) items ++ take 100 (drop (100 * k) items)
                 = take (100 * k + 100) items) by apply take_take_drop.
  destruct (take 100 (drop (100 * k) items)) as [|x page] eqn:Hp.
  - (* an empty page ends the loop *)
    apply (f_equal length) in Hp. rewrite length_take, length_drop in Hp.
    cbn [length] in Hp. cbn [truthy negb extended].
    rewrite Hacc. rewrite take_ge by lia.
    split; [|lia]. intros _. exists w1. split; [reflexivity|].
    intros asked Hr. rewrite (Hasked asked Hr).
    replace (length items / 100 - k)%nat with 0%nat by lia. reflexivity.
  - apply (f_equal length) in Hp. rewrite length_take, length_drop in Hp.
    cbn [truthy negb extended py_len lift ret]. rewrite Hacc.
    set (n := length (x :: page)) in *.
    destruct (Z.ltb_spec (Z.of_nat n) 100) as [Hlt|Hge].
    + (* a short page ends the loop *)
      rewrite take_ge by lia.
      split; [|lia]. intros _. exists w1. split; [reflexivity|].
      intros asked Hr. rewrite (Hasked asked Hr).
      replace (length items / 100 - k)%nat with 0%nat by lia. reflexivity.
    + (* a full page: the next one is asked *)
      replace (100 * Z.of_nat k + 100)%Z with (100 * Z.of_nat (S k))%Z by lia.
      replace (100 * k + 100)%nat with (100 * S k)%nat by lia.
      destruct (IH (S k) w1) as [IH1 IH2]; [lia|].
      split; intros Hf; [|apply IH2; lia].
      destruct IH1 as (w' & E & Hmore); [lia|].
      exists w'. split; [exact E|].
      intros asked Hr. rewrite (Hmore asked Hr), (Hasked asked Hr).
      replace (S (length items / 100 - k))%nat
        with (S (S (length items / 100 - S k)))%nat by lia.
      rewrite (page_urls_cons _ _ k). rewrite <- app_assoc. reflexivity.
Qed.

(** X12. [fetch_books_from_list] against a service that hands out a list in
    pages of at most 100 books: the call returns the whole list in its order,
    after exactly one request more than the number of full pages, and the
    requests it makes are those for the pages at 0, 100, 200 and so on, in
    this order (so a list of 100 books costs two requests, the second one
    answered by an empty page). *)
Theorem fetch_books_from_list_pages user_id auth_token list_id items :
  signed_in user_id auth_token ->
  (forall k : nat,
      (k <= length items / 100)%nat ->
      exists d,
        answers
          (VStr (list_books_url user_id (py_str py_repr list_id)
                   (100 * Z.of_nat k) 100))
          (VDict d) /\
        get_default d "results" (VList [])
        = VList (take 100 (drop (100 * k) items))) ->
  forall fuel w,
    ((length items / 100 < fuel)%nat ->
     exists w',
       fetch_books_from_list fuel list_id w = Some (Returns items, w') /\
       forall asked, records_requests asked ->
         asked w'
         = asked w
           ++ page_urls user_id (py_str py_repr list_id) 0
                (S (length items / 100)))
    /\
    ((fuel <= length items / 100)%nat ->
     fetch_books_from_list fuel list_id w = None).
Proof.
  intros Hin Hpages fuel w.
  unfold fetch_books_from_list, bind.
  rewrite (validate_signed_in _ _ _ Hin), (user_id_signed_in _ _ _ Hin).
  destruct (list_loop_pages _ _ _ _ Hin Hpages fuel 0%nat
              (load_dotenv (load_dotenv w))) as [H1 H2]; [lia|].
  change (100 * Z.of_nat 0)%Z with 0%Z in H1, H2.
  change (take (100 * 0) items) with (@nil pyval) in H1, H2.
  rewrite Nat.sub_0_r in H1, H2.
  split; intros Hf; [|apply H2; lia].
  destruct (H1 Hf) as (w' & E & Hasked).
  exists w'. split; [exact E|].
  intros asked Hr. rewrite (Hasked asked Hr).
  by rewrite !(proj1 Hr).
Qed.





Lemma validate_signed_out w :
  signed_out w ->
  exists m,
    validate_credentials w = Some (Fails (FableAPIError m), load_dotenv w).
Proof.
  unfold signed_out, validate_credentials. intros [Hu|Ht].
  - rewrite Hu. by eexists.
  - rewrite Ht. destruct (present (getenv "FABLE_USER_ID" _)); by eexists.
Qed.

(** X14. Without credentials nothing is asked: when the user identifier or
    the token is missing or empty, [fetch_owned_books], [fetch_user_lists],
    [fetch_books_from_list] and [fetch_user_reviews] raise [FableAPIError]
    after reading the environment once and before any request or output. *)
Theorem signed_out_no_request fuel list_id w :
  signed_out w ->
  exists m,
    fetch_owned_books fuel w = Some (Fails (FableAPIError m), load_dotenv w) /\
    fetch_user_lists w = Some (Fails (FableAPIError m), load_dotenv w) /\
    fetch_books_from_list fuel list_id w
    = Some (Fails (FableAPIError m), load_dotenv w) /\
    fetch_user_reviews fuel w
    = Some (Fails (FableAPIError m), load_dotenv w).
Proof.
  intros Hout. destruct (validate_signed_out w Hout) as [m E]. exists m.
  unfold fetch_owned_books, fetch_user_lists, fetch_books_from_list,
    fetch_user_reviews, bind.
  by rewrite E.
Qed.

(** X15. [fetch_all_books] hides missing credentials: it prints one warning
    for the owned books and one for the lists, asks nothing, and returns the
    empty list. *)
Theorem fetch_all_books_signed_out fuel w :
  (forall w', signed_out w') ->
  exists m1 m2,
    fetch_all_books fuel w
    = Some (Returns [],
            print ("Warning: Could not fetch user lists: " +:+ m2)
              (load_dotenv
                 (print ("Warning: Could not fetch owned books: " +:+ m1)
                    (load_dotenv w)))).
Proof.
  intros Hout.
  assert (exists m1, fetch_owned_books fuel w
                     = Some (Fails (FableAPIError m1), load_dotenv w))
    as (m1 & E1).
  { destruct (validate_signed_out w (Hout w)) as [m E]. exists m.
    unfold fetch_owned_books, bind. by rewrite E. }
  set (w1 := print ("Warning: Could not fetch owned books: " +:+ m1)
               (load_dotenv w)).
  destruct (validate_signed_out w1 (Hout w1)) as (m2 & E2).
  exists m1, m2.
  unfold fetch_all_books, bind, except_api. rewrite E1.
  unfold say, ret. fold w1.
  unfold all_lists, fetch_user_lists, bind. by rewrite E2.
Qed.


Lemma reviews_page_returns user_id offset w :
  exists page w', reviews_page user_id offset w = Some (Returns page, w').
Proof.
  unfold reviews_page, bind, get_headers, http, ret.
  destruct (http_get _ _ _) as [[msg|resp] w1]; [by eexists _, _|].
  destruct (status_code resp =? 404).
  - destruct (http_get _ _ _) as [[msg|resp'] w2]; [by eexists _, _|].
    destruct (is_error resp'); by eexists _, _.
  - destruct (is_error resp); by eexists _, _.
Qed.

Lemma reviews_loop_no_api_error fuel user_id offset reviews_by_book w m w' :
  reviews_loop fuel user_id offset reviews_by_book w
  <> Some (Fails (FableAPIError m), w').
Proof.
  revert offset reviews_by_book w.
  induction fuel as [|fuel IH]; intros offset reviews_by_book w; [done|].
  cbn [reviews_loop]. unfold bind at 1.
  destruct (reviews_page_returns user_id offset w) as (page & w1 & ->).
  destruct page as [resp|]; [|done].
  unfold bind at 1, json_of.
  destruct (json resp) as [data|]; [|done].
  unfold ret at 1.
  destruct data as [| | | | | |d]; try done.
  destruct (get_default d "results" (VList [])) as [| | | | |results|];
    try done.
  destruct results as [|review results]; [done|].
  unfold bind, lift.
  destruct (add_reviews _ _) as [reviews_by_book'|e]; [|done].
  unfold ret at 1.
  destruct (_ <? _); [done|apply IH].
Qed.

(** X16. [fetch_user_reviews] raises [FableAPIError] only for a missing
    credential, before any request: the error comes from the first or the
    second look at the environment, never from the service. *)
Theorem fetch_user_reviews_api_error fuel w m w' :
  fetch_user_reviews fuel w = Some (Fails (FableAPIError m), w') ->
  (signed_out w /\ w' = load_dotenv w) \/
  (present (getenv "FABLE_USER_ID" (load_dotenv (load_dotenv w))) = false /\
   w' = load_dotenv (load_dotenv w)).
Proof.
  unfold fetch_user_reviews, bind, validate_credentials, signed_out.
  destruct (present (getenv "FABLE_USER_ID" (load_dotenv w))) eqn:Eu;
    cbn [negb]; [|intros [= _ <-]; left; split; [by left|done]].
  destruct (present (getenv "FABLE_AUTH_TOKEN" (load_dotenv w))) eqn:Et;
    cbn [negb]; [|intros [= _ <-]; left; split; [by right|done]].
  unfold ret at 1, get_user_id.
  destruct (getenv "FABLE_USER_ID" (load_dotenv (load_dotenv w)))
    as [user_id|] eqn:Eu2; [|intros [= _ <-]; by right].
  cbn [present]. destruct (String.eqb user_id ""); cbn [negb].
  - intros [= _ <-]. by right.
  - unfold ret at 1. intros E. by apply reviews_loop_no_api_error in E.
Qed.

Lemma each_list_no_api_error fuel lists all_books w m all_books' w' :
  each_list fuel lists all_books w
  <> Some (Fails (FableAPIError m), all_books', w').
Proof.
  revert all_books w.
  induction lists as [|book_list rest IH]; intros all_books w; [done|].
  cbn [each_list].
  destruct (attr_get book_list "id") as [list_id|e]; [|done].
  destruct (truthy list_id); [|apply IH].
  destruct (fetch_books_from_list fuel list_id w) as [[[books|f] w1]|];
    [apply IH| |done].
  destruct f; [apply IH|done|done].
Qed.

(** X17. [fetch_all_books] never raises [FableAPIError]: a failure of the
    owned books, of the lists or of one list is printed as a warning and the
    books gathered so far are kept. *)
Theorem fetch_all_books_no_api_error fuel w :
  raises_api_error (fetch_all_books fuel w) = false.
Proof.
  unfold fetch_all_books, bind, except_api.
  assert (Hlists : forall all_books w0,
             raises_api_error
               (match all_lists fuel all_books w0 with
                | Some (Returns _, all_books', w') => ret all_books' w'
                | Some (Fails (FableAPIError e), all_books', w') =>
                    match say ("Warning: Could not fetch user lists: " +:+ e)
                            w' with
                    | Some (Returns _, w'0) => ret all_books' w'0
                    | Some (Fails f, w'0) => Some (Fails f, w'0)
                    | None => None
                    end
                | Some (Fails f, _, w') => Some (Fails f, w')
                | None => None
                end) = false).
  { intros all_books w0. unfold all_lists.
    destruct (fetch_user_lists w0) as [[[lists|f] w2]|]; [| |done].
    - destruct (py_iter lists) as [items|e]; [|done].
      pose proof (each_list_no_api_error fuel items all_books w2) as Hno.
      destruct (each_list fuel items all_books w2)
        as [[[[[]|f] books] w3]|]; [done| |done].
      destruct f as [m| |e]; [by destruct (Hno m books w3)|done|done].
    - by destruct f. }
  destruct (fetch_owned_books fuel w) as [[[owned|f] w1]|]; [| |done].
  - apply Hlists.
  - destruct f as [m| |e]; [|done|done].
    unfold say, ret at 1. apply Hlists.
Qed.


Lemma div_20_bounds (n : nat) :
  (20 * (n / 20) <= n < 20 * (n / 20) + 20)%nat.
Proof.
  pose proof (Nat.div_mod_eq n 20).
  pose proof (Nat.mod_upper_bound n 20). lia.
Qed.

Lemma reviews_page_served user_id offset body w :
  serves_reviews user_id offset body ->
  exists resp w',
    reviews_page user_id offset w = Some (Returns (Some resp), w') /\
    json resp = Some body.
Proof.
  unfold reviews_page, bind, get_headers, http, ret.
  intros [Ha|[Hnf Ha]].
  - destruct (Ha (headers_for (getenv "FABLE_AUTH_TOKEN" (load_dotenv w)))
                (load_dotenv w)) as (resp & E & Herr & Hj).
    destruct (http_get _ _ _) as [r w1]. simpl in E. subst r.
    destruct (Z.eqb_spec (status_code resp) 404) as [E404|_].
    + unfold is_error in Herr. rewrite E404 in Herr. discriminate Herr.
    + rewrite Herr. by exists resp, w1.
  - destruct (Hnf (headers_for (getenv "FABLE_AUTH_TOKEN" (load_dotenv w)))
                (load_dotenv w)) as (resp & E & E404).
    destruct (http_get _ _ _) as [r w1]. simpl in E. subst r.
    rewrite E404. cbn [Z.eqb Pos.eqb].
    destruct (Ha (headers_for (getenv "FABLE_AUTH_TOKEN" (load_dotenv w1)))
                (load_dotenv w1)) as (resp' & E' & Herr & Hj).
    destruct (http_get _ _ _) as [r w2]. simpl in E'. subst r.
    rewrite Herr. by exists resp', w2.
Qed.

Lemma reviews_loop_step user_id offset d page reviews_by_book fuel w :
  serves_reviews user_id offset (VDict d) ->
  get_default d "results" (VList []) = VList (map VDict page) ->
  Forall (fun r => exists id, filed_under id r) page ->
  exists w1,
    reviews_loop (S fuel) user_id offset reviews_by_book w
    = match page with
      | [] => Some (Returns reviews_by_book, w1)
      | _ :: _ =>
          if Z.of_nat (length page) <? 20 then
            Some (Returns (fold_left file_review page reviews_by_book), w1)
          else
            reviews_loop fuel user_id (offset + 20)
              (fold_left file_review page reviews_by_book) w1
      end.
Proof.
  intros Hs Hres Hpage.
  destruct (reviews_page_served _ _ _ w Hs) as (resp & w1 & E & Hj).
  exists w1. cbn [reviews_loop]. unfold bind at 1. rewrite E.
  unfold bind at 1, json_of. rewrite Hj. unfold ret at 1. rewrite Hres.
  destruct page as [|r page]; [done|].
  change (map VDict (r :: page)) with (VDict r :: map VDict page).
  change (VDict r :: map VDict page) with (map VDict (r :: page)).
  unfold bind. rewrite (add_reviews_filed _ _ Hpage).
  cbn [lift]. unfold ret. rewrite length_map.
  by destruct (_ <? _).
Qed.

Lemma reviews_loop_pages user_id reviews :
  Forall (fun r => exists id, filed_under id r) reviews ->
  (forall k : nat,
      (k <= length reviews / 20)%nat ->
      exists d,
        serves_reviews user_id (20 * Z.of_nat k) (VDict d) /\
        get_default d "results" (VList [])
        = VList (map VDict (take 20 (drop (20 * k) reviews)))) ->
  forall fuel k w,
    (k <= length reviews / 20)%nat ->
    ((length reviews / 20 - k < fuel)%nat ->
     exists w',
       reviews_loop fuel user_id (20 * Z.of_nat k)
         (fold_left file_review (take (20 * k) reviews) []) w
       = Some (Returns (fold_left file_review reviews []), w')) /\
    ((fuel <= length reviews / 20 - k)%nat ->
     reviews_loop fuel user_id (20 * Z.of_nat k)
       (fold_left file_review (take (20 * k) reviews) []) w
     = None).
Proof.
  intros Hall Hpages. pose proof (div_20_bounds (length reviews)) as Hb.
  induction fuel as [|fuel IH]; intros k w Hk.
  { split; [lia|done]. }
  destruct (Hpages k Hk) as (d & Hs & Hres).
  assert (Hacc : take (20 * k) reviews ++ take 20 (drop (20 * k) reviews)
                 = take (20 * k + 20) reviews) by apply take_take_drop.
  assert (Hpage : Forall (fun r => exists id, filed_under id r)
                    (take 20 (drop (20 * k) reviews)))
    by by apply Forall_take, Forall_drop.
  destruct (reviews_loop_step _ _ _ _
              (fold_left file_review (take (20 * k) reviews) []) fuel w
              Hs Hres Hpage) as [w1 ->].
  rewrite <- fold_left_app, Hacc. unfold pydict in *.
  destruct (take 20 (drop (20 * k) reviews)) as [|r page] eqn:Hp;
    apply (f_equal length) in Hp; rewrite length_take, length_drop in Hp.
  - (* an empty page ends the loop *)
    cbn [length] in Hp.
    rewrite take_ge by lia. split; [by eexists|lia].
  - destruct (Z.ltb_spec (Z.of_nat (length (r :: page))) 20) as [Hlt|Hge].
    + (* a short page ends the loop *)
      rewrite take_ge by lia. split; [by eexists|lia].
    + (* a full page: the next one is asked *)
      replace (20 * Z.of_nat k + 20)%Z with (20 * Z.of_nat (S k))%Z by lia.
      replace (20 * k + 20)%nat with (20 * S k)%nat by lia.
      destruct (IH (S k) w1) as [IH1 IH2]; [lia|].
      split; intros Hf; [apply IH1|apply IH2]; lia.
Qed.

(** X18. [fetch_user_reviews] against a service that hands out the reviews in
    pages of at most 20, each page at the newer address or, after a 404
    there, at the older one: the call returns a dictionary in which every
    book identifier has the entry of the last review filed under it (a later
    review of the same book replaces an earlier one), and whose keys are the
    identifiers of the reviews. *)
Theorem fetch_user_reviews_pages user_id auth_token reviews :
  signed_in user_id auth_token ->
  Forall (fun r => exists id, filed_under id r) reviews ->
  (forall k : nat,
      (k <= length reviews / 20)%nat ->
      exists d,
        serves_reviews user_id (20 * Z.of_nat k) (VDict d) /\
        get_default d "results" (VList [])
        = VList (map VDict (take 20 (drop (20 * k) reviews)))) ->
  forall fuel w,
    (length reviews / 20 < fuel)%nat ->
    exists by_book w',
      fetch_user_reviews fuel w = Some (Returns by_book, w') /\
      (forall id r,
          latest reviews id r ->
          group_lookup (VStr id) by_book = Some (review_entry r)) /\
      (forall k,
          k ∈ map fst by_book ->
          exists id r, k = VStr id /\ r ∈ reviews /\ filed_under id r).
Proof.
  intros Hin Hall Hpages fuel w Hfuel.
  destruct (reviews_loop_pages _ _ Hall Hpages fuel 0%nat
              (load_dotenv (load_dotenv w))) as [H1 _]; [lia|].
  destruct H1 as [w' E]; [lia|].
  exists (fold_left file_review reviews []), w'. split; [|split].
  - unfold fetch_user_reviews, bind.
    by rewrite (validate_signed_in _ _ _ Hin), (user_id_signed_in _ _ _ Hin).
  - intros id r Hl. by apply fold_file_review_latest.
  - intros k Hk.
    destruct (fold_file_review_keys _ _ _ Hall Hk) as [Hnil|Hex]; [|done].
    by apply elem_of_nil in Hnil.
Qed.


(** X19. [get_headers] sends the token the same way however it was written
    down: with [JWT ], [Token ] or [Bearer ] in front, the header is [JWT ]
    followed by the rest (one prefix is taken off, not more). *)
Theorem get_headers_authorization w p t :
  p ∈ ["JWT "; "Token "; "Bearer "] ->
  getenv "FABLE_AUTH_TOKEN" (load_dotenv w) = Some (p +:+ t) ->
  authorization w = Some ("JWT " +:+ t).
Proof.
  intros Hp Et. unfold authorization, get_headers, ret. rewrite Et.
  rewrite !elem_of_cons, elem_of_nil in Hp.
  destruct Hp as [->|[->|[->|[]]]]; reflexivity.
Qed.

(** X20. A body that is not JSON is not among the failures the client
    absorbs: [JSONDecodeError] leaves [fetch_all_books], which prints
    warnings for its own errors only, and [fetch_user_reviews], which
    returns what it has for failed requests only. *)
Theorem garbled_body_escapes user_id auth_token fuel w :
  signed_in user_id auth_token ->
  garbled (VStr owned_url) ->
  garbled (VStr (reviews_url user_id 0 20)) ->
  (exists w', fetch_all_books (S fuel) w = Some (Fails JSONDecodeError, w')) /\
  (exists w',
     fetch_user_reviews (S fuel) w = Some (Fails JSONDecodeError, w')).
Proof.
  intros Hin Ho Hr. split.
  - unfold fetch_all_books, bind at 1, except_api, fetch_owned_books,
      bind at 1.
    rewrite (validate_signed_in _ _ _ Hin).
    cbn [owned_loop truthy String.eqb negb owned_url].
    unfold bind at 1, request, bind at 1, get_headers, ret at 1, bind at 1,
      http.
    destruct (Ho (headers_for
                    (getenv "FABLE_AUTH_TOKEN" (load_dotenv (load_dotenv w))))
                (load_dotenv (load_dotenv w))) as (resp & E & Herr & Hj).
    fold owned_url.
    destruct (http_get _ _ _) as [r w1]. simpl in E. subst r.
    rewrite Herr. unfold ret at 1, json_of. rewrite Hj. by eexists.
  - unfold fetch_user_reviews, bind at 1.
    rewrite (validate_signed_in _ _ _ Hin). unfold bind at 1.
    rewrite (user_id_signed_in _ _ _ Hin).
    cbn [reviews_loop]. unfold bind at 1, reviews_page, bind at 1,
      get_headers, ret at 1, bind at 1, http.
    destruct (Hr (headers_for
                    (getenv "FABLE_AUTH_TOKEN"
                       (load_dotenv (load_dotenv (load_dotenv w)))))
                (load_dotenv (load_dotenv (load_dotenv w))))
      as (resp & E & Herr & Hj).
    destruct (http_get _ _ _) as [r w1]. simpl in E. subst r.
    destruct (Z.eqb_spec (status_code resp) 404) as [E404|_].
    { unfold is_error in Herr. rewrite E404 in Herr. discriminate Herr. }
    rewrite Herr. unfold ret at 1, bind, json_of. rewrite Hj. by eexists.
Qed.


Lemma each_list_gathers fuel lists books_of :
  (forall book_list,
      book_list ∈ lists ->
      truthy (get book_list "id") = true ->
      gives (fetch_books_from_list fuel (get book_list "id"))
        (books_of (get book_list "id"))) ->
  forall all_books w,
    exists w',
      each_list fuel (map VDict lists) all_books w
      = Some (Returns tt,
              all_books ++ concat (map (books_listed books_of) lists), w').
Proof.
  induction lists as [|book_list lists IH]; intros Hlists all_books w.
  { cbn [map concat each_list]. rewrite app_nil_r. by eexists. }
  assert (Hrest : forall l,
             l ∈ lists ->
             truthy (get l "id") = true ->
             gives (fetch_books_from_list fuel (get l "id"))
               (books_of (get l "id")))
    by (intros l Hl; apply Hlists; by apply list_elem_of_further).
  cbn [map concat each_list attr_get]. unfold books_listed at 1.
  destruct (truthy (get book_list "id")) eqn:Eid.
  - destruct (Hlists book_list (list_elem_of_here _ _) Eid w) as [w1 Hg].
    destruct (books_of (get book_list "id")) as [books|].
    + rewrite Hg. cbn [default]. rewrite app_assoc. by apply IH.
    + destruct Hg as [m ->]. cbn [default app]. by apply IH.
  - cbn [app]. by apply IH.
Qed.

(** X21. What [fetch_all_books] puts together: the owned books first, then
    the books of every list in the order of the lists; a list without a true
    [id] and a list that could not be fetched add nothing, the same holds for
    the owned books, and nothing is left out for being there already. *)
Theorem fetch_all_books_gathers fuel owned lists books_of w :
  gives (fetch_owned_books fuel) owned ->
  (forall w0,
      exists w',
        fetch_user_lists w0 = Some (Returns (VList (map VDict lists)), w')) ->
  (forall book_list,
      book_list ∈ lists ->
      truthy (get book_list "id") = true ->
      gives (fetch_books_from_list fuel (get book_list "id"))
        (books_of (get book_list "id"))) ->
  exists w',
    fetch_all_books fuel w
    = Some (Returns (default [] owned
                     ++ concat (map (books_listed books_of) lists)), w').
Proof.
  intros Ho Hl Hlists.
  assert (Hall : forall all_books w0,
             exists w',
               all_lists fuel all_books w0
               = Some (Returns tt,
                       all_books
                       ++ concat (map (books_listed books_of) lists), w')).
  { intros all_books w0. unfold all_lists.
    destruct (Hl w0) as [w1 ->]. cbn [py_iter].
    by apply each_list_gathers. }
  unfold fetch_all_books, bind, except_api.
  destruct (Ho w) as [w1 Hg]. destruct owned as [owned|].
  - rewrite Hg. cbn [default].
    destruct (Hall owned w1) as [w2 ->]. by eexists.
  - destruct Hg as [m ->]. unfold say, ret at 1. cbn [default].
    destruct (Hall [] (print ("Warning: Could not fetch owned books: " +:+ m)
                         w1)) as [w2 ->].
    by eexists.
Qed.

End WithService.

Lemma sample_signed_in :
  signed_in (H := sample_service) "u1" "Bearer abc".
Proof. split; [done|]. split; [done|]. intros w. by split. Defined.

Lemma sample_answers (url : string) (body : pyval) :
  sample_reply (VStr url) = Got (Response 200 "" (Some body)) ->
  answers (H := sample_service) (VStr url) body.
Proof. intros E hs w. exists (Response 200 "" (Some body)). by rewrite <- E. Defined.

Lemma paging_signed_in :
  signed_in (H := paging_service) "u1" "Bearer abc".
Proof. split; [done|]. split; [done|]. intros w. by split. Defined.

Lemma paging_answers (url : string) (body : pyval) :
  paging_reply (VStr url) = Got (Response 200 "" (Some body)) ->
  answers (H := paging_service) (VStr url) body.
Proof. intros E hs w. exists (Response 200 "" (Some body)). by rewrite <- E. Defined.

Lemma paging_records_requests :
  records_requests (H := paging_service) (fun w => w).
Proof. by repeat split. Defined.

Lemma hundred_books_pages : (length hundred_books / 100 = 1)%nat.
Proof. vm_compute. reflexivity. Defined.

Lemma fetch_books_from_list_pages_witness :
  (exists w',
     fetch_books_from_list (H := paging_service) 2 (VStr "L2") []
     = Some (Returns hundred_books, w') /\
     w' = [ VStr (list_books_url "u1" "L2" 0 100);
            VStr (list_books_url "u1" "L2" 100 100) ]) /\
  fetch_books_from_list (H := paging_service) 1 (VStr "L2") [] = None.
Proof.
  pose proof (fetch_books_from_list_pages (H := paging_service)
                "u1" "Bearer abc" (VStr "L2") hundred_books
                paging_signed_in) as Hpages.
  assert (Hserved :
    forall k : nat,
      (k <= length hundred_books / 100)%nat ->
      exists d,
        answers (H := paging_service)
          (VStr (list_books_url "u1" "L2" (100 * Z.of_nat k) 100))
          (VDict d) /\
        get_default d "results" (VList [])
        = VList (take 100 (drop (100 * k) hundred_books))).
  { intros k Hk. rewrite hundred_books_pages in Hk.
    destruct k as [|[|k]]; [| |lia].
    - exists [("results", VList hundred_books); ("next", VNone)].
      split; [apply paging_answers|]; vm_compute; reflexivity.
    - exists [("results", VList []); ("next", VNone)].
      split; [apply paging_answers|]; vm_compute; reflexivity. }
  split.
  - destruct (proj1 (Hpages Hserved 2%nat [])) as (w' & E & Hasked).
    { rewrite hundred_books_pages. lia. }
    exists w'. split; [exact E|].
    rewrite (Hasked (fun w => w) paging_records_requests).
    rewrite hundred_books_pages. reflexivity.
  - apply (proj2 (Hpages Hserved 1%nat [])).
    rewrite hundred_books_pages. lia.
Defined.


Lemma signed_out_no_request_witness :
  exists m,
    fetch_owned_books (H := signed_out_service) 1 0%nat
    = Some (Fails (FableAPIError m), 0%nat) /\
    fetch_user_lists (H := signed_out_service) 0%nat
    = Some (Fails (FableAPIError m), 0%nat) /\
    fetch_books_from_list (H := signed_out_service) 1 (VStr "L1") 0%nat
    = Some (Fails (FableAPIError m), 0%nat) /\
    fetch_user_reviews (H := signed_out_service) 1 0%nat
    = Some (Fails (FableAPIError m), 0%nat).
Proof.
  apply (signed_out_no_request (H := signed_out_service) 1 (VStr "L1") 0%nat).
  by left.
Defined.

Lemma fetch_all_books_signed_out_witness :
  exists m1 m2,
    fetch_all_books (H := signed_out_service) 1 0%nat
    = Some (Returns [],
            print (Service := signed_out_service)
              ("Warning: Could not fetch user lists: " +:+ m2)
              (print (Service := signed_out_service)
                 ("Warning: Could not fetch owned books: " +:+ m1) 0%nat)).
Proof.
  apply (fetch_all_books_signed_out (H := signed_out_service) 1 0%nat).
  intros w. by left.
Defined.

Lemma fetch_user_reviews_api_error_witness :
  (signed_out (H := signed_out_service) 0%nat /\ 0%nat = 0%nat) \/
  (present (getenv (Service := signed_out_service) "FABLE_USER_ID" 0%nat)
   = false /\ 0%nat = 0%nat).
Proof.
  apply (fetch_user_reviews_api_error (H := signed_out_service) 1 0%nat
           "FABLE_USER_ID is not set. Please configure your Fable credentials."
           0%nat).
  reflexivity.
Defined.

Lemma fetch_user_reviews_pages_witness :
  exists by_book w',
    fetch_user_reviews (H := sample_service) 1 0%nat
    = Some (Returns by_book, w') /\
    (forall id r,
        latest sample_reviews id r ->
        group_lookup (VStr id) by_book = Some (review_entry r)) /\
    (forall k,
        k ∈ map fst by_book ->
        exists id r, k = VStr id /\ r ∈ sample_reviews /\ filed_under id r).
Proof.
  refine (fetch_user_reviews_pages (H := sample_service)
            "u1" "Bearer abc" sample_reviews sample_signed_in _ _
            1%nat 0%nat _).
  - repeat apply Forall_cons_2; [..|apply Forall_nil_2];
      (exists "b1"; split; [done|];
       exists [("id", VStr "b1")]; by split).
  - intros k Hk. assert (k = 0%nat) as -> by (vm_compute in Hk; lia).
    exists [("results", VList (map VDict sample_reviews)); ("next", VNone)].
    split; [|reflexivity]. right. split.
    + intros hs w. by exists (Response 404 "404 Client Error" None).
    + by apply sample_answers.
  - vm_compute. lia.
Defined.

Lemma get_headers_authorization_witness :
  authorization (H := sample_service) 0%nat = Some "JWT abc".
Proof.
  apply (get_headers_authorization (H := sample_service) 0%nat "Bearer " "abc");
    [|reflexivity].
  do 2 apply list_elem_of_further. apply list_elem_of_here.
Defined.

Lemma garbled_signed_in :
  signed_in (H := garbled_service) "u1" "Bearer abc".
Proof. split; [done|]. split; [done|]. intros w. by split. Defined.

Lemma garbled_body_escapes_witness :
  (exists w',
     fetch_all_books (H := garbled_service) 1 0%nat
     = Some (Fails JSONDecodeError, w')) /\
  (exists w',
     fetch_user_reviews (H := garbled_service) 1 0%nat
     = Some (Fails JSONDecodeError, w')).
Proof.
  apply (garbled_body_escapes (H := garbled_service) "u1" "Bearer abc"
           0%nat 0%nat garbled_signed_in);
    intros hs w; by exists (Response 200 "" None).
Defined.

Lemma fetch_all_books_gathers_witness :
  exists w',
    fetch_all_books (H := sample_service) 2 0%nat
    = Some (Returns (concat sample_owned ++ sample_list), w').
Proof.
  destruct (fetch_all_books_gathers (H := sample_service) 2
              (Some (concat sample_owned)) sample_lists
              (fun _ => Some sample_list) 0%nat) as [w' E].
  - intros w. by exists (S (S w)).
  - intros w. by exists (S w).
  - intros book_list Hin Hid w. exists (S w).
    unfold sample_lists in Hin.
    rewrite !elem_of_cons, elem_of_nil in Hin.
    destruct Hin as [->|[->|[]]]; [reflexivity|discriminate Hid].
  - exists w'. exact E.
Defined.

End ClientProps.


(** ** The command line *)

Module CliProps.
Import Cli.
Local Open Scope list_scope.

Lemma string_map_length (f : ascii -> ascii) (s : string) :
  String.length (string_map f s) = String.length s.
Proof.
  induction s as [|c s IH]; [done|].
  cbn [string_map String.length]. by rewrite IH.
Qed.

Lemma tidy_plain (c : ascii) : plain (tidy c) = true.
Proof. unfold tidy. by destruct (plain c) eqn:E. Qed.

Lemma tidy_of_plain (c : ascii) : plain c = true -> tidy c = c.
Proof. unfold tidy. by intros ->. Qed.

Lemma string_map_tidy_plain (s : string) :
  string_forall plain (string_map tidy s) = true.
Proof.
  induction s as [|c s IH]; [done|].
  cbn [string_map string_forall]. by rewrite tidy_plain, IH.
Qed.

Lemma string_map_tidy_id (s : string) :
  string_forall plain s = true -> string_map tidy s = s.
Proof.
  induction s as [|c s IH]; [done|]. cbn [string_map string_forall].
  intros [Hc Hs]%andb_true_iff. by rewrite tidy_of_plain, IH.
Qed.

(** One character of a name, before the blanks are replaced. *)
Lemma kept_char (c : ascii) :
  kept (VStr (String c EmptyString))
  = Ok (String (if isalnum c || Ascii.eqb c " " || Ascii.eqb c "-"
                   || Ascii.eqb c "_"
                then c else "_"%char) EmptyString).
Proof.
  unfold kept, str_isalnum. cbn [String.eqb string_forall negb andb].
  rewrite andb_true_r.
  assert (Heq : forall d, (if Ascii.eqb c d then String.eqb "" "" else false)
                          = Ascii.eqb c d)
    by (intros d; by destruct (Ascii.eqb c d)).
  rewrite !Heq. by destruct (_ || _).
Qed.

Lemma tidy_after_kept (c : ascii) (rest : string) :
  replace_char " " "_"
    (String (if isalnum c || Ascii.eqb c " " || Ascii.eqb c "-"
                || Ascii.eqb c "_"
             then c else "_"%char) rest)
  = String (tidy c) (replace_char " " "_" rest).
Proof.
  unfold tidy, plain. cbn [replace_char].
  destruct (Ascii.eqb_spec c " ") as [->|Hsp]; [reflexivity|].
  rewrite orb_false_r.
  destruct (isalnum c || Ascii.eqb c "-" || Ascii.eqb c "_") eqn:E.
  - destruct (Ascii.eqb_spec c " "); [done|reflexivity].
  - reflexivity.
Qed.

Lemma safe_name_str (s : string) :
  safe_name (VStr s) = Ok (string_map tidy s).
Proof.
  unfold safe_name. cbn [py_iter].
  assert (H : forall s,
             exists parts,
               mapM kept (chars s) = Ok parts /\
               replace_char " " "_" (String.concat "" parts)
               = string_map tidy s).
  { clear s. induction s as [|c s (parts & E & Hparts)].
    - by exists [].
    - unfold chars in E |- *. cbn [list_ascii_of_string map mapM].
      rewrite kept_char, E. eexists. split; [reflexivity|].
      cbn [string_map]. rewrite <- Hparts.
      destruct parts as [|p parts].
      + exact (tidy_after_kept c "").
      + exact (tidy_after_kept c (String.concat "" (p :: parts))). }
  destruct (H s) as (parts & -> & <-). reflexivity.
Qed.

(** X22. The file name [export_books] makes of the name of a list: for a
    text it has the length of the name and holds only alphanumeric
    characters, hyphens and underscores (no blank, no dot, no path
    separator); a name made of such characters is kept as it is, and making
    a name of the result changes nothing more.  A name that is [None] cannot
    be iterated. *)
Theorem safe_name_text (s : string) :
  exists t,
    safe_name (VStr s) = Ok t /\
    String.length t = String.length s /\
    string_forall plain t = true /\
    safe_name (VStr t) = Ok t /\
    (string_forall plain s = true -> t = s) /\
    safe_name VNone = Raise TypeError.
Proof.
  exists (string_map tidy s). rewrite !safe_name_str.
  split; [done|]. split; [apply string_map_length|].
  split; [apply string_map_tidy_plain|].
  split; [by rewrite string_map_tidy_id by apply string_map_tidy_plain|].
  split; [apply string_map_tidy_id|done].
Qed.

Lemma ask_yes_no_from_again prompt junk rest shown :
  Forall (fun l => yes_no_of l = None) junk ->
  ask_yes_no_from prompt (junk ++ rest) shown
  = ask_yes_no_from prompt rest (shown ++ asked_again prompt junk).
Proof.
  intros Hjunk. revert shown.
  induction Hjunk as [|l junk Hl _ IH]; intros shown.
  - unfold asked_again. cbn [map concat app]. by rewrite app_nil_r.
  - cbn [app ask_yes_no_from]. rewrite Hl, IH.
    unfold asked_again. cbn [map concat]. by rewrite <- !app_assoc.
Qed.

(** X23. [ask_yes_no] asks until it gets an answer: every line that is not
    one costs the question and a hint, the first line that is an answer ends
    the loop with its value and leaves the lines after it untouched; when no
    line is an answer the question is asked once more and the end of the
    input is met. *)
Theorem ask_yes_no_loop prompt junk shown :
  Forall (fun l => yes_no_of l = None) junk ->
  (forall line rest b,
      yes_no_of line = Some b ->
      ask_yes_no prompt (Terminal (junk ++ line :: rest) shown)
      = (Answered b,
         Terminal rest
           (shown ++ asked_again prompt junk ++ [yes_no_prompt prompt]))) /\
  ask_yes_no prompt (Terminal junk shown)
  = (EndOfInput,
     Terminal []
       (shown ++ asked_again prompt junk ++ [yes_no_prompt prompt])).
Proof.
  intros Hjunk. unfold ask_yes_no. cbn [typed Cli.shown]. split.
  - intros line rest b Hb.
    rewrite ask_yes_no_from_again by done.
    cbn [ask_yes_no_from]. by rewrite Hb, <- app_assoc.
  - rewrite <- (app_nil_r junk) at 1.
    rewrite ask_yes_no_from_again by done.
    cbn [ask_yes_no_from]. by rewrite <- app_assoc.
Qed.

Lemma isspace_lower_char (c : ascii) : isspace (lower_char c) = isspace c.
Proof. destruct c as [[] [] [] [] [] [] [] []]; reflexivity. Qed.

Lemma lower_char_twice (c : ascii) :
  lower_char (lower_char c) = lower_char c.
Proof. destruct c as [[] [] [] [] [] [] [] []]; reflexivity. Qed.

Lemma lower_twice (s : string) : lower (lower s) = lower s.
Proof.
  induction s as [|c s IH]; [done|].
  unfold lower in *. cbn [string_map]. by rewrite lower_char_twice, IH.
Qed.

Lemma lstrip_lower (s : string) : lstrip (lower s) = lower (lstrip s).
Proof.
  induction s as [|c s IH]; [done|].
  unfold lower in *. cbn [string_map lstrip]. rewrite isspace_lower_char.
  by destruct (isspace c).
Qed.

Lemma rstrip_lower (s : string) : rstrip (lower s) = lower (rstrip s).
Proof.
  induction s as [|c s IH]; [done|].
  unfold lower in *. cbn [string_map rstrip]. rewrite IH, isspace_lower_char.
  destruct (rstrip s); [by destruct (isspace c)|done].
Qed.

Lemma strip_lower (s : string) : strip (lower s) = lower (strip s).
Proof. unfold strip. by rewrite lstrip_lower, rstrip_lower. Qed.

Lemma lstrip_blank (w x : string) : blank w -> lstrip (w +:+ x) = lstrip x.
Proof.
  unfold blank. induction w as [|c w IH]; [done|].
  cbn [string_forall]. intros [Hc Hw]%andb_true_iff.
  change (String c w +:+ x) with (String c (w +:+ x)).
  cbn [lstrip]. rewrite Hc. by apply IH.
Qed.

Lemma rstrip_blank (w : string) : blank w -> rstrip w = "".
Proof.
  unfold blank. induction w as [|c w IH]; [done|].
  cbn [string_forall rstrip]. intros [Hc Hw]%andb_true_iff.
  by rewrite IH, Hc.
Qed.

Lemma rstrip_app_blank (y w : string) :
  blank w -> rstrip (y +:+ w) = rstrip y.
Proof.
  intros Hw. induction y as [|c y IH]; [by apply rstrip_blank|].
  change (String c y +:+ w) with (String c (y +:+ w)).
  cbn [rstrip]. by rewrite IH.
Qed.

Lemma lstrip_app (s w : string) :
  lstrip (s +:+ w)
  = if string_forall isspace s then lstrip w else lstrip s +:+ w.
Proof.
  induction s as [|c s IH]; [done|].
  change (String c s +:+ w) with (String c (s +:+ w)).
  cbn [lstrip string_forall]. by destruct (isspace c).
Qed.

Lemma lstrip_of_blank (w : string) : blank w -> lstrip w = "".
Proof.
  unfold blank. induction w as [|c w IH]; [done|].
  cbn [string_forall lstrip]. intros [Hc Hw]%andb_true_iff.
  rewrite Hc. by apply IH.
Qed.

Lemma strip_padded (ws1 s ws2 : string) :
  blank ws1 -> blank ws2 -> strip (ws1 +:+ s +:+ ws2) = strip s.
Proof.
  intros H1 H2. unfold strip. rewrite (lstrip_blank _ _ H1), lstrip_app.
  destruct (string_forall isspace s) eqn:Hs.
  - by rewrite (lstrip_of_blank _ H2), (lstrip_of_blank _ Hs).
  - by apply rstrip_app_blank.
Qed.

(** X24. What counts as an answer does not depend on the blanks around it
    nor on its case, and a line of blanks (the empty line too) is never an
    answer: there is no default. *)
Theorem yes_no_of_tolerant (ws1 s ws2 : string) :
  blank ws1 ->
  blank ws2 ->
  yes_no_of (ws1 +:+ s +:+ ws2) = yes_no_of s /\
  yes_no_of (lower s) = yes_no_of s /\
  yes_no_of ws1 = None.
Proof.
  intros H1 H2. unfold yes_no_of. split; [|split].
  - by rewrite strip_padded.
  - by rewrite strip_lower, lower_twice.
  - unfold strip. by rewrite (lstrip_of_blank _ H1).
Qed.

Lemma ask_each_sublist cs formats t formats' t' :
  ask_each cs formats t = (Answered formats', t') ->
  exists chosen, formats' = formats ++ chosen /\ sublist chosen (map fst cs).
Proof.
  revert formats t.
  induction cs as [|[key label] cs IH]; intros formats t.
  - cbn [ask_each]. intros [= <- <-]. exists []. by rewrite app_nil_r.
  - cbn [ask_each map fst].
    destruct (ask_yes_no _ t) as [[[|]|] t1]; [| |discriminate].
    + intros (chosen & -> & Hsub)%IH. exists (key :: chosen).
      split; [by rewrite <- app_assoc|by apply sublist_skip].
    + intros (chosen & -> & Hsub)%IH. exists chosen.
      split; [done|by apply sublist_cons].
Qed.

(** X25. Whatever is typed, [select_export_formats] never returns an empty
    choice, and what it returns is taken from csv, json, md in this order,
    each at most once. *)
Theorem select_export_formats_choice t formats t' :
  select_export_formats t = (Answered formats, t') ->
  formats <> [] /\ sublist formats ["csv"; "json"; "md"].
Proof.
  unfold select_export_formats.
  destruct (ask_each choices [] _) as [[fs|] t2] eqn:E; [|discriminate].
  apply ask_each_sublist in E as (chosen & -> & Hsub).
  cbn [app]. destruct chosen as [|c chosen].
  - intros [= <- _]. split; [done|]. apply sublist_skip, sublist_nil_l.
  - intros [= <- _]. by split.
Qed.

Lemma ask_yes_no_loop_witness :
  (forall line rest b,
      yes_no_of line = Some b ->
      ask_yes_no "Proceed with export?"
        (Terminal (["maybe"; ""] ++ line :: rest) [])
      = (Answered b,
         Terminal rest
           ([] ++ asked_again "Proceed with export?" ["maybe"; ""]
            ++ [yes_no_prompt "Proceed with export?"]))) /\
  ask_yes_no "Proceed with export?" (Terminal ["maybe"; ""] [])
  = (EndOfInput,
     Terminal []
       ([] ++ asked_again "Proceed with export?" ["maybe"; ""]
        ++ [yes_no_prompt "Proceed with export?"])).
Proof.
  apply (ask_yes_no_loop "Proceed with export?" ["maybe"; ""] []).
  repeat apply Forall_cons_2; [reflexivity|reflexivity|apply Forall_nil_2].
Defined.

Lemma yes_no_of_tolerant_witness :
  yes_no_of (" " +:+ "YES" +:+ "  ") = yes_no_of "YES" /\
  yes_no_of (lower "YES") = yes_no_of "YES" /\
  yes_no_of " " = None.
Proof.
  apply (yes_no_of_tolerant " " "YES" "  "); reflexivity.
Defined.

Lemma select_export_formats_choice_witness :
  ["csv"] <> [] /\ sublist ["csv"] ["csv"; "json"; "md"].
Proof.
  eapply (select_export_formats_choice sample_terminal ["csv"]).
  vm_compute. reflexivity.
Defined.

End CliProps.
